(* ===== verification/_CoqProject ===== *)
-Q . S2P
Prelude.v
JsNum.v
JsValue.v
JsDate.v
DataCache.v
CallTool.v
Metrics.v
Animate.v
Dashboard.v
Profile.v
