(* ===== verification/Prelude.v ===== *)
(** * A verification library for the dashboard scripts of personal-website

    The repository is a static personal website with three browser
    scripts:
    - [src/dashboard-script.js]: the "TechInvest" dashboard.  Its core is
      a data layer.  [DataCache] is an expiring key/value cache.
      [callMCPTool] looks the request up in the cache, calls the backend
      with [fetch] on a miss, caches a successful answer, and on any
      failure shows a warning and falls back to [getSimulatedData].
      [updateDashboardData] runs three tool calls together with
      [Promise.all].  Its consumers [updateMarketSentiment],
      [updateDeveloperActivity] and [updatePortfolioPerformance] compute
      the KPI figures and write them into the page.
    - [src/profile.js]: the profile editor.  It keeps a [profileData]
      object in [localStorage] and has add/remove-stock and risk-profile
      handlers.
    - [src/script.js]: scroll, menu and animation glue.

    How the components interact.  [updateDashboardData] calls
    [callMCPTool] three times.  [callMCPTool] owns the [dataCache]
    singleton and calls [fetch], [showNotification] and
    [getSimulatedData].  The three update functions consume the payloads.
    State is shared only through the cache and the DOM.

    ** Files (in dependency order)
    - [Prelude]: this header, the JS completion type [res] (a value or a
      thrown [js_error]) with its bind notation in [js_scope], the
      [jsdb] hint database, and shared lemmas on lists and options.
    - [JsNum]: JavaScript numbers as extended rationals ([Fin q], the two
      infinities and [NaN]), with the operators the scripts use:
      arithmetic, [Math.round], [Math.floor], [Number.prototype.toFixed],
      [parseFloat], [parseInt], [Number::toString], and decimal digit
      printing and parsing.
    - [JsValue]: JavaScript values ([undefined], [null], booleans,
      numbers, strings, arrays, plain objects, built-in functions).  It
      models property access with its [TypeError], the prototype members
      a plain object inherits, truthiness, [ToNumber], [ToString] and
      [JSON.stringify].
    - [JsDate]: [Date.now] as an integer millisecond clock, [TimeClip],
      and [Date.prototype.toISOString] via the proleptic Gregorian
      calendar (days <-> civil date).
    - [DataCache]: [class DataCache] (dashboard-script.js 26-56) over a
      [gmap string entry], with an explicit clock.  Its abstract contract
      is the class [ExpiringCache] with its laws [ExpiringCacheLaws];
      [Module DataCache] gives the instance, and [Module NoEvict] is the
      reference cache that never deletes and checks freshness on read.
    - [CallTool]: [MCP_CONFIG], the cache-key fingerprint,
      [getSimulatedData] and [callMCPTool] (dashboard-script.js 4-147).
      [callMCPTool] is split at its [await]s into a dispatch step and a
      resume step over a world record (cache, notifications, request
      log), driven by an oracle that gives the clock, the network answer
      and [Math.random].
    - [Metrics]: [updateMarketSentiment], [updateDeveloperActivity],
      [updatePortfolioPerformance] and [updateDashboardSimulated]
      (dashboard-script.js 254-388), over a record of the KPI elements of
      the page.  Each call of [animateValue] is recorded as an
      [animation].
    - [Animate]: [animateValue]'s [setInterval] callback (391-408) as a
      [tick] on a [timer] record (current value, whether the interval is
      still set, the element's text); [animate] is the state after [n]
      ticks of 16 ms.
    - [Dashboard]: [updateDashboardData] (209-251).  A state [dash] holds
      the world of [CallTool], the page of [Metrics], the three calls of
      [Promise.all] (each waiting on its cache key or settled) and whether
      the continuation or the catch block has run.  [settle] is one step:
      one pending fetch settles, and [advance] runs the [then]
      continuation once all three have values, or the catch block at the
      first rejection.  [dash_equiv] compares states with notification
      lists up to permutation.
    - [Profile]: profile.js as a state-and-exception monad [act] over a
      record of [isEditMode], [profileData], [localStorage] and the page's
      elements.  There is one definition per handler ([toggleEditMode],
      [saveProfileData], [renderStocks], [addStock], [removeStock],
      [handleRiskSelection], [setupPreferences], ...).  An [event] type
      lists the listeners' triggers, and [run] replays a sequence of them.

    ** What the theorems show
    - Cache: with a numeric duration [d], [get] after [set] returns the
      payload while the entry's age is at most [d] (age [d] included).  An
      entry older than [d] is evicted and reads as absent; [clear] empties the cache.  The implementation refines the
      abstract contract.
    - Orchestrator: a hit issues no request and changes nothing.  A
      successful miss caches the payload, and a repeat call within 60 s
      is served from the cache.  After expiry a new request is issued.
      Resume steps on distinct keys commute.  The duration table is keyed
      by [stocks]/[news]/[employment] while the tool names are
      [get_*_data], so every payload is cached for 60 s (finding).  A
      falsy payload is never served from the cache (finding).
      [getSimulatedData] evaluates the three fallback payloads eagerly, so
      it throws for each argument object the dashboard passes (finding).
      The cache key depends on the arguments' key order: two different
      non-index keys in the other order give another key (spec 3 asks
      for the same fingerprint; finding).  This rests on the JSON string
      encoding being a prefix code ([JsValue], checked over all 256
      characters by evaluation).
    - Metrics: the spec's sentiment example (all articles positive on a
      flat market give 70, labelled Neutral).  An empty article list gives
      a [NaN] score, not the neutral 50 (finding).  A negative developer
      activity change and a negative alpha are printed as "+-x%"
      (findings).
    - Numbers: [Math.round], [toFixed], and the digits round trip.
    - Animation: when start equals end, or either is [NaN], the timer
      never stops (finding).  Whenever it has stopped, it holds exactly the
      end value, shows it, and does not change any more.
    - Dashboard: every settle order of the three fetches ends in
      equivalent states (induction on [Permutation], from a swap lemma).
      Once all fetches have settled, the continuation or the catch block
      has run, and the catch block runs at most once.  With the network
      down, the page gets the simulated values with three warnings and
      one info notification.
    - Profile: an invariant holds after every event sequence from the
      loaded page: [localStorage] mirrors [profileData], the card grid
      shows its stocks, symbols are distinct and allocations lie in
      1..100.  Every event keeps the stock list, removes one symbol's
      stocks, or appends one stock.  Edit/save, add/remove and preference
      toggle/reload are round trips.  An allocation of 0 is rejected, and
      an unknown risk is saved and then throws (findings).

    ** Modelling choices
    - JS numbers are IEEE doubles; here they are rationals with infinities
      and NaN, without rounding and without -0.  The scripts' formulas
      are short, and the spec states its examples in exact arithmetic.
    - JS strings are modelled as [String.string] (bytes); the scripts
      use ASCII data only.
    - Asynchrony: [callMCPTool]'s two [await]s are a dispatch step and a
      resume step.  Between the two awaits nothing is shared, so the
      resume is taken as one atomic step.
    - DOM writes, console logging, CSS and canvas drawing are modelled only
      as far as they carry data.  [showNotification] appends to a list;
      the KPI elements are record fields.

    ** Bounds and fuel
    No definition uses fuel.  [animate] takes the number of ticks.  [run]
    replays a finite list of events, and [settle_all] a finite settle
    order.  Termination of [Promise.all] follows because each [settle]
    step removes one waiting call.

    ** Not modelled
    - [loadProfileData]'s [JSON.parse] and the avatar upload
      ([FileReader], data URLs).  The model starts from the page
      [loadProfileData] produces when [localStorage] is empty.
    - [drawSparkline] and [initializeCharts]: canvas drawing.
    - Nav highlighting, smooth scroll, the mobile menus, the refresh
      button, and [updateLastUpdatedTime] ([toLocaleTimeString]).  These
      only move CSS classes and geometry.
    - script.js: scroll, IntersectionObserver, typewriter and parallax
      effects.  It carries no data.
    - The IEEE rounding of arithmetic, in particular of [animateValue]'s
      running sum: when a finite animation stops depends on it (0 to 1
      over 160 ms stops at tick 11 in doubles; 1e20 to 1e20 + 16384 never
      moves), so no theorem states it.
    - The browser's HTML parsing of the stock cards: [renderStocks]
      interpolates symbol, name and reason into [innerHTML] unescaped, so
      a remove button's [data-symbol] may differ from the symbol (quotes,
      character references, markup; finding).  A remove click carries an
      arbitrary string. *)

From stdpp Require Export base list strings.
From Stdlib Require Export QArith Qround Qabs ZArith Lia.

Declare Scope js_scope.
Delimit Scope js_scope with js.
Open Scope js_scope.

Create HintDb jsdb.
Create Rewrite HintDb jsrw.

(** ** Completions: a value or a thrown exception *)

(** The two exception classes the scripts can raise: a [TypeError]
    (property read on [undefined]/[null], calling a non-function) and a
    [RangeError] ([toISOString] on an invalid date, an array length
    beyond 2^32 - 1). *)
Inductive js_error :=
| TypeError (msg : string)
| RangeError (msg : string).

Inductive res (A : Type) :=
| Ok (a : A)
| Throw (e : js_error).
Arguments Ok {A} a.
Arguments Throw {A} e.

Definition res_bind {A B} (c : res A) (k : A -> res B) : res B :=
  match c with
  | Ok a => k a
  | Throw e => Throw e
  end.

Definition res_map {A B} (f : A -> B) (c : res A) : res B :=
  res_bind c (fun a => Ok (f a)).

Notation "x <- c ;; k" := (res_bind c (fun x => k))
  (at level 100, c at next level, right associativity) : js_scope.

Definition is_ok {A} (c : res A) : bool :=
  match c with Ok _ => true | Throw _ => false end.

(** [Array.prototype.map] with a callback that may throw: the callback is
    applied from left to right, and the first exception stops the map. *)
Fixpoint res_mapM {A B} (f : A -> res B) (l : list A) : res (list B) :=
  match l with
  | [] => Ok []
  | x :: l' => y <- f x ;; ys <- res_mapM f l' ;; Ok (y :: ys)
  end.

Lemma res_bind_ok {A B} (a : A) (k : A -> res B) : res_bind (Ok a) k = k a.
Proof. reflexivity. Qed.

Lemma res_bind_throw {A B} e (k : A -> res B) : res_bind (Throw e) k = Throw e.
Proof. reflexivity. Qed.

Lemma res_bind_Ok_inv {A B} (c : res A) (k : A -> res B) b :
  res_bind c k = Ok b -> exists a, c = Ok a /\ k a = Ok b.
Proof. destruct c; simpl; [eauto | discriminate]. Qed.

Lemma res_mapM_length {A B} (f : A -> res B) l l' :
  res_mapM f l = Ok l' -> length l' = length l.
Proof.
  revert l'; induction l as [|x l IH]; simpl; intros l' H.
  - by injection H as <-.
  - destruct (f x); [|discriminate]. simpl in H.
    destruct (res_mapM f l) eqn:E; [|discriminate].
    injection H as <-. simpl. f_equal. by apply IH.
Qed.

Lemma res_mapM_Ok_Forall2 {A B} (f : A -> res B) l l' :
  res_mapM f l = Ok l' -> Forall2 (fun x y => f x = Ok y) l l'.
Proof.
  revert l'; induction l as [|x l IH]; simpl; intros l' H.
  - injection H as <-. constructor.
  - destruct (f x) eqn:Ef; [|discriminate]. simpl in H.
    destruct (res_mapM f l) eqn:E; [|discriminate].
    injection H as <-. constructor; auto.
Qed.

Lemma res_mapM_all_ok {A B} (f : A -> res B) (g : A -> B) l :
  (forall x, In x l -> f x = Ok (g x)) -> res_mapM f l = Ok (map g l).
Proof.
  induction l as [|x l IH]; simpl; intros H; [done|].
  rewrite (H x (or_introl eq_refl)). simpl.
  rewrite IH; [done|]. intros y Hy. apply H. by right.
Qed.

#[export] Hint Rewrite @res_bind_ok @res_bind_throw : jsrw.

(** Case analysis on the completions of a goal: every [res_bind] whose
    scrutinee is an application is split, with its equation kept. *)
Ltac res_cases :=
  repeat match goal with
  | |- context [res_bind ?c _] =>
      lazymatch c with
      | Ok _ => rewrite res_bind_ok
      | Throw _ => rewrite res_bind_throw
      | _ => let E := fresh "E" in destruct c eqn:E; simpl
      end
  end.

(** ** Lists *)

Lemma length_filter_le {A} (p : A -> bool) (l : list A) :
  (length (List.filter p l) <= length l)%nat.
Proof.
  induction l as [|x l IH]; simpl; [lia|]. destruct (p x); simpl; lia.
Qed.

Lemma firstn_app_exact {A} (l1 l2 : list A) :
  firstn (length l1) (l1 ++ l2) = l1.
Proof. induction l1 as [|x l1 IH]; simpl; [done | by rewrite IH]. Qed.

#[export] Hint Resolve length_filter_le : jsdb.

(** Case analysis on the first [if] of the goal. *)
Ltac destruct_if :=
  match goal with
  | |- context [if ?c then _ else _] => let E := fresh "Eif" in destruct c eqn:E
  end.

(** ** Iteration *)

(** A property kept by [f] holds after any number of applications. *)
Lemma Nat_iter_inv {A} (P : A -> Prop) (f : A -> A) n a :
  (forall a, P a -> P (f a)) -> P a -> P (Nat.iter n f a).
Proof. intros Hf Ha. induction n as [|n IH]; simpl; auto. Qed.
