(* ===== verification/JsNum.v ===== *)
(** * JsNum: JavaScript numbers and the numeric built-ins the scripts use

    A JS number is an IEEE double.  It is modelled as an extended
    rational: [Fin q] for a finite value, [PosInf], [NegInf] and [NaN].
    The arithmetic is exact (no rounding) and there is no -0; every
    division by zero gives the infinity of the numerator's sign, or [NaN]
    for 0/0.  Finite values are kept in [Qred] normal form, so two
    computed numbers are equal exactly when they are equal as rationals.

    The built-ins follow ECMA-262: [Math.round] (21.3.2.28),
    [Math.floor], [Number.prototype.toFixed] (21.1.3.3), [Number::toString]
    (6.1.6.1.20), [parseFloat] (19.2.4), [parseInt] (19.2.5) and
    [StringToNumber] (7.1.4.1.1).  Digit strings are printed with the
    Standard Library's [Decimal] conversion; the scanners are written here. *)

From S2P Require Import Prelude.
From Stdlib Require Import Qabs Ascii String Decimal DecimalString DecimalN.

Local Open Scope Q_scope.

Inductive num :=
| Fin (q : Q)
| PosInf
| NegInf
| NaN.

#[export] Instance num_eq_dec : EqDecision num.
Proof.
  intros x y. unfold Decision.
  decide equality. destruct q, q0. decide equality; [apply Pos.eq_dec | apply Z.eq_dec].
Defined.

Definition Qlt_bool (a b : Q) : bool := negb (Qle_bool b a).

(** A finite result, in normal form. *)
Definition qnum (q : Q) : num := Fin (Qred q).
Definition of_Z (z : Z) : num := Fin (inject_Z z).

(** ** Arithmetic *)

Definition js_neg (x : num) : num :=
  match x with
  | Fin q => qnum (- q)
  | PosInf => NegInf
  | NegInf => PosInf
  | NaN => NaN
  end.

Definition js_add (x y : num) : num :=
  match x, y with
  | Fin a, Fin b => qnum (a + b)
  | NaN, _ | _, NaN => NaN
  | PosInf, NegInf | NegInf, PosInf => NaN
  | PosInf, _ | _, PosInf => PosInf
  | NegInf, _ | _, NegInf => NegInf
  end.

Definition js_sub (x y : num) : num := js_add x (js_neg y).

(** The sign of a non-NaN number: [Some true] positive, [Some false]
    negative, [None] zero or NaN. *)
Definition num_sign (x : num) : option bool :=
  match x with
  | Fin q => if Qeq_bool q 0 then None else Some (Qle_bool 0 q)
  | PosInf => Some true
  | NegInf => Some false
  | NaN => None
  end.

Definition inf_of_sign (b : bool) : num := if b then PosInf else NegInf.

Definition js_mul (x y : num) : num :=
  match x, y with
  | Fin a, Fin b => qnum (a * b)
  | NaN, _ | _, NaN => NaN
  | _, _ =>
      match num_sign x, num_sign y with
      | Some sx, Some sy => inf_of_sign (Bool.eqb sx sy)
      | _, _ => NaN
      end
  end.

Definition js_div (x y : num) : num :=
  match x, y with
  | Fin a, Fin b =>
      if Qeq_bool b 0 then
        match num_sign x with Some s => inf_of_sign s | None => NaN end
      else qnum (a / b)
  | NaN, _ | _, NaN => NaN
  | Fin _, _ => Fin 0
  | _, Fin b =>
      match num_sign x, num_sign y with
      | Some sx, Some sy => inf_of_sign (Bool.eqb sx sy)
      | Some sx, None => inf_of_sign sx
      | _, _ => NaN
      end
  | _, _ => NaN
  end.

(** Relational comparison [x < y]: false whenever a NaN is involved. *)
Definition js_lt (x y : num) : bool :=
  match x, y with
  | NaN, _ | _, NaN => false
  | Fin a, Fin b => Qlt_bool a b
  | NegInf, NegInf => false
  | NegInf, _ => true
  | _, PosInf => match x with PosInf => false | _ => true end
  | _, _ => false
  end.

Definition js_gt (x y : num) : bool := js_lt y x.

Definition is_finite (x : num) : bool :=
  match x with Fin _ => true | _ => false end.

(** [Math.floor] and [Math.round]: round ties toward +Infinity. *)
Definition math_floor (x : num) : num :=
  match x with Fin q => of_Z (Qfloor q) | _ => x end.

Definition math_round (x : num) : num :=
  match x with Fin q => of_Z (Qfloor (q + (1 # 2))) | _ => x end.

(** [ToIntegerOrInfinity], used by [TimeClip] and [Array.from]. *)
Definition to_integer_or_inf (x : num) : num :=
  match x with
  | Fin q => of_Z (if Qle_bool 0 q then Qfloor q else (- Qfloor (- q))%Z)
  | NaN => of_Z 0
  | _ => x
  end.

(** ** Digit strings *)

Local Open Scope string_scope.

(** The decimal digits of a natural number, without leading zeros
    (["0"] for zero). *)
Definition string_of_N (n : N) : string := NilZero.string_of_uint (N.to_uint n).

Fixpoint zeros (n : nat) : string :=
  match n with O => "" | S n' => String "0" (zeros n') end.

Definition is_digit (c : ascii) : bool :=
  (48 <=? nat_of_ascii c)%nat && (nat_of_ascii c <=? 57)%nat.

Definition digit_val (c : ascii) : N := N.of_nat (nat_of_ascii c - 48).

(** The value of a digit string, read from the left. *)
Fixpoint dval_acc (acc : N) (s : string) : N :=
  match s with
  | EmptyString => acc
  | String c s' => dval_acc (acc * 10 + digit_val c)%N s'
  end.

Definition dval (s : string) : N := dval_acc 0 s.

(** The longest prefix whose characters satisfy [p], and the rest. *)
Fixpoint span (p : ascii -> bool) (s : string) : string * string :=
  match s with
  | EmptyString => ("", "")
  | String c s' =>
      if p c then let '(a, b) := span p s' in (String c a, b) else ("", s)
  end.

Definition pow10 (k : nat) : Z := (10 ^ Z.of_nat k)%Z.

(** ** [Number::toString] (radix 10) *)

(** Strip the trailing zeros of [m], counting them into [e]. *)
Fixpoint strip10 (fuel : nat) (m e : Z) : Z * Z :=
  match fuel with
  | O => (m, e)
  | S f => if (m mod 10 =? 0)%Z then strip10 f (m / 10) (e + 1) else (m, e)
  end.

(** The least [j] with [q * 10^j] an integer, searched from [j]. *)
Fixpoint find_scale (fuel j : nat) (q : Q) : option nat :=
  match fuel with
  | O => None
  | S f =>
      if (Qden (Qred (q * inject_Z (pow10 j))) =? 1)%positive then Some j
      else find_scale f (S j) q
  end.

(** [q = s * 10^e] with [s] not a multiple of 10, for [q > 0].  Every
    double has at most 1074 fractional digits, so the search bound 1100
    finds the scale of every value a double can hold; a rational with an
    infinite expansion is cut at 20 fractional digits. *)
Definition decimal_repr (q : Q) : Z * Z :=
  match find_scale 1100 0 q with
  | Some j =>
      let m := Qnum (Qred (q * inject_Z (pow10 j))) in
      strip10 (S (Z.to_nat (Z.log2 m))) m (- Z.of_nat j)
  | None =>
      let m := Qfloor (q * inject_Z (pow10 20)) in
      strip10 (S (Z.to_nat (Z.log2 m))) m (-20)
  end.

Definition exp_string (e : Z) : string :=
  (if (e >? 0)%Z then "+" else "-") ++ string_of_N (Z.to_N (Z.abs e)).

(** ECMA-262 6.1.6.1.20, for a positive finite value: [k] digits, the
    decimal point after position [n]. *)
Definition pos_to_string (q : Q) : string :=
  let '(s, e) := decimal_repr q in
  let ds := string_of_N (Z.to_N s) in
  let k := Z.of_nat (String.length ds) in
  let n := (k + e)%Z in
  if (k <=? n)%Z && (n <=? 21)%Z then ds ++ zeros (Z.to_nat (n - k))
  else if (0 <? n)%Z && (n <=? 21)%Z then
    substring 0 (Z.to_nat n) ds ++ "." ++ substring (Z.to_nat n) (Z.to_nat (k - n)) ds
  else if (-6 <? n)%Z && (n <=? 0)%Z then "0." ++ zeros (Z.to_nat (- n)) ++ ds
  else if (k =? 1)%Z then ds ++ "e" ++ exp_string (n - 1)
  else substring 0 1 ds ++ "." ++ substring 1 (Z.to_nat (k - 1)) ds ++ "e"
       ++ exp_string (n - 1).

Definition number_to_string (x : num) : string :=
  match x with
  | NaN => "NaN"
  | PosInf => "Infinity"
  | NegInf => "-Infinity"
  | Fin q =>
      if Qeq_bool q 0 then "0"
      else if Qlt_bool q 0 then "-" ++ pos_to_string (- q) else pos_to_string q
  end.

(** ** [Number.prototype.toFixed(d)] *)

(** The digits of [n / 10^d] with [n] the integer nearest to [q * 10^d]
    (the larger one on a tie), for [0 <= q < 10^21]. *)
Definition fixed_digits (d : nat) (q : Q) : string :=
  let n := Qfloor (q * inject_Z (pow10 d) + (1 # 2)) in
  let m := string_of_N (Z.to_N n) in
  match d with
  | O => m
  | S _ =>
      let k := String.length m in
      let m := if (k <=? d)%nat then zeros (S d - k) ++ m else m in
      let k := String.length m in
      substring 0 (k - d) m ++ "." ++ substring (k - d) d m
  end.

Definition to_fixed (d : nat) (x : num) : string :=
  match x with
  | Fin q =>
      let s := if Qlt_bool q 0 then "-" else "" in
      let a := Qabs q in
      if Qle_bool (inject_Z (10 ^ 21)) a then s ++ number_to_string (Fin a)
      else s ++ fixed_digits d a
  | _ => number_to_string x
  end.

(** ** Scanning numbers: [parseFloat], [parseInt], [StringToNumber] *)

(** White space as JS strips it, on the Latin-1 code units a byte string
    can hold: TAB, LF, VT, FF, CR, SPACE and NO-BREAK SPACE. *)
Definition is_ws (c : ascii) : bool :=
  let n := nat_of_ascii c in
  ((9 <=? n)%nat && (n <=? 13)%nat) || (n =? 32)%nat || (n =? 160)%nat.

Fixpoint trim_left (s : string) : string :=
  match s with
  | String c s' => if is_ws c then trim_left s' else s
  | EmptyString => s
  end.

Fixpoint trim_right (s : string) : string :=
  match s with
  | EmptyString => s
  | String c s' =>
      let r := trim_right s' in
      match r with
      | EmptyString => if is_ws c then "" else String c ""
      | _ => String c r
      end
  end.

(** A value [m * 10^e] as a number.  Exponents beyond 400 in absolute
    value leave the range of doubles: the value is an infinity or zero;
    within that range a value of 2^1024 or more overflows to Infinity. *)
Definition scaled (m : N) (e : Z) : num :=
  if (m =? 0)%N then Fin 0
  else if (400 <? e)%Z then PosInf
  else if (e <? -400)%Z then Fin 0
  else
    let q := Qred (inject_Z (Z.of_N m) * Qpower 10 e) in
    if Qle_bool (inject_Z (2 ^ 1024)) q then PosInf else Fin q.

(** The exponent part [(e|E) [+|-] digits], consumed only when it has a
    digit. *)
Definition scan_exponent (s : string) : Z * string :=
  match s with
  | String c r =>
      if (c =? "e")%char || (c =? "E")%char then
        let '(sg, r') :=
          match r with
          | String "+" r' => (1%Z, r')
          | String "-" r' => ((-1)%Z, r')
          | _ => (1%Z, r)
          end in
        let '(ds, rest) := span is_digit r' in
        match ds with
        | EmptyString => (0%Z, s)
        | _ => ((sg * Z.of_N (dval ds))%Z, rest)
        end
      else (0%Z, s)
  | EmptyString => (0%Z, s)
  end.

(** The longest prefix that is a [StrUnsignedDecimalLiteral]:
    [Infinity], or [digits [. digits] [exponent]] with at least one
    digit. *)
Definition scan_unsigned (s : string) : option (num * string) :=
  if prefix "Infinity" s then Some (PosInf, substring 8 (String.length s - 8) s)
  else
    let '(d1, r1) := span is_digit s in
    let '(d2, r2) :=
      match r1 with
      | String "." r => span is_digit r
      | _ => ("", r1)
      end in
    match d1, d2 with
    | EmptyString, EmptyString => None
    | _, _ =>
        let '(e, rest) := scan_exponent r2 in
        Some (scaled (dval (d1 ++ d2)) (e - Z.of_nat (String.length d2))%Z, rest)
    end.

(** An optional sign, then an unsigned literal. *)
Definition scan_decimal (s : string) : option (num * string) :=
  match s with
  | String "-" r => option_map (fun '(v, rest) => (js_neg v, rest)) (scan_unsigned r)
  | String "+" r => scan_unsigned r
  | _ => scan_unsigned s
  end.

(** [parseFloat(string)] on a string argument. *)
Definition parse_float (s : string) : num :=
  match scan_decimal (trim_left s) with
  | Some (v, _) => v
  | None => NaN
  end.

Definition is_hex_digit (c : ascii) : bool :=
  let n := nat_of_ascii c in
  is_digit c || ((97 <=? n)%nat && (n <=? 102)%nat) || ((65 <=? n)%nat && (n <=? 70)%nat).

Definition hex_val (c : ascii) : N :=
  let n := nat_of_ascii c in
  N.of_nat (if (n <=? 57)%nat then n - 48 else if (n <=? 70)%nat then n - 55 else n - 87).

Fixpoint radix_val (r : N) (acc : N) (s : string) : N :=
  match s with
  | EmptyString => acc
  | String c s' => radix_val r (acc * r + hex_val c)%N s'
  end.

(** [parseInt(string)] with no radix: a [0x] prefix selects radix 16. *)
Definition parse_int (s : string) : num :=
  let s := trim_left s in
  let '(sg, s) :=
    match s with
    | String "-" r => ((-1)%Z, r)
    | String "+" r => (1%Z, r)
    | _ => (1%Z, s)
    end in
  let '(hex, s) :=
    match s with
    | String "0" (String c r) =>
        if (c =? "x")%char || (c =? "X")%char then (true, r) else (false, s)
    | _ => (false, s)
    end in
  let '(ds, _) := span (if hex then is_hex_digit else is_digit) s in
  match ds with
  | EmptyString => NaN
  | _ => of_Z (sg * Z.of_N (radix_val (if hex then 16 else 10) 0 ds))%Z
  end.

Definition is_radix_digit (r : N) (c : ascii) : bool :=
  is_hex_digit c && (hex_val c <? r)%N.

(** [StringToNumber]: the whole trimmed string must be a numeric
    literal; the empty string is 0. *)
Definition string_to_number (s : string) : num :=
  let s := trim_right (trim_left s) in
  let radix :=
    match s with
    | String "0" (String c _) =>
        if (c =? "x")%char || (c =? "X")%char then Some 16%N
        else if (c =? "o")%char || (c =? "O")%char then Some 8%N
        else if (c =? "b")%char || (c =? "B")%char then Some 2%N
        else None
    | _ => None
    end in
  match radix with
  | Some r =>
      let body := substring 2 (String.length s - 2) s in
      let '(ds, rest) := span (is_radix_digit r) body in
      match ds, rest with
      | String _ _, EmptyString => of_Z (Z.of_N (radix_val r 0 ds))
      | _, _ => NaN
      end
  | None =>
      match s with
      | EmptyString => Fin 0
      | _ =>
          match scan_decimal s with
          | Some (v, EmptyString) => v
          | _ => NaN
          end
      end
  end.

Fixpoint all_digits (s : string) : bool :=
  match s with
  | EmptyString => true
  | String c s' => is_digit c && all_digits s'
  end.

(** ** Lemmas *)

Lemma all_digits_app a b : all_digits (a ++ b) = all_digits a && all_digits b.
Proof. induction a as [|c a IH]; simpl; [done|]. by rewrite IH, andb_assoc. Qed.

Lemma all_digits_string_of_uint u : all_digits (NilEmpty.string_of_uint u) = true.
Proof. induction u; simpl; auto. Qed.

Lemma all_digits_string_of_N n : all_digits (string_of_N n) = true.
Proof.
  unfold string_of_N, NilZero.string_of_uint.
  destruct (N.to_uint n); simpl; auto using all_digits_string_of_uint.
Qed.

Lemma all_digits_zeros z : all_digits (zeros z) = true.
Proof. induction z; simpl; auto. Qed.

#[export] Hint Resolve all_digits_string_of_N all_digits_zeros : jsdb.

Lemma span_digits_stop a c r :
  all_digits a = true -> is_digit c = false ->
  span is_digit (a ++ String c r) = (a, String c r).
Proof.
  intros Ha Hc. induction a as [|c' a IH]; simpl in *; [by rewrite Hc|].
  apply andb_prop in Ha as [-> Ha]. by rewrite IH.
Qed.

Lemma span_digits_all a : all_digits a = true -> span is_digit a = (a, "").
Proof.
  induction a as [|c a IH]; simpl; [done|].
  intros [-> Ha]%andb_prop. by rewrite IH.
Qed.

Lemma dval_acc_app acc a b : dval_acc acc (a ++ b) = dval_acc (dval_acc acc a) b.
Proof. revert acc. induction a; simpl; auto. Qed.

Lemma dval_acc_zeros z : dval_acc 0 (zeros z) = 0%N.
Proof. induction z; simpl; auto. Qed.

Lemma dval_zeros_app z s : dval (zeros z ++ s) = dval s.
Proof. unfold dval. by rewrite dval_acc_app, dval_acc_zeros. Qed.

Lemma dval_acc_of_uint_acc u p :
  dval_acc (N.pos p) (NilEmpty.string_of_uint u) = N.pos (Pos.of_uint_acc u p).
Proof.
  revert p; induction u; intros p; simpl; try reflexivity;
    rewrite <- IHu; f_equal; unfold digit_val; simpl; lia.
Qed.

Lemma dval_string_of_uint u : dval (NilEmpty.string_of_uint u) = N.of_uint u.
Proof.
  unfold dval, N.of_uint.
  induction u; simpl; try reflexivity; try exact IHu;
    apply dval_acc_of_uint_acc.
Qed.

(** Printing a natural number in decimal and reading it back is the
    identity. *)
Lemma dval_string_of_N n : dval (string_of_N n) = n.
Proof.
  unfold string_of_N, NilZero.string_of_uint.
  rewrite <- (DecimalN.Unsigned.of_to n) at 2.
  destruct (N.to_uint n); try apply dval_string_of_uint. reflexivity.
Qed.

(** [Math.round] returns the integer [z] with [z - 1/2 <= x < z + 1/2]. *)
Lemma math_round_spec q :
  exists z : Z, math_round (Fin q) = of_Z z /\
    inject_Z z - (1 # 2) <= q /\ q < inject_Z z + (1 # 2).
Proof.
  exists (Qfloor (q + (1 # 2))). split; [reflexivity|].
  pose proof (Qfloor_le (q + (1 # 2))) as H1.
  pose proof (Qlt_floor (q + (1 # 2))) as H2.
  rewrite inject_Z_plus in H2. unfold Qminus.
  split; [apply (Qplus_le_l _ _ (1 # 2)); ring_simplify; exact H1|].
  apply (Qplus_lt_l _ _ (1 # 2)). ring_simplify. ring_simplify in H2. exact H2.
Qed.

(** A number below an integer stays below every larger integer. *)
Lemma js_lt_of_Z_mono n a b :
  js_lt n (of_Z a) = true -> (a <= b)%Z -> js_lt n (of_Z b) = true.
Proof.
  unfold of_Z, js_lt, Qlt_bool. destruct n as [q| | |]; try done.
  intros H Hab. apply negb_true_iff in H. apply negb_true_iff.
  apply not_true_iff_false. intros Hle. apply Qle_bool_iff in Hle.
  apply (not_true_iff_false (Qle_bool _ q)) in H. apply H, Qle_bool_iff.
  apply Qle_trans with (inject_Z b); [rewrite <- Zle_Qle; exact Hab | exact Hle].
Qed.

Lemma js_lt_of_Z a b : js_lt (of_Z a) (of_Z b) = (a <? b)%Z.
Proof.
  unfold of_Z, js_lt, Qlt_bool. destruct (Z.ltb_spec a b) as [H|H].
  - apply negb_true_iff, not_true_iff_false. intros Hle.
    apply Qle_bool_iff in Hle. rewrite <- Zle_Qle in Hle. lia.
  - apply negb_false_iff, Qle_bool_iff. rewrite <- Zle_Qle. lia.
Qed.

Lemma Qlt_bool_iff a b : Qlt_bool a b = true <-> a < b.
Proof.
  unfold Qlt_bool. rewrite negb_true_iff, <- not_true_iff_false, Qle_bool_iff.
  split; [apply Qnot_le_lt | apply Qlt_not_le].
Qed.

Lemma Qlt_bool_Qred q : Qlt_bool (Qred q) 0 = Qlt_bool q 0.
Proof.
  unfold Qlt_bool. f_equal.
  destruct (Qle_bool 0 q) eqn:E1, (Qle_bool 0 (Qred q)) eqn:E2; try done; exfalso.
  - apply Qle_bool_iff in E1. rewrite <- (Qred_correct q) in E1.
    apply Qle_bool_iff in E1. congruence.
  - apply Qle_bool_iff in E2. rewrite Qred_correct in E2.
    apply Qle_bool_iff in E2. congruence.
Qed.

(** The relative change [(a - b) / b * 100] of two integers with
    [0 < a < b] is a negative finite number. *)
Lemma relative_drop_negative a b :
  (0 < a < b)%Z ->
  exists q, js_mul (js_div (js_sub (of_Z a) (of_Z b)) (of_Z b)) (of_Z 100) = Fin q /\
    Qlt_bool q 0 = true.
Proof.
  intros Hab. unfold js_sub, js_neg, js_add, of_Z, qnum, js_div, js_mul.
  destruct (Qeq_bool (inject_Z b) 0) eqn:E.
  { apply Qeq_bool_iff in E. unfold Qeq in E. simpl in E. lia. }
  eexists. split; [reflexivity|]. rewrite Qlt_bool_Qred.
  unfold Qlt_bool. apply negb_true_iff, not_true_iff_false. intros Hle.
  apply Qle_bool_iff in Hle. rewrite !Qred_correct in Hle.
  assert (Hq : (inject_Z a + - inject_Z b) / inject_Z b < 0).
  { apply Qlt_shift_div_r; [unfold Qlt; simpl; lia|].
    rewrite Qmult_0_l. unfold Qlt, Qplus, Qopp; simpl. lia. }
  assert (H100 : 0 < inject_Z 100) by (unfold Qlt; simpl; lia).
  apply (Qmult_lt_r _ _ _ H100) in Hq. rewrite Qmult_0_l in Hq.
  apply (Qlt_not_le _ _ Hq). exact Hle.
Qed.
