(* ===== verification/JsValue.v ===== *)
(** * JsValue: JavaScript values as the dashboard script handles them

    [jsval] covers what the scripts build or receive: [undefined],
    [null], booleans, numbers ([JsNum.num]), strings, arrays, plain
    objects (an association list in property-creation order), and the
    built-in functions a plain object inherits (named by [JFun]).
    Payloads parsed by [response.json()] are [jsval]s without [JFun] and
    with finite numbers only.

    This file defines property access [v.k] (ECMA-262 GetValue), which
    throws a [TypeError] on [undefined] and [null] and otherwise falls back
    to the prototype chain.  It also defines [ToBoolean] (truthiness),
    [ToString], [ToNumber] (through [ToPrimitive]) and [JSON.stringify]
    (ECMA-262 25.5.2), with the key order of [OrdinaryOwnPropertyKeys]:
    array-index keys ascending, then the other keys in creation order. *)

From S2P Require Import Prelude JsNum.
From Stdlib Require Import Ascii String.

Local Open Scope string_scope.

Local Set Warnings "-register-all".

Inductive jsval :=
| JUndef
| JNull
| JBool (b : bool)
| JNum (n : num)
| JStr (s : string)
| JArr (elems : list jsval)
| JObj (props : list (string * jsval))
| JFun (name : string).

(** ** Property keys *)

(** Members of [Object.prototype], inherited by every plain object. *)
Definition object_proto_members : list string :=
  ["constructor"; "__defineGetter__"; "__defineSetter__"; "hasOwnProperty";
   "__lookupGetter__"; "__lookupSetter__"; "isPrototypeOf";
   "propertyIsEnumerable"; "toString"; "valueOf"; "__proto__";
   "toLocaleString"].

Definition array_proto_members : list string :=
  ["at"; "concat"; "copyWithin"; "entries"; "every"; "fill"; "filter"; "find";
   "findIndex"; "findLast"; "findLastIndex"; "flat"; "flatMap"; "forEach";
   "includes"; "indexOf"; "join"; "keys"; "lastIndexOf"; "map"; "pop"; "push";
   "reduce"; "reduceRight"; "reverse"; "shift"; "slice"; "some"; "sort";
   "splice"; "toLocaleString"; "toReversed"; "toSorted"; "toSpliced";
   "toString"; "unshift"; "values"; "with"].

Definition string_proto_members : list string :=
  ["at"; "charAt"; "charCodeAt"; "codePointAt"; "concat"; "endsWith";
   "includes"; "indexOf"; "lastIndexOf"; "localeCompare"; "match";
   "matchAll"; "normalize"; "padEnd"; "padStart"; "repeat"; "replace";
   "replaceAll"; "search"; "slice"; "split"; "startsWith"; "substr";
   "substring"; "toLocaleLowerCase"; "toLocaleUpperCase"; "toLowerCase";
   "toString"; "toUpperCase"; "trim"; "trimEnd"; "trimStart"; "valueOf"].

Definition number_proto_members : list string :=
  ["toExponential"; "toFixed"; "toLocaleString"; "toPrecision"; "toString";
   "valueOf"].

Definition mem_string (k : string) (l : list string) : bool :=
  existsb (String.eqb k) l.

(** A property read that finds nothing of its own goes up to
    [Object.prototype]; [__proto__] gives that prototype object. *)
Definition object_proto_get (k : string) : jsval :=
  if String.eqb k "__proto__" then JObj []
  else if mem_string k object_proto_members then JFun k
  else JUndef.

(** The canonical array index denoted by a key: ["0"], or digits without
    a leading zero, below 2^32 - 1. *)
Definition array_index (k : string) : option nat :=
  match k with
  | String c rest =>
      if all_digits k && (negb (c =? "0")%char || (rest =? ""))
         && (dval k <? 4294967295)%N
      then Some (N.to_nat (dval k)) else None
  | EmptyString => None
  end.

Fixpoint own_prop (k : string) (ps : list (string * jsval)) : option jsval :=
  match ps with
  | [] => None
  | (k', v) :: ps' => if String.eqb k k' then Some v else own_prop k ps'
  end.

Definition error_read (what k : string) : js_error :=
  TypeError ("Cannot read properties of " ++ what ++ " (reading '" ++ k ++ "')").

(** [v[k]] (GetValue on a property reference). *)
Definition get_prop (v : jsval) (k : string) : res jsval :=
  match v with
  | JUndef => Throw (error_read "undefined" k)
  | JNull => Throw (error_read "null" k)
  | JObj ps =>
      match own_prop k ps with
      | Some x => Ok x
      | None => Ok (object_proto_get k)
      end
  | JArr l =>
      if String.eqb k "length" then Ok (JNum (of_Z (Z.of_nat (List.length l))))
      else match array_index k with
           | Some i => Ok (nth i l JUndef)
           | None => Ok (if mem_string k array_proto_members then JFun k
                         else object_proto_get k)
           end
  | JStr s =>
      if String.eqb k "length" then Ok (JNum (of_Z (Z.of_nat (String.length s))))
      else match array_index k with
           | Some i =>
               Ok (match String.get i s with
                   | Some c => JStr (String c "")
                   | None => JUndef
                   end)
           | None => Ok (if mem_string k string_proto_members then JFun k
                         else object_proto_get k)
           end
  | JNum _ => Ok (if mem_string k number_proto_members then JFun k
                  else object_proto_get k)
  | JBool _ =>
      Ok (if mem_string k ["toString"; "valueOf"] then JFun k else object_proto_get k)
  | JFun _ =>
      Ok (if mem_string k ["apply"; "bind"; "call"] then JFun k else object_proto_get k)
  end.

(** ** Conversions *)

(** [ToBoolean]. *)
Definition truthy (v : jsval) : bool :=
  match v with
  | JUndef | JNull => false
  | JBool b => b
  | JNum (Fin q) => negb (Qeq_bool q 0)
  | JNum NaN => false
  | JNum _ => true
  | JStr s => negb (String.eqb s "")
  | JArr _ | JObj _ | JFun _ => true
  end.

Definition has_own (k : string) (ps : list (string * jsval)) : bool :=
  match own_prop k ps with Some _ => true | None => false end.

Definition error_primitive : js_error :=
  TypeError "Cannot convert object to primitive value".

(** [ToString].  A plain object converts through its [toString]; an own
    [toString] property of a JSON object is not callable, and the
    fallback [valueOf] returns the object itself, so the conversion
    throws. *)
Fixpoint to_string (v : jsval) : res string :=
  match v with
  | JUndef => Ok "undefined"
  | JNull => Ok "null"
  | JBool b => Ok (if b then "true" else "false")
  | JNum n => Ok (number_to_string n)
  | JStr s => Ok s
  | JArr l =>
      let fix join (l : list jsval) : res string :=
        match l with
        | [] => Ok ""
        | x :: l' =>
            s <- (match x with JUndef | JNull => Ok "" | _ => to_string x end) ;;
            r <- join l' ;;
            Ok (match l' with [] => s | _ => s ++ "," ++ r end)
        end in
      join l
  | JObj ps => if has_own "toString" ps then Throw error_primitive
               else Ok "[object Object]"
  | JFun f => Ok ("function " ++ f ++ "() { [native code] }")
  end.

(** [ToNumber].  Objects go through [ToPrimitive] with hint number:
    [valueOf] gives the object back, so [toString] decides. *)
Definition to_number (v : jsval) : res num :=
  match v with
  | JUndef => Ok NaN
  | JNull => Ok (Fin 0)
  | JBool b => Ok (if b then Fin 1 else Fin 0)
  | JNum n => Ok n
  | JStr s => Ok (string_to_number s)
  | JArr _ | JObj _ | JFun _ => s <- to_string v ;; Ok (string_to_number s)
  end.

(** Strict equality with a string literal ([v === "lit"]). *)
Definition strict_eq_str (v : jsval) (s : string) : bool :=
  match v with JStr s' => String.eqb s' s | _ => false end.

(** ** [JSON.stringify] *)

Definition quote_mark : ascii := ascii_of_nat 34.
Definition backslash : ascii := ascii_of_nat 92.

Definition hex_char (n : nat) : ascii :=
  ascii_of_nat (if (n <? 10)%nat then 48 + n else 87 + n).

(** One code unit of [QuoteJSONString] (ECMA-262 25.5.2.3). *)
Definition json_escape_char (c : ascii) : string :=
  let n := nat_of_ascii c in
  if (n =? 8)%nat then String backslash "b"
  else if (n =? 9)%nat then String backslash "t"
  else if (n =? 10)%nat then String backslash "n"
  else if (n =? 12)%nat then String backslash "f"
  else if (n =? 13)%nat then String backslash "r"
  else if (n =? 34)%nat then String backslash (String quote_mark "")
  else if (n =? 92)%nat then String backslash (String backslash "")
  else if (n <? 32)%nat then
    String backslash ("u00" ++ String (hex_char (n / 16)) (String (hex_char (n mod 16)) ""))
  else String c "".

Fixpoint json_escape (s : string) : string :=
  match s with
  | EmptyString => ""
  | String c s' => json_escape_char c ++ json_escape s'
  end.

Definition quote_json_string (s : string) : string :=
  String quote_mark (json_escape s ++ String quote_mark "").

(** [OrdinaryOwnPropertyKeys]: array-index keys in ascending order, then
    the other keys in creation order. *)
Fixpoint insert_index {A} (i : nat) (x : A) (l : list (nat * A)) : list (nat * A) :=
  match l with
  | [] => [(i, x)]
  | (j, y) :: l' => if (i <? j)%nat then (i, x) :: l else (j, y) :: insert_index i x l'
  end.

Definition own_key_order {A} (ps : list (string * A)) : list (string * A) :=
  let idx := fold_left (fun acc '(k, x) =>
               match array_index k with
               | Some i => insert_index i (k, x) acc
               | None => acc
               end) ps [] in
  map snd idx ++ List.filter (fun '(k, _) => match array_index k with
                                             | Some _ => false
                                             | None => true
                                             end) ps.

(** [SerializeJSONProperty]: [None] is [undefined], which [JSON.stringify]
    returns for [undefined] and functions, and which makes an object
    member disappear; inside an array it prints as [null].  Non-finite
    numbers print as [null]. *)
Fixpoint serialize (v : jsval) : option string :=
  match v with
  | JUndef | JFun _ => None
  | JNull => Some "null"
  | JBool b => Some (if b then "true" else "false")
  | JNum n => Some (if is_finite n then number_to_string n else "null")
  | JStr s => Some (quote_json_string s)
  | JArr l =>
      let fix elems (l : list jsval) : list string :=
        match l with
        | [] => []
        | x :: l' => match serialize x with Some s => s | None => "null" end :: elems l'
        end in
      Some ("[" ++ String.concat "," (elems l) ++ "]")
  | JObj ps =>
      let fix members (ps : list (string * jsval)) : list (string * option string) :=
        match ps with
        | [] => []
        | (k, x) :: ps' => (k, serialize x) :: members ps'
        end in
      let shown := List.flat_map (fun '(k, o) =>
                     match o with
                     | Some s => [quote_json_string k ++ ":" ++ s]
                     | None => []
                     end) (own_key_order (members ps)) in
      Some ("{" ++ String.concat "," shown ++ "}")
  end.

(** [JSON.stringify(v)] used inside a template literal: [undefined]
    prints as ["undefined"]. *)
Definition stringify_in_template (v : jsval) : string :=
  match serialize v with Some s => s | None => "undefined" end.

(** Every character, for the checks by evaluation below. *)
Definition all_ascii : list ascii := map ascii_of_nat (seq 0 256).

(** No escape sequence of [QuoteJSONString] is a prefix of another one. *)
Definition escape_prefix_free : bool :=
  forallb (fun c => forallb (fun c' =>
    negb (String.prefix (json_escape_char c) (json_escape_char c')) || Ascii.eqb c c')
    all_ascii) all_ascii.

(** No escape sequence is empty or starts with a double quote. *)
Definition escape_heads_ok : bool :=
  forallb (fun c => match json_escape_char c with
                    | String d _ => negb (Ascii.eqb d quote_mark)
                    | EmptyString => false
                    end) all_ascii.

(** ** Lemmas: the JSON string encoding is a prefix code *)

Lemma string_app_cons x a y : String x a ++ y = String x (a ++ y).
Proof. reflexivity. Qed.

Lemma string_app_nil y : "" ++ y = y.
Proof. reflexivity. Qed.

Lemma string_app_assoc a b c : (a ++ b) ++ c = a ++ (b ++ c).
Proof. induction a as [|x a IH]; [done|]. by rewrite !string_app_cons, IH. Qed.

Lemma string_app_inv_l a x y : a ++ x = a ++ y -> x = y.
Proof.
  induction a as [|c a IH]; [done|]. rewrite !string_app_cons. intros H. injection H. exact IH.
Qed.

Lemma string_prefix_app a b : String.prefix a b = true -> exists r, b = a ++ r.
Proof.
  revert b. induction a as [|c a IH]; intros [|d b]; simpl; try discriminate; [by exists ""|by eexists|].
  destruct (ascii_dec c d) as [<-|]; [|discriminate]. intros H.
  destruct (IH b H) as [r ->]. by exists r.
Qed.

Lemma string_app_prefix_cases a b x y :
  a ++ x = b ++ y -> String.prefix a b = true \/ String.prefix b a = true.
Proof.
  revert b. induction a as [|c a IH]; intros [|d b]; simpl; auto.
  rewrite !string_app_cons. intros H. injection H as <- H.
  destruct (ascii_dec c c) as [_|]; [|congruence]. eauto.
Qed.

Lemma in_all_ascii c : In c all_ascii.
Proof.
  rewrite <- (ascii_nat_embedding c). apply in_map, in_seq.
  pose proof (nat_ascii_bounded c). lia.
Qed.

Lemma json_escape_char_prefix c c' :
  String.prefix (json_escape_char c) (json_escape_char c') = true -> c = c'.
Proof.
  intros H. assert (Hok : escape_prefix_free = true) by (vm_compute; reflexivity).
  unfold escape_prefix_free in Hok. rewrite forallb_forall in Hok.
  specialize (Hok c (in_all_ascii c)). rewrite forallb_forall in Hok.
  specialize (Hok c' (in_all_ascii c')). rewrite H in Hok. by apply Ascii.eqb_eq.
Qed.

Lemma json_escape_char_head c : exists d t, json_escape_char c = String d t /\ d <> quote_mark.
Proof.
  assert (Hok : escape_heads_ok = true) by (vm_compute; reflexivity).
  unfold escape_heads_ok in Hok. rewrite forallb_forall in Hok.
  specialize (Hok c (in_all_ascii c)). destruct (json_escape_char c) as [|d t]; [discriminate|].
  exists d, t. split; [done|]. intros ->. by rewrite Ascii.eqb_refl in Hok.
Qed.

Lemma json_escape_char_app c c' x y :
  json_escape_char c ++ x = json_escape_char c' ++ y -> c = c' /\ x = y.
Proof.
  intros H. assert (Hc : c = c').
  { destruct (string_app_prefix_cases _ _ _ _ H) as [Hp|Hp];
      [|symmetry]; by apply json_escape_char_prefix. }
  subst c'. split; [done|]. exact (string_app_inv_l _ _ _ H).
Qed.

(** The closing quote of a JSON string is found without reading past
    it: the encoded string determines the string and what follows. *)
Lemma json_escape_quote_inj a b r1 r2 :
  json_escape a ++ String quote_mark r1 = json_escape b ++ String quote_mark r2 ->
  a = b /\ r1 = r2.
Proof.
  revert b. induction a as [|c a IH]; intros [|c' b]; cbn [json_escape].
  - rewrite !string_app_nil. intros H. by injection H.
  - destruct (json_escape_char_head c') as (d & t & -> & Hd).
    rewrite !string_app_cons. intros H. injection H as <- _. done.
  - destruct (json_escape_char_head c) as (d & t & -> & Hd).
    rewrite !string_app_cons. intros H. injection H as -> _. done.
  - rewrite !string_app_assoc. intros H.
    destruct (json_escape_char_app _ _ _ _ H) as [<- H']. destruct (IH b H') as [<- <-]. done.
Qed.

