(* ===== verification/JsDate.v ===== *)
(** * JsDate: time values and [Date.prototype.toISOString]

    A JS time value is a number of milliseconds since 1970-01-01T00:00Z,
    valid within 8.64e15 ms of the epoch (ECMA-262 21.4.1.31 [TimeClip]).
    [new Date(x)] clips [x]: a non-finite or out-of-range [x] gives an
    invalid date (time value NaN), on which [toISOString] throws a
    [RangeError].  The date fields are computed with the proleptic
    Gregorian calendar through the days <-> civil conversion of H. Hinnant,
    on integer arithmetic with floor division ([Z.div]). *)

From S2P Require Import Prelude JsNum.
From Stdlib Require Import Ascii String.

Local Open Scope Z_scope.

Definition ms_per_day : Z := 86400000.
Definition max_time : Z := 8640000000000000.

(** [TimeClip]: [None] is the invalid time value NaN. *)
Definition time_clip (x : num) : option Z :=
  match x with
  | Fin q =>
      if Qle_bool (Qabs q) (inject_Z max_time) then
        Some (if Qle_bool 0 q then Qfloor q else - Qfloor (- q))
      else None
  | _ => None
  end.

(** ** Days and civil dates *)

Record civil := mkCivil { cy : Z; cm : Z; cd : Z }.

Definition civil_from_days (days : Z) : civil :=
  let z := days + 719468 in
  let era := z / 146097 in
  let doe := z - era * 146097 in
  let yoe := (doe - doe / 1460 + doe / 36524 - doe / 146096) / 365 in
  let doy := doe - (365 * yoe + yoe / 4 - yoe / 100) in
  let mp := (5 * doy + 2) / 153 in
  let d := doy - (153 * mp + 2) / 5 + 1 in
  let m := if mp <? 10 then mp + 3 else mp - 9 in
  mkCivil (yoe + era * 400 + (if m <=? 2 then 1 else 0)) m d.

Definition days_from_civil (c : civil) : Z :=
  let y := cy c - (if cm c <=? 2 then 1 else 0) in
  let era := y / 400 in
  let yoe := y - era * 400 in
  let doy := (153 * (if cm c >? 2 then cm c - 3 else cm c + 9) + 2) / 5 + cd c - 1 in
  let doe := yoe * 365 + yoe / 4 - yoe / 100 + doy in
  era * 146097 + doe - 719468.

(** ** [toISOString] *)

Local Open Scope string_scope.

(** The digits of [n], padded with zeros to [w] characters. *)
Definition pad (w : nat) (n : Z) : string :=
  let s := string_of_N (Z.to_N n) in
  zeros (w - String.length s) ++ s.

Definition year_string (y : Z) : string :=
  if (0 <=? y)%Z && (y <=? 9999)%Z then pad 4 y
  else (if (y <? 0)%Z then "-" else "+") ++ pad 6 (Z.abs y).

(** [YYYY-MM-DDTHH:mm:ss.sssZ] of a valid time value. *)
Definition iso_string (t : Z) : string :=
  let days := t / ms_per_day in
  let ms := t mod ms_per_day in
  let c := civil_from_days days in
  year_string (cy c) ++ "-" ++ pad 2 (cm c) ++ "-" ++ pad 2 (cd c) ++ "T"
  ++ pad 2 (ms / 3600000) ++ ":" ++ pad 2 ((ms / 60000) mod 60) ++ ":"
  ++ pad 2 ((ms / 1000) mod 60) ++ "." ++ pad 3 (ms mod 1000) ++ "Z".

(** [date.toISOString()], throwing on an invalid date. *)
Definition to_iso_string (tv : option Z) : res string :=
  match tv with
  | Some t => Ok (iso_string t)
  | None => Throw (RangeError "Invalid time value")
  end.

(** [s.split('T')[0]]: the text before the first [T]. *)
Definition before_T (s : string) : string :=
  fst (span (fun c => negb (c =? "T")%char) s).

(** [new Date(x).toISOString().split('T')[0]]. *)
Definition iso_date_of (x : num) : res string :=
  s <- to_iso_string (time_clip x) ;; Ok (before_T s).
