(* ===== verification/DataCache.v ===== *)
(** * DataCache: the expiring cache of dashboard-script.js (lines 26-56)

    [class DataCache] keeps a [Map] from cache keys to entries
    [{data, timestamp, duration}].  It is modelled as a [gmap string
    entry]; the clock [Date.now()] is an explicit argument of every
    operation that reads it.
    - [get key] returns [null] when the key is absent.  When the entry's
      age exceeds its duration, [get] deletes it and returns [null].
      Otherwise it returns the stored data, which may itself be [null] or
      any other value.
    - [set key data duration] overwrites the entry, stamped with now.
    - [clear] removes everything.
    The age test [Date.now() - item.timestamp > item.duration] compares a
    number with whatever [duration] holds, through [ToNumber]; a duration
    that converts to [NaN] never expires.

    The contract the orchestrator relies on is the class [ExpiringCache]
    with the laws [ExpiringCacheLaws]; [DataCache] is an instance.  The
    refinement theorem shows that lazy eviction is unobservable on a
    monotone clock: [DataCache] answers every [get] like a cache that
    never deletes and only hides stale entries. *)

From S2P Require Import Prelude JsNum JsValue.
From stdpp Require Import gmap.


(** ** The contract *)

Class ExpiringCache (C : Type) := {
  cache_empty : C;
  cache_get : Z -> string -> C -> res jsval * C;
  cache_set : Z -> string -> jsval -> jsval -> C -> C;
  cache_clear : C -> C
}.

(** [still_fresh now t d]: an entry stamped at [t] with duration [d] is
    still valid at [now], i.e. [now - t > d] is false. *)
Definition still_fresh (now t : Z) (d : jsval) : res bool :=
  n <- to_number d ;; Ok (negb (js_gt (of_Z (now - t)) n)).

Class ExpiringCacheLaws (C : Type) `{ExpiringCache C} : Prop := {
  get_set_same : forall now now' k v d c,
    still_fresh now' now d = Ok true ->
    cache_get now' k (cache_set now k v d c) = (Ok v, cache_set now k v d c);
  get_set_stale : forall now now' k v d c,
    still_fresh now' now d = Ok false ->
    fst (cache_get now' k (cache_set now k v d c)) = Ok JNull;
  get_set_other : forall now now' k k' v d c,
    k <> k' ->
    fst (cache_get now' k' (cache_set now k v d c)) = fst (cache_get now' k' c);
  get_clear : forall now k c,
    cache_get now k (cache_clear c) = (Ok JNull, cache_clear c);
  get_empty : forall now k,
    cache_get now k cache_empty = (Ok JNull, cache_empty)
}.

(** ** [class DataCache] *)

Module DataCache.

Record entry := mkEntry { data : jsval; timestamp : Z; duration : jsval }.

(** [this.cache = new Map()]. *)
Abbreviation t := (gmap string entry).

Definition empty : t := ∅.

(** [get(key)] (lines 31-41). *)
Definition get (now : Z) (key : string) (c : t) : res jsval * t :=
  match c !! key with
  | None => (Ok JNull, c)
  | Some item =>
      match still_fresh now (timestamp item) (duration item) with
      | Throw e => (Throw e, c)
      | Ok false => (Ok JNull, delete key c)
      | Ok true => (Ok (data item), c)
      end
  end.

(** [set(key, data, duration)] (lines 43-49). *)
Definition set (now : Z) (key : string) (d : jsval) (dur : jsval) (c : t) : t :=
  <[key := mkEntry d now dur]> c.

(** [clear()] (lines 51-53). *)
Definition clear (c : t) : t := ∅.

#[export] Instance data_cache : ExpiringCache t := {
  cache_empty := empty;
  cache_get := get;
  cache_set := set;
  cache_clear := clear
}.

End DataCache.

#[export] Existing Instance DataCache.data_cache.

(** ** The spec's cache, for the refinement *)

Module NoEvict.

(** The cache the spec describes (spec.md 3, 4.1): an entry is visible
    while [now - storedAt <= ttl] and hidden otherwise; nothing is ever
    deleted by a read. *)
Definition get (now : Z) (key : string) (c : DataCache.t) : res jsval :=
  match c !! key with
  | None => Ok JNull
  | Some item =>
      b <- still_fresh now (DataCache.timestamp item) (DataCache.duration item) ;;
      Ok (if b then DataCache.data item else JNull)
  end.

End NoEvict.

(** A client's sequence of cache operations, with the clock readings. *)
Inductive cache_op :=
| OpGet (now : Z) (key : string)
| OpSet (now : Z) (key : string) (v dur : jsval)
| OpClear.

(** The answers of the [get]s of a sequence run on [DataCache]. *)
Fixpoint run_impl (ops : list cache_op) (c : DataCache.t) : list (res jsval) :=
  match ops with
  | [] => []
  | OpGet now k :: ops' => let '(r, c') := DataCache.get now k c in r :: run_impl ops' c'
  | OpSet now k v d :: ops' => run_impl ops' (DataCache.set now k v d c)
  | OpClear :: ops' => run_impl ops' (DataCache.clear c)
  end.

(** The same answers on the spec's cache. *)
Fixpoint run_spec (ops : list cache_op) (c : DataCache.t) : list (res jsval) :=
  match ops with
  | [] => []
  | OpGet now k :: ops' => NoEvict.get now k c :: run_spec ops' c
  | OpSet now k v d :: ops' => run_spec ops' (DataCache.set now k v d c)
  | OpClear :: ops' => run_spec ops' (DataCache.clear c)
  end.

(** The clock readings never go back, starting from [t]. *)
Fixpoint clock_monotone (t : Z) (ops : list cache_op) : Prop :=
  match ops with
  | [] => True
  | OpGet now _ :: ops' | OpSet now _ _ _ :: ops' => (t <= now)%Z /\ clock_monotone now ops'
  | OpClear :: ops' => clock_monotone t ops'
  end.

(** The simulation relation at time [t]: every entry of the
    implementation is the spec's entry, and an entry the implementation
    has evicted is stale in the spec from [t] on. *)
Definition related (t : Z) (impl spec : DataCache.t) : Prop :=
  forall k, impl !! k = spec !! k \/
    (impl !! k = None /\ exists e, spec !! k = Some e /\
       still_fresh t (DataCache.timestamp e) (DataCache.duration e) = Ok false).

(** ** Lemmas on the operations *)

Lemma still_fresh_monotone now now' ts d :
  still_fresh now ts d = Ok false -> (now <= now')%Z -> still_fresh now' ts d = Ok false.
Proof.
  unfold still_fresh. destruct (to_number d) as [n|e]; simpl; [|done].
  intros H Hle. injection H as H. apply negb_false_iff in H.
  f_equal. apply negb_false_iff. unfold js_gt in *.
  eapply js_lt_of_Z_mono; [exact H | lia].
Qed.

(** A numeric duration [d] keeps an entry valid exactly while its age is
    at most [d]. *)
Lemma still_fresh_num now ts d :
  still_fresh now ts (JNum (of_Z d)) = Ok (now - ts <=? d)%Z.
Proof.
  unfold still_fresh, js_gt. cbn -[js_lt of_Z]. rewrite js_lt_of_Z. f_equal.
  destruct (Z.ltb_spec d (now - ts)), (Z.leb_spec (now - ts) d); simpl; lia.
Qed.

(** C9. [get] after [set] on the same key, with a numeric duration [d],
    returns the stored data and leaves the cache unchanged as long as the
    entry's age [now' - now] is at most [d]: an age equal to the duration
    still counts as fresh (line 35 tests [>]). *)
Lemma get_after_set now now' key v d c :
  (now' - now <= d)%Z ->
  DataCache.get now' key (DataCache.set now key v (JNum (of_Z d)) c) =
    (Ok v, DataCache.set now key v (JNum (of_Z d)) c).
Proof.
  intros Hle. unfold DataCache.get, DataCache.set. rewrite lookup_insert_eq.
  cbn [DataCache.timestamp DataCache.duration DataCache.data]. rewrite still_fresh_num. by apply Z.leb_le in Hle as ->.
Qed.

(** C10. An entry with a numeric duration [d] whose age [now - ts] is
    above [d] reads as [null] and is deleted from the cache. *)
Lemma get_stale_evicts now key c v ts d :
  c !! key = Some (DataCache.mkEntry v ts (JNum (of_Z d))) -> (d < now - ts)%Z ->
  DataCache.get now key c = (Ok JNull, delete key c).
Proof.
  intros Hk Hlt. unfold DataCache.get. rewrite Hk.
  cbn [DataCache.timestamp DataCache.duration]. rewrite still_fresh_num. by apply Z.leb_gt in Hlt as ->.
Qed.

(** ** Refinement: lazy eviction is unobservable on a monotone clock *)

Lemma related_mono t t' i s : related t i s -> (t <= t')%Z -> related t' i s.
Proof.
  intros HR Hle k. destruct (HR k) as [?|(? & e & ? & ?)]; [by left|].
  right. split; [done|]. exists e. eauto using still_fresh_monotone.
Qed.

Lemma related_get t now k i s :
  related t i s -> (t <= now)%Z ->
  fst (DataCache.get now k i) = NoEvict.get now k s /\
  related now (snd (DataCache.get now k i)) s.
Proof.
  intros HR Hle. pose proof (related_mono _ _ _ _ HR Hle) as HR'.
  unfold DataCache.get, NoEvict.get.
  destruct (HR' k) as [Heq|(Hn & e & He & Hf)].
  - rewrite <- Heq. destruct (i !! k) as [item|] eqn:Hi; simpl; [|done].
    destruct (still_fresh now _ _) as [[|]|] eqn:Hf; simpl; split; try done.
    intros k'. destruct (decide (k = k')) as [<-|Hne].
    + right. rewrite lookup_delete_eq. split; [done|]. exists item.
      by rewrite <- Heq.
    + rewrite lookup_delete_ne by done. apply HR'.
  - rewrite Hn, He. simpl. rewrite Hf. simpl. done.
Qed.

Lemma related_set t now k v d i s :
  related t i s -> related t (DataCache.set now k v d i) (DataCache.set now k v d s).
Proof.
  intros HR k'. unfold DataCache.set. destruct (decide (k = k')) as [<-|Hne].
  - left. by rewrite !lookup_insert_eq.
  - rewrite !lookup_insert_ne by done. apply HR.
Qed.

Lemma related_clear t i s :
  related t (DataCache.clear i) (DataCache.clear s).
Proof. intros k. by left. Qed.

(** C8. Refinement.  On a clock that never goes back, [DataCache] answers
    every [get] of any sequence of operations exactly like the spec's
    cache that never deletes: lazy eviction is unobservable. *)
Theorem lazy_eviction_refines ops t i s :
  related t i s -> clock_monotone t ops -> run_impl ops i = run_spec ops s.
Proof.
  revert t i s. induction ops as [|[now k|now k v d|] ops IH]; intros t i s HR Hm;
    simpl in *; [done| | |].
  - destruct Hm as [Hle Hm].
    destruct (related_get t now k i s HR Hle) as [Hr HR'].
    destruct (DataCache.get now k i) as [r i'] eqn:Hg. simpl in *.
    rewrite Hr. f_equal. eauto.
  - destruct Hm as [Hle Hm]. eapply IH; [|exact Hm].
    eapply related_mono; [apply related_set, HR | exact Hle].
  - eapply IH; [apply related_clear | exact Hm].
Qed.

(** When the clock steps back, the two caches differ: an entry evicted at
    time 20 is visible again in the spec's cache at time 5. *)
Lemma clock_step_back_observable :
  let ops := [OpSet 0 "k" (JStr "v") (JNum (of_Z 10)); OpGet 20 "k"; OpGet 5 "k"] in
  run_impl ops DataCache.empty = [Ok JNull; Ok JNull] /\
  run_spec ops DataCache.empty = [Ok JNull; Ok (JStr "v")].
Proof. split; reflexivity. Qed.

(** ** Witnesses *)

Lemma get_after_set_witness :
  (60000 - 0 <= 60000)%Z /\
  DataCache.get 60000 "k" (DataCache.set 0 "k" (JStr "v") (JNum (of_Z 60000)) DataCache.empty) =
    (Ok (JStr "v"), DataCache.set 0 "k" (JStr "v") (JNum (of_Z 60000)) DataCache.empty).
Proof.
  assert (H : (60000 - 0 <= 60000)%Z) by lia.
  split; [exact H|]. exact (get_after_set 0 60000 "k" (JStr "v") 60000 DataCache.empty H).
Defined.

Lemma get_stale_evicts_witness :
  let c := DataCache.set 0 "k" (JStr "v") (JNum (of_Z 10)) DataCache.empty in
  c !! "k" = Some (DataCache.mkEntry (JStr "v") 0 (JNum (of_Z 10))) /\ (10 < 11 - 0)%Z /\
  DataCache.get 11 "k" c = (Ok JNull, delete "k" c).
Proof.
  intros c. assert (Hk : c !! "k" = Some (DataCache.mkEntry (JStr "v") 0 (JNum (of_Z 10))))
    by reflexivity.
  assert (Hlt : (10 < 11 - 0)%Z) by lia.
  split; [exact Hk|]. split; [exact Hlt|]. exact (get_stale_evicts 11 "k" c _ _ _ Hk Hlt).
Defined.

Lemma lazy_eviction_refines_witness :
  let ops := [OpSet 0 "k" (JStr "v") (JNum (of_Z 10)); OpGet 5 "k"; OpGet 20 "k";
              OpGet 30 "k"] in
  related 0 DataCache.empty DataCache.empty /\ clock_monotone 0 ops /\
  run_impl ops DataCache.empty = run_spec ops DataCache.empty.
Proof.
  intros ops. assert (HR : related 0 DataCache.empty DataCache.empty) by (intros k; by left).
  assert (Hm : clock_monotone 0 ops) by (simpl; lia).
  split; [exact HR|]. split; [exact Hm|].
  apply (lazy_eviction_refines ops 0); [exact HR | exact Hm].
Defined.

(** ** The contract, discharged *)

(** [DataCache] meets the contract the orchestrator relies on. *)
Lemma data_cache_laws : ExpiringCacheLaws DataCache.t.
Proof.
  split.
  - intros now now' k v d c Hf. unfold cache_get, cache_set; simpl.
    unfold DataCache.get, DataCache.set. rewrite lookup_insert_eq. simpl. by rewrite Hf.
  - intros now now' k v d c Hf. unfold cache_get, cache_set; simpl.
    unfold DataCache.get, DataCache.set. rewrite lookup_insert_eq. simpl. by rewrite Hf.
  - intros now now' k k' v d c Hne. unfold cache_get, cache_set; simpl.
    unfold DataCache.get, DataCache.set. rewrite lookup_insert_ne by exact Hne.
    destruct (c !! k') as [item|]; [|done]. by destruct (still_fresh _ _ _) as [[|]|].
  - intros. reflexivity.
  - intros. reflexivity.
Qed.

#[export] Existing Instance data_cache_laws.
