(* ===== verification/CallTool.v ===== *)
(** * CallTool: [MCP_CONFIG], [getSimulatedData] and [callMCPTool]

    dashboard-script.js lines 4-23 (configuration), 59-103
    ([callMCPTool]) and 106-147 ([getSimulatedData]).

    [getSimulatedData(toolName, args)] builds an object literal with all
    three fallback payloads and then selects the one named [toolName].
    JavaScript evaluates every property of the literal, so the stock
    payload reads [args.symbols.map], the news payload builds a date from
    [args.days_back], and the employment payload an array of length
    [args.months_back], whatever the tool.  It is modelled in a small
    state-and-error monad [sim]: the state is the index of the next
    [Math.random()] draw from the stream [rand], and errors are the
    exceptions of the evaluation.

    [callMCPTool] is an [async] function: the cache lookup runs at the
    call ([dispatch]), and the rest runs when the [fetch] settles
    ([resume]).  The world holds the cache, the notifications shown and
    the requests sent. *)

From S2P Require Import Prelude JsNum JsValue JsDate DataCache.
From Stdlib Require Import String.
From stdpp Require Import gmap.

Local Open Scope string_scope.

(** ** [MCP_CONFIG] (lines 4-23) *)

Definition CACHE_DURATION : jsval :=
  JObj [("stocks", JNum (of_Z (60 * 1000)));
        ("news", JNum (of_Z (5 * 60 * 1000)));
        ("employment", JNum (of_Z (24 * 60 * 60 * 1000)))].

Definition PORTFOLIO_STOCKS : list string := ["NVDA"; "MSFT"; "PLTR"].

Definition MCP_CONFIG : jsval :=
  JObj [("API_BASE_URL", JStr "http://localhost:3000");
        ("MCP_SERVER_URL", JStr "http://localhost:8000");
        ("CACHE_DURATION", CACHE_DURATION);
        ("PORTFOLIO_STOCKS", JArr (map JStr PORTFOLIO_STOCKS));
        ("AI_COMPANIES", JArr (map JStr ["OpenAI"; "Anthropic"; "xAI"; "Cohere"; "Mistral"]))].

Definition API_BASE_URL : string := "http://localhost:3000".

(** [MCP_CONFIG.CACHE_DURATION[toolName] || 60000] (line 91). *)
Definition cache_duration (toolName : string) : res jsval :=
  d <- get_prop CACHE_DURATION toolName ;;
  Ok (if truthy d then d else JNum (of_Z 60000)).

(** [`${toolName}-${JSON.stringify(args)}`] (line 60). *)
Definition cache_key (toolName : string) (args : jsval) : string :=
  toolName ++ "-" ++ stringify_in_template args.

(** ** The fallback generator (lines 106-147) *)

Definition sim (A : Type) := nat -> res (A * nat).

Definition sim_ret {A} (a : A) : sim A := fun i => Ok (a, i).

Definition sim_bind {A B} (m : sim A) (k : A -> sim B) : sim B :=
  fun i => match m i with Ok (a, i') => k a i' | Throw e => Throw e end.

Definition sim_lift {A} (r : res A) : sim A :=
  fun i => match r with Ok a => Ok (a, i) | Throw e => Throw e end.

Definition sim_throw {A} (e : js_error) : sim A := fun _ => Throw e.

Notation "x <<- m ;; k" := (sim_bind m (fun x => k))
  (at level 100, m at next level, right associativity) : js_scope.

Fixpoint sim_mapM {A B} (f : A -> sim B) (l : list A) : sim (list B) :=
  match l with
  | [] => sim_ret []
  | x :: l' => y <<- f x ;; ys <<- sim_mapM f l' ;; sim_ret (y :: ys)
  end.

Section Simulated.

  (** The values [Math.random()] returns, in order, and the clock. *)
Variable rand : nat -> Q.
Variable now : Z.

Definition random : sim num := fun i => Ok (qnum (rand i), S i).

Definition jnum (z : Z) : jsval := JNum (of_Z z).

  (** [new Date().toISOString()]. *)
Definition now_iso : res string := to_iso_string (time_clip (of_Z now)).

  (** One element of [args.symbols.map(symbol => ({...}))] (lines 109-118). *)
Definition stock_entry (symbol : jsval) : sim jsval :=
    r1 <<- random ;; r2 <<- random ;; r3 <<- random ;; r4 <<- random ;;
    r5 <<- random ;; r6 <<- random ;; r7 <<- random ;;
    sim_ret (JObj
      [("symbol", symbol);
       ("current_price", JNum (js_add (js_mul r1 (of_Z 500)) (of_Z 100)));
       ("change_percent", JStr (to_fixed 2 (js_sub (js_mul r2 (of_Z 10)) (of_Z 5))));
       ("volume", JNum (math_floor (js_mul r3 (of_Z 50000000))));
       ("market_cap", JNum (math_floor (js_mul r4 (of_Z 2000000000000))));
       ("pe_ratio", JStr (to_fixed 1 (js_add (js_mul r5 (of_Z 50)) (of_Z 20))));
       ("52_week_high", JNum (js_add (js_mul r6 (of_Z 600)) (of_Z 200)));
       ("52_week_low", JNum (js_add (js_mul r7 (of_Z 200)) (of_Z 50)))]).

  (** The [get_stock_financial_data] payload (lines 108-120). *)
Definition stock_payload (args : jsval) : sim jsval :=
    s <<- sim_lift (get_prop args "symbols") ;;
    stocks <<- (match s with
                | JArr l => sim_mapM stock_entry l
                | _ => _ <<- sim_lift (get_prop s "map") ;;
                       sim_throw (TypeError "args.symbols.map is not a function")
                end) ;;
    updated <<- sim_lift now_iso ;;
    sim_ret (JObj [("stocks", JArr stocks); ("last_updated", JStr updated)]).

  (** [x * 24 * 60 * 60 * 1000], evaluated from the left. *)
Definition days_to_ms (x : num) : num :=
    js_mul (js_mul (js_mul (js_mul x (of_Z 24)) (of_Z 60)) (of_Z 60)) (of_Z 1000).

  (** The [get_ai_company_news] payload (lines 121-134). *)
Definition news_payload (args : jsval) : sim jsval :=
    company <<- sim_lift (get_prop args "company") ;;
    c <<- sim_lift (get_prop args "company") ;;
    title <<- sim_lift (to_string c) ;;
    published <<- sim_lift now_iso ;;
    db <<- sim_lift (get_prop args "days_back") ;;
    back <<- sim_lift (to_number db) ;;
    from <<- sim_lift (iso_date_of (js_sub (of_Z now) (days_to_ms back))) ;;
    to <<- sim_lift (iso_date_of (of_Z now)) ;;
    sim_ret (JObj
      [("company", company);
       ("articles", JArr [JObj
          [("title", JStr (title ++ " Announces Major AI Breakthrough"));
           ("url", JStr "https://example.com/news/1");
           ("published_utc", JStr published);
           ("summary", JStr "Company reveals significant progress in AI development...");
           ("sentiment", JStr "positive")]]);
       ("total_articles", jnum 5);
       ("date_range", JStr (from ++ " to " ++ to))]).

  (** [ToLength]: the integer part clamped to [0, 2^53 - 1]. *)
Definition to_length (x : num) : Z :=
    match to_integer_or_inf x with
    | Fin q => Z.max 0 (Z.min (Qfloor q) (2 ^ 53 - 1))
    | PosInf => 2 ^ 53 - 1
    | _ => 0
    end.

  (** One element of [Array.from({length: ...}, (_, i) => ({...}))]
      (lines 136-140). *)
Definition employment_row (i : nat) : sim jsval :=
    d <<- sim_lift (iso_date_of (js_sub (of_Z now)
            (js_mul (js_mul (js_mul (js_mul (js_mul (of_Z (Z.of_nat i)) (of_Z 30))
               (of_Z 24)) (of_Z 60)) (of_Z 60)) (of_Z 1000)))) ;;
    r1 <<- random ;; r2 <<- random ;;
    sim_ret (JObj
      [("date", JStr d);
       ("job_postings_index", JNum (js_add (of_Z 100) (js_mul r1 (of_Z 20))));
       ("change_from_baseline", JStr (to_fixed 1 (js_mul r2 (of_Z 10))))]).

  (** The [get_tech_employment_trends] payload (lines 135-143).
      [Array.from] creates the array first: a length beyond 2^32 - 1
      throws. *)
Definition employment_payload (args : jsval) : sim jsval :=
    mb <<- sim_lift (get_prop args "months_back") ;;
    x <<- sim_lift (to_number mb) ;;
    let len := to_length x in
    rows <<- (if (len >? 2 ^ 32 - 1)%Z
              then sim_throw (RangeError "Invalid array length")
              else sim_mapM employment_row (seq 0 (Z.to_nat len))) ;;
    sim_ret (JObj
      [("employment_data", JArr rows);
       ("trend", JStr "increasing");
       ("summary", JStr "Software engineering job postings up 5.2% from pre-pandemic baseline")]).

  (** [getSimulatedData(toolName, args)]: the whole literal, then the
      lookup [simulatedData[toolName] || null]. *)
Definition getSimulatedData (toolName : string) (args : jsval) : sim jsval :=
    stock <<- stock_payload args ;;
    news <<- news_payload args ;;
    emp <<- employment_payload args ;;
    let simulatedData := JObj [("get_stock_financial_data", stock);
                               ("get_ai_company_news", news);
                               ("get_tech_employment_trends", emp)] in
    v <<- sim_lift (get_prop simulatedData toolName) ;;
    sim_ret (if truthy v then v else JNull).

End Simulated.

(** ** [callMCPTool] (lines 59-103) *)

(** How the [fetch] of line 71 settles: a transport error, or a response
    with its [ok] flag, its [statusText], and the result of
    [response.json()] ([None] when the body does not parse). *)
Inductive fetch_outcome :=
| NetworkError
| HttpResponse (ok : bool) (statusText : string) (body : option jsval).

(** What a call needs from its environment: the clock at the call, the
    clock when the [fetch] settles, the [fetch] outcome, and the values
    [Math.random()] returns. *)
Record oracle := mkOracle {
  now_call : Z;
  now_settle : Z;
  response : fetch_outcome;
  rand : nat -> Q
}.

Section Orchestrator.

Context {C : Type} `{ExpiringCache C}.

  (** The state the calls share: the [dataCache] singleton (line 56),
      the notifications shown (message, type), and the requests sent
      (URL, JSON body). *)
Record world := mkWorld {
    cache : C;
    notes : list (string * string);
    requests : list (string * string)
  }.

Definition showNotification (message type : string) (w : world) : world :=
    mkWorld (cache w) (notes w ++ [(message, type)]) (requests w).

  (** The request of lines 71-82. *)
Definition request_of (toolName : string) (args : jsval) : string * string :=
    (API_BASE_URL ++ "/api/mcp/call-tool",
     stringify_in_template (JObj [("name", JStr toolName); ("arguments", args)])).

Inductive dispatched :=
  | Served (v : jsval)
  | Pending (key : string).

  (** Lines 60-82: the key, the cache lookup, and on a miss the request.
      A falsy cached value counts as a miss ([if (cached)]). *)
Definition dispatch (now : Z) (toolName : string) (args : jsval) (w : world)
      : res dispatched * world :=
    let key := cache_key toolName args in
    let '(r, c') := cache_get now key (cache w) in
    let w' := mkWorld c' (notes w) (requests w) in
    match r with
    | Throw e => (Throw e, w')
    | Ok cached =>
        if truthy cached then (Ok (Served cached), w')
        else (Ok (Pending key),
              mkWorld c' (notes w) (requests w ++ [request_of toolName args]))
    end.

  (** Lines 84-101, once the [fetch] has settled.  On success the payload
      is cached with the duration of line 91.  On any failure a warning is
      shown and the simulated payload is returned; an exception of
      [getSimulatedData] rejects the call. *)
Definition resume (now : Z) (rnd : nat -> Q) (toolName : string) (args : jsval)
      (key : string) (o : fetch_outcome) (w : world) : res jsval * world :=
    match o with
    | HttpResponse true _ (Some data) =>
        match cache_duration toolName with
        | Ok d => (Ok data, mkWorld (cache_set now key data d (cache w)) (notes w) (requests w))
        | Throw e => (Throw e, w)
        end
    | _ =>
        let w' := showNotification
                    ("Unable to fetch " ++ toolName ++ " data. Using simulated data.")
                    "warning" w in
        match getSimulatedData rnd now toolName args 0%nat with
        | Ok (v, _) => (Ok v, w')
        | Throw e => (Throw e, w')
        end
    end.

  (** The whole call, with the oracle's answers. *)
Definition callMCPTool (o : oracle) (toolName : string) (args : jsval) (w : world)
      : res jsval * world :=
    match dispatch (now_call o) toolName args w with
    | (Ok (Served v), w') => (Ok v, w')
    | (Ok (Pending key), w') =>
        resume (now_settle o) (rand o) toolName args key (response o) w'
    | (Throw e, w') => (Throw e, w')
    end.

End Orchestrator.

Arguments world C : clear implicits.

(** ** The dashboard's calls *)

(** The three argument objects of [updateDashboardData] (lines 216-227). *)
Definition stock_args : jsval :=
  JObj [("symbols", JArr (map JStr (PORTFOLIO_STOCKS ++ ["GOOGL"; "META"; "AMD"; "SPY"])%list));
        ("period", JStr "1mo");
        ("include_metrics", JBool true)].

Definition news_args : jsval :=
  JObj [("company", JStr "OpenAI"); ("days_back", JNum (of_Z 7))].

Definition employment_args : jsval := JObj [("months_back", JNum (of_Z 6))].

(** The three calls of [updateDashboardData]. *)
Definition dashboard_calls : list (string * jsval) :=
  [("get_stock_financial_data", stock_args);
   ("get_ai_company_news", news_args);
   ("get_tech_employment_trends", employment_args)].

(** What a resume step does to the world (see [resume_shape]). *)
Definition resume_effect (now : Z) (t : string) (key : string) (o : fetch_outcome)
      (c : DataCache.t) : DataCache.t :=
    match o with
    | HttpResponse true _ (Some data) =>
        match cache_duration t with
        | Ok d => DataCache.set now key data d c
        | Throw _ => c
        end
    | _ => c
    end.

Definition resume_notes (t : string) (o : fetch_outcome) : list (string * string) :=
    match o with
    | HttpResponse true _ (Some _) => []
    | _ => [("Unable to fetch " ++ t ++ " data. Using simulated data.", "warning")]
    end.


(** ** The duration table *)

(** C2. The duration table is keyed by [stocks], [news] and [employment],
    but the tools are called by their tool names.  Every tool name other
    than those three keys and the members of [Object.prototype] gets the
    60-second default: news and employment data are cached for one
    minute, not 5 minutes and 24 hours. *)
Lemma cache_duration_default toolName :
  ~ In toolName ["stocks"; "news"; "employment"] ->
  mem_string toolName object_proto_members = false ->
  cache_duration toolName = Ok (JNum (of_Z 60000)).
Proof.
  intros Hin Hproto. unfold cache_duration, get_prop, CACHE_DURATION, own_prop.
  destruct (String.eqb_spec toolName "stocks") as [->|_]; [simpl in Hin; tauto|].
  destruct (String.eqb_spec toolName "news") as [->|_]; [simpl in Hin; tauto|].
  destruct (String.eqb_spec toolName "employment") as [->|_]; [simpl in Hin; tauto|].
  unfold object_proto_get. rewrite Hproto.
  destruct (String.eqb_spec toolName "__proto__") as [->|_]; [discriminate|]. reflexivity.
Qed.

(** C12. A tool named like a member of [Object.prototype] reads an
    inherited function (or the prototype object) as its duration; its
    [ToNumber] is [NaN], so the age test is never true and the entry
    never expires. *)
Lemma proto_tool_never_expires toolName now ts :
  mem_string toolName object_proto_members = true ->
  res_bind (cache_duration toolName) (still_fresh now ts) = Ok true.
Proof.
  intros Hm. unfold cache_duration, object_proto_members, mem_string in *.
  simpl in Hm.
  repeat match type of Hm with
  | (String.eqb toolName ?s || _) = true =>
      destruct (String.eqb_spec toolName s) as [->|_]; [reflexivity|simpl in Hm]
  end; discriminate.
Qed.

(** ** The orchestrator against the cache contract *)

Section OrchestratorLaws.

Context {C : Type} `{ExpiringCacheLaws C}.

Lemma dispatch_hit now t a (w : world C) v c' :
    cache_get now (cache_key t a) (cache w) = (Ok v, c') -> truthy v = true ->
    dispatch now t a w = (Ok (Served v), mkWorld c' (notes w) (requests w)).
  Proof. intros Hg Ht. unfold dispatch. by rewrite Hg, Ht. Qed.

Lemma dispatch_miss now t a (w : world C) v c' :
    cache_get now (cache_key t a) (cache w) = (Ok v, c') -> truthy v = false ->
    dispatch now t a w =
      (Ok (Pending (cache_key t a)),
       mkWorld c' (notes w) (requests w ++ [request_of t a])).
  Proof. intros Hg Ht. unfold dispatch. by rewrite Hg, Ht. Qed.

  (** C6. A cache hit answers the cached value at once: no request is
      sent, no notification is shown, and neither the network answer nor
      [Math.random] is consulted. *)
Theorem callMCPTool_hit o t a (w : world C) v c' :
    cache_get (now_call o) (cache_key t a) (cache w) = (Ok v, c') -> truthy v = true ->
    callMCPTool o t a w = (Ok v, mkWorld c' (notes w) (requests w)).
  Proof. intros Hg Ht. unfold callMCPTool. by rewrite (dispatch_hit _ _ _ _ _ _ Hg Ht). Qed.

  (** C7. A miss answered by a successful response returns the payload,
      sends exactly one request, and caches the payload under the request's
      key with the duration of the table, stamped when the response
      arrives. *)
Theorem callMCPTool_miss_success o t a (w : world C) v c' st data d :
    cache_get (now_call o) (cache_key t a) (cache w) = (Ok v, c') -> truthy v = false ->
    response o = HttpResponse true st (Some data) -> cache_duration t = Ok d ->
    callMCPTool o t a w =
      (Ok data, mkWorld (cache_set (now_settle o) (cache_key t a) data d c')
                        (notes w) (requests w ++ [request_of t a])).
  Proof.
    intros Hg Ht Hr Hd. unfold callMCPTool.
    rewrite (dispatch_miss _ _ _ _ _ _ Hg Ht). unfold resume. by rewrite Hr, Hd.
  Qed.

Lemma callMCPTool_miss_failure o t a (w : world C) v c' :
    cache_get (now_call o) (cache_key t a) (cache w) = (Ok v, c') -> truthy v = false ->
    (forall st data, response o <> HttpResponse true st (Some data)) ->
    callMCPTool o t a w =
      (match getSimulatedData (rand o) (now_settle o) t a 0%nat with
       | Ok (r, _) => Ok r
       | Throw e => Throw e
       end,
       mkWorld c' (notes w ++ [("Unable to fetch " ++ t ++ " data. Using simulated data.",
                                "warning")])
               (requests w ++ [request_of t a])).
  Proof.
    intros Hg Ht Hr. unfold callMCPTool.
    rewrite (dispatch_miss _ _ _ _ _ _ Hg Ht). unfold resume.
    destruct (response o) as [|[] st [data|]]; try (by destruct getSimulatedData as [[]|]).
    exfalso. by apply (Hr st data).
  Qed.

Lemma resume_requests now rnd t a key o (w : world C) :
    requests (snd (resume now rnd t a key o w)) = requests w.
  Proof.
    unfold resume. destruct o as [|[] st [data|]]; simpl;
      repeat match goal with |- context [match ?x with _ => _ end] => destruct x end;
      reflexivity.
  Qed.

  (** The requests a call sends, by the first component of the lookup. *)
Lemma callMCPTool_requests o t a (w : world C) v :
    fst (cache_get (now_call o) (cache_key t a) (cache w)) = Ok v ->
    requests (snd (callMCPTool o t a w)) =
      (requests w ++ (if truthy v then [] else [request_of t a]))%list.
  Proof.
    intros Hg. destruct (cache_get _ _ _) as [r c'] eqn:Eg. simpl in Hg. subst r.
    destruct (truthy v) eqn:Ht.
    - unfold callMCPTool. rewrite (dispatch_hit _ _ _ _ _ _ Eg Ht). simpl. by rewrite app_nil_r.
    - unfold callMCPTool. rewrite (dispatch_miss _ _ _ _ _ _ Eg Ht).
      by rewrite resume_requests.
  Qed.

Section RepeatCall.

    (** A first call that misses and gets a successful response. *)
Variables (o1 o2 : oracle) (t : string) (a : jsval) (w : world C).
Variables (v c' : jsval) (st : string) (data : jsval).
Variable c1 : C.
Hypothesis miss1 : cache_get (now_call o1) (cache_key t a) (cache w) = (Ok v, c1).
Hypothesis falsy1 : truthy v = false.
Hypothesis success1 : response o1 = HttpResponse true st (Some data).
Hypothesis default_ttl : cache_duration t = Ok (JNum (of_Z 60000)).

Lemma first_call :
      callMCPTool o1 t a w =
        (Ok data, mkWorld (cache_set (now_settle o1) (cache_key t a) data
                                     (JNum (of_Z 60000)) c1)
                          (notes w) (requests w ++ [request_of t a])).
    Proof.
      unfold callMCPTool. rewrite (dispatch_miss _ _ _ _ _ _ miss1 falsy1). unfold resume.
      by rewrite success1, default_ttl.
    Qed.

    (** C3. A repeated call no later than 60 s after the first response
        (the configured duration) is answered from the cache with the same
        payload; it sends no request and changes nothing. *)
Theorem repeat_call_served :
      (now_call o2 - now_settle o1 <= 60000)%Z -> truthy data = true ->
      callMCPTool o2 t a (snd (callMCPTool o1 t a w)) = (Ok data, snd (callMCPTool o1 t a w)).
    Proof.
      intros Hage Htr. rewrite first_call. simpl.
      unfold callMCPTool. erewrite dispatch_hit; [reflexivity| |exact Htr]. simpl.
      apply get_set_same.
      rewrite still_fresh_num. f_equal. apply Z.leb_le. exact Hage.
    Qed.

    (** C4. A repeated call more than 60 s after the first response finds
        the entry stale and sends a second request. *)
Theorem repeat_call_expired :
      (now_call o2 - now_settle o1 > 60000)%Z ->
      requests (snd (callMCPTool o2 t a (snd (callMCPTool o1 t a w)))) =
        (requests w ++ [request_of t a; request_of t a])%list.
    Proof.
      intros Hage. rewrite first_call.
      rewrite (callMCPTool_requests _ _ _ _ JNull); [simpl; by rewrite <- app_assoc|]. simpl.
      apply get_set_stale. rewrite still_fresh_num. f_equal.
      apply Z.leb_gt. lia.
    Qed.

    (** C5. A falsy payload ([0], [""], [false], [null]) is cached but
        never served: [if (cached)] treats it as a miss, so even an
        immediate repeat sends a second request. *)
Theorem falsy_payload_refetched :
      (now_call o2 - now_settle o1 <= 60000)%Z -> truthy data = false ->
      requests (snd (callMCPTool o2 t a (snd (callMCPTool o1 t a w)))) =
        (requests w ++ [request_of t a; request_of t a])%list.
    Proof.
      intros Hage Hf. rewrite first_call.
      rewrite (callMCPTool_requests _ _ _ _ data).
      - simpl. rewrite Hf. by rewrite <- app_assoc.
      - simpl. rewrite get_set_same; [done|].
        rewrite still_fresh_num. f_equal. apply Z.leb_le. exact Hage.
    Qed.

End RepeatCall.

End OrchestratorLaws.

(** ** The fallback on the dashboard's own arguments *)

Lemma stock_payload_news_args rnd now i :
  stock_payload rnd now news_args i =
    Throw (TypeError "Cannot read properties of undefined (reading 'map')").
Proof. unfold stock_payload, sim_bind, sim_lift. simpl. reflexivity. Qed.

Lemma stock_payload_employment_args rnd now i :
  stock_payload rnd now employment_args i =
    Throw (TypeError "Cannot read properties of undefined (reading 'map')").
Proof. unfold stock_payload, sim_bind, sim_lift. simpl. reflexivity. Qed.

(** The news payload needs [args.days_back]: without it the date is
    [new Date(NaN)] and [toISOString] throws. *)
Lemma news_payload_no_days_back now args i c s :
  get_prop args "company" = Ok c -> to_string c = Ok s ->
  get_prop args "days_back" = Ok JUndef ->
  news_payload now args i = Throw (RangeError "Invalid time value").
Proof.
  intros Hc Hs Hdb. unfold news_payload, sim_bind, sim_lift.
  rewrite Hc, Hs, Hdb. simpl. unfold now_iso.
  destruct (time_clip (of_Z now)); reflexivity.
Qed.

Lemma stock_entry_ok rnd s i :
  exists o, stock_entry rnd s i = Ok (o, 7 + i)%nat /\ get_prop o "symbol" = Ok s.
Proof.
  eexists. split; [unfold stock_entry, sim_bind, random, sim_ret | ]; reflexivity.
Qed.

(** [args.symbols.map(...)] draws seven random values per symbol and
    keeps each symbol in its entry. *)
Lemma stock_entries_ok rnd l i :
  exists os, sim_mapM (stock_entry rnd) l i = Ok (os, 7 * List.length l + i)%nat /\
    Forall2 (fun s o => get_prop o "symbol" = Ok s) l os.
Proof.
  revert i. induction l as [|s l IH]; intros i; [exists []; split; [reflexivity | constructor]|].
  destruct (stock_entry_ok rnd s i) as (o & Ho & Hs).
  destruct (IH (7 + i)%nat) as (os & Hos & Hall).
  exists (o :: os). simpl. unfold sim_bind. rewrite Ho, Hos. split.
  - unfold sim_ret. do 2 f_equal. lia.
  - by constructor.
Qed.

(** The stock payload: one entry per symbol, then [last_updated], which
    throws only on a clock outside the range of dates. *)
Lemma stock_payload_symbols rnd now args l i :
  get_prop args "symbols" = Ok (JArr l) ->
  exists os, Forall2 (fun s o => get_prop o "symbol" = Ok s) l os /\
    stock_payload rnd now args i =
      match now_iso now with
      | Ok u => Ok (JObj [("stocks", JArr os); ("last_updated", JStr u)],
                    7 * List.length l + i)%nat
      | Throw e => Throw e
      end.
Proof.
  intros Hs. destruct (stock_entries_ok rnd l i) as (os & Hos & Hall).
  exists os. split; [exact Hall|].
  unfold stock_payload, sim_bind at 1, sim_lift at 1. rewrite Hs.
  unfold sim_bind at 1. rewrite Hos. unfold sim_bind, sim_lift.
  by destruct (now_iso now).
Qed.

(** The fallback for each of the dashboard's own calls throws, whatever
    the clock and the random values: the stock arguments have no
    [days_back], and the news and employment arguments have no
    [symbols]. *)
Lemma getSimulatedData_dashboard_args rnd now i :
  getSimulatedData rnd now "get_stock_financial_data" stock_args i =
    Throw (RangeError "Invalid time value") /\
  getSimulatedData rnd now "get_ai_company_news" news_args i =
    Throw (TypeError "Cannot read properties of undefined (reading 'map')") /\
  getSimulatedData rnd now "get_tech_employment_trends" employment_args i =
    Throw (TypeError "Cannot read properties of undefined (reading 'map')").
Proof.
  split; [|split; unfold getSimulatedData, sim_bind at 1;
              [rewrite stock_payload_news_args | rewrite stock_payload_employment_args];
              reflexivity].
  destruct (stock_payload_symbols rnd now stock_args _ i eq_refl) as (os & _ & Hp).
  unfold getSimulatedData, sim_bind at 1. rewrite Hp.
  unfold now_iso in *. destruct (time_clip (of_Z now)) as [tv|]; [|reflexivity].
  simpl. unfold sim_bind at 1.
  rewrite (news_payload_no_days_back now stock_args _ JUndef "undefined"); reflexivity.
Qed.

Section DashboardFallback.

Context {C : Type} `{ExpiringCacheLaws C}.

  (** C1. Spec 4.2 and 8 say [getData] never fails and always returns a
      payload of its tool's schema.  In the code, each of the dashboard's
      three calls that misses the cache and whose [fetch] fails shows the
      warning and then rejects: the fallback generator throws on the very
      arguments the dashboard passes. *)
Theorem dashboard_fallback_rejects o t a (w : world C) v c' :
    In (t, a) dashboard_calls ->
    cache_get (now_call o) (cache_key t a) (cache w) = (Ok v, c') -> truthy v = false ->
    (forall st data, response o <> HttpResponse true st (Some data)) ->
    exists e, callMCPTool o t a w =
      (Throw e, mkWorld c' (notes w ++ [("Unable to fetch " ++ t ++ " data. Using simulated data.",
                                        "warning")])
                        (requests w ++ [request_of t a])).
  Proof.
    intros Hin Hg Ht Hr. rewrite (callMCPTool_miss_failure _ _ _ _ _ _ Hg Ht Hr).
    destruct (getSimulatedData_dashboard_args (rand o) (now_settle o) 0)
      as (Hs & Hn & He).
    simpl in Hin. destruct Hin as [[= <- <-]|[[= <- <-]|[[= <- <-]|[]]]];
      [rewrite Hs | rewrite Hn | rewrite He]; eexists; reflexivity.
  Qed.

End DashboardFallback.

(** ** Interleaving of concurrent calls *)

Section Interleaving.

  (** [updateDashboardData] dispatches its three calls together; their
      [fetch]es settle in any order.  A resume step changes the world in
      a way that does not depend on the world: it may write one cache
      entry, and it may append one notification. *)

Lemma resume_shape now rnd t a key o (w : world DataCache.t) :
    resume now rnd t a key o w =
      (fst (resume now rnd t a key o (mkWorld DataCache.empty [] [])),
       mkWorld (resume_effect now t key o (cache w)) (notes w ++ resume_notes t o)%list
               (requests w)).
  Proof.
    unfold resume, resume_effect, resume_notes, showNotification.
    destruct w as [c ns rs].
    destruct o as [|[] st [data|]]; simpl;
      repeat match goal with |- context [match ?x with _ => _ end] => destruct x end;
      simpl; rewrite ?app_nil_r; reflexivity.
  Qed.

Lemma resume_effect_commute now1 now2 t1 t2 k1 k2 o1 o2 c :
    k1 <> k2 ->
    resume_effect now2 t2 k2 o2 (resume_effect now1 t1 k1 o1 c) =
    resume_effect now1 t1 k1 o1 (resume_effect now2 t2 k2 o2 c).
  Proof.
    intros Hne. unfold resume_effect, DataCache.set.
    destruct o1 as [|[] ? [d1|]], o2 as [|[] ? [d2|]]; try reflexivity;
      destruct (cache_duration t1), (cache_duration t2); try reflexivity.
    by apply insert_insert_ne.
  Qed.

  (** C11. Two pending calls on different cache keys may settle in either
      order: each answers the same value, the cache ends the same, the
      same requests stand, and the notifications are the same up to
      order. *)
Theorem resume_commute now1 now2 r1 r2 t1 t2 a1 a2 k1 k2 o1 o2 (w : world DataCache.t) :
    k1 <> k2 ->
    let '(x1, wa) := resume now1 r1 t1 a1 k1 o1 w in
    let '(x2, wb) := resume now2 r2 t2 a2 k2 o2 wa in
    let '(y2, wc) := resume now2 r2 t2 a2 k2 o2 w in
    let '(y1, wd) := resume now1 r1 t1 a1 k1 o1 wc in
    x1 = y1 /\ x2 = y2 /\ cache wb = cache wd /\
    Permutation (notes wb) (notes wd) /\ requests wb = requests wd.
  Proof.
    intros Hne.
    rewrite (resume_shape now1 _ _ _ _ _ w), (resume_shape now2 _ _ _ _ _ w).
    rewrite (resume_shape now2 _ _ _ _ _ (mkWorld _ _ _)),
            (resume_shape now1 _ _ _ _ _ (mkWorld _ _ _)).
    simpl. split; [done|]. split; [done|]. split; [by apply resume_effect_commute|].
    split; [|done]. rewrite <- !app_assoc. apply Permutation_app_head, Permutation_app_comm.
  Qed.

End Interleaving.

(** ** The fingerprint and the fallback shape *)

Lemma serialize_pair k1 k2 v1 v2 s1 s2 :
  array_index k1 = None -> array_index k2 = None ->
  serialize v1 = Some s1 -> serialize v2 = Some s2 ->
  serialize (JObj [(k1, v1); (k2, v2)]) =
    Some ("{" ++ ((quote_json_string k1 ++ ":" ++ s1) ++ "," ++ (quote_json_string k2 ++ ":" ++ s2))
          ++ "}").
Proof.
  intros H1 H2 E1 E2. cbn [serialize]. rewrite E1, E2.
  unfold own_key_order. cbn [fold_left List.filter]. rewrite H1, H2. reflexivity.
Qed.

(** C18. Spec 3 asks that structurally equal arguments give the same
    fingerprint whatever their key order.  The code serializes the
    arguments as they are: for any two different keys that are not array
    indices, and any values [JSON.stringify] prints, the same two
    arguments in the other order give a different cache key, hence a
    cache miss. *)
Theorem cache_key_order_sensitive tool k1 k2 v1 v2 s1 s2 :
  k1 <> k2 -> array_index k1 = None -> array_index k2 = None ->
  serialize v1 = Some s1 -> serialize v2 = Some s2 ->
  cache_key tool (JObj [(k1, v1); (k2, v2)]) <> cache_key tool (JObj [(k2, v2); (k1, v1)]).
Proof.
  intros Hne H1 H2 E1 E2. unfold cache_key, stringify_in_template.
  rewrite (serialize_pair k1 k2 v1 v2 s1 s2), (serialize_pair k2 k1 v2 v1 s2 s1) by done.
  intros H. apply string_app_inv_l in H.
  rewrite !string_app_cons, !string_app_nil in H. injection H as H.
  rewrite !string_app_assoc, !string_app_cons, !string_app_nil in H.
  exact (Hne (proj1 (json_escape_quote_inj _ _ _ _ H))).
Qed.

Lemma news_payload_ok now args i c s db x :
  get_prop args "company" = Ok c -> to_string c = Ok s ->
  get_prop args "days_back" = Ok db -> to_number db = Ok x ->
  time_clip (js_sub (of_Z now) (days_to_ms x)) <> None -> time_clip (of_Z now) <> None ->
  exists v, news_payload now args i = Ok (v, i).
Proof.
  intros Hc Hs Hdb Hx Hfrom Hnow. unfold news_payload, sim_bind, sim_lift.
  rewrite Hc, Hs, Hdb, Hx. unfold now_iso, iso_date_of.
  destruct (time_clip (of_Z now)) as [tn|]; [|done].
  destruct (time_clip (js_sub _ _)) as [tf|]; [|done].
  eexists. reflexivity.
Qed.

Lemma employment_payload_empty rnd now args i mb y :
  get_prop args "months_back" = Ok mb -> to_number mb = Ok y -> to_length y = 0%Z ->
  exists v, employment_payload rnd now args i = Ok (v, i).
Proof.
  intros Hm Hy Hl. unfold employment_payload, sim_bind, sim_lift.
  rewrite Hm, Hy, Hl. eexists. reflexivity.
Qed.

(** C19. The positive side of spec 8's fallback property: with arguments
    that every branch of the literal can evaluate (a [symbols] array, a
    [days_back] giving a valid date, no [months_back] rows), the stock
    fallback succeeds and has exactly one entry per input symbol, carrying
    that symbol. *)
Theorem simulated_stocks_one_per_symbol rnd now args l c s db x mb y i :
  get_prop args "symbols" = Ok (JArr l) ->
  get_prop args "company" = Ok c -> to_string c = Ok s ->
  get_prop args "days_back" = Ok db -> to_number db = Ok x ->
  time_clip (js_sub (of_Z now) (days_to_ms x)) <> None -> time_clip (of_Z now) <> None ->
  get_prop args "months_back" = Ok mb -> to_number mb = Ok y -> to_length y = 0%Z ->
  exists os u i', getSimulatedData rnd now "get_stock_financial_data" args i =
      Ok (JObj [("stocks", JArr os); ("last_updated", JStr u)], i') /\
    Forall2 (fun s o => get_prop o "symbol" = Ok s) l os.
Proof.
  intros Hsym Hc Hs Hdb Hx Hfrom Hnow Hm Hy Hl.
  destruct (stock_payload_symbols rnd now args l i Hsym) as (os & Hall & Hp).
  unfold now_iso in Hp. destruct (time_clip (of_Z now)) as [tn|] eqn:Etn; [|done].
  cbn [to_iso_string] in Hp. set (i1 := (7 * List.length l + i)%nat) in Hp.
  destruct (news_payload_ok now args i1 c s db x Hc Hs Hdb Hx Hfrom) as [vn Hn];
    [by rewrite Etn|].
  destruct (employment_payload_empty rnd now args i1 mb y Hm Hy Hl) as [ve He].
  exists os, (iso_string tn), i1. split; [|exact Hall].
  unfold getSimulatedData, sim_bind at 1. rewrite Hp. cbv beta iota.
  unfold sim_bind at 1. rewrite Hn. cbv beta iota.
  unfold sim_bind at 1. rewrite He. reflexivity.
Qed.

(** ** Witnesses *)

Lemma dashboard_fallback_rejects_witness :
  In ("get_stock_financial_data", stock_args) dashboard_calls /\
  cache_get 0 (cache_key "get_stock_financial_data" stock_args) DataCache.empty =
    (Ok JNull, DataCache.empty) /\
  truthy JNull = false /\
  (forall st data, response (mkOracle 0 0 NetworkError (fun _ : nat => 0%Q)) <>
                   HttpResponse true st (Some data)) /\
  exists e, fst (callMCPTool (mkOracle 0 0 NetworkError (fun _ : nat => 0%Q))
                  "get_stock_financial_data" stock_args (mkWorld DataCache.empty [] [])) =
            Throw e.
Proof.
  assert (Hin : In ("get_stock_financial_data", stock_args) dashboard_calls) by (left; reflexivity).
  assert (Hg : cache_get 0 (cache_key "get_stock_financial_data" stock_args) DataCache.empty =
               (Ok JNull, DataCache.empty)) by reflexivity.
  assert (Hr : forall st data, response (mkOracle 0 0 NetworkError (fun _ : nat => 0%Q)) <>
                               HttpResponse true st (Some data)) by (intros st data; discriminate).
  split; [exact Hin|]. split; [exact Hg|]. split; [reflexivity|]. split; [exact Hr|].
  destruct (dashboard_fallback_rejects (mkOracle 0 0 NetworkError (fun _ : nat => 0%Q))
              "get_stock_financial_data" stock_args (mkWorld DataCache.empty [] [])
              JNull DataCache.empty Hin Hg eq_refl Hr) as [e He].
  exists e. rewrite He. reflexivity.
Defined.

Lemma cache_duration_default_witness :
  ~ In "get_ai_company_news" ["stocks"; "news"; "employment"] /\
  mem_string "get_ai_company_news" object_proto_members = false /\
  cache_duration "get_ai_company_news" = Ok (JNum (of_Z 60000)).
Proof.
  assert (H1 : ~ In "get_ai_company_news" ["stocks"; "news"; "employment"])
    by (simpl; intros [H|[H|[H|[]]]]; discriminate).
  assert (H2 : mem_string "get_ai_company_news" object_proto_members = false) by reflexivity.
  split; [exact H1|]. split; [exact H2|]. exact (cache_duration_default _ H1 H2).
Defined.

Lemma repeat_call_served_witness :
  let o1 := mkOracle 0 100 (HttpResponse true "OK" (Some (JStr "payload"))) (fun _ : nat => 0%Q) in
  let o2 := mkOracle 5000 5000 NetworkError (fun _ : nat => 0%Q) in
  let w := mkWorld DataCache.empty [] [] in
  cache_get (now_call o1) (cache_key "get_ai_company_news" news_args) (cache w) =
    (Ok JNull, DataCache.empty) /\
  response o1 = HttpResponse true "OK" (Some (JStr "payload")) /\
  cache_duration "get_ai_company_news" = Ok (JNum (of_Z 60000)) /\
  (now_call o2 - now_settle o1 <= 60000)%Z /\
  callMCPTool o2 "get_ai_company_news" news_args
    (snd (callMCPTool o1 "get_ai_company_news" news_args w)) =
  (Ok (JStr "payload"), snd (callMCPTool o1 "get_ai_company_news" news_args w)).
Proof.
  intros o1 o2 w. split; [reflexivity|]. split; [reflexivity|]. split; [reflexivity|].
  split; [simpl; lia|].
  eapply repeat_call_served with (v := JNull) (c1 := DataCache.empty) (st := "OK");
    try reflexivity; try (simpl; lia).
Defined.

Lemma repeat_call_expired_witness :
  let o1 := mkOracle 0 100 (HttpResponse true "OK" (Some (JStr "payload"))) (fun _ : nat => 0%Q) in
  let o2 := mkOracle 70000 70000 NetworkError (fun _ : nat => 0%Q) in
  let w := mkWorld DataCache.empty [] [] in
  cache_get (now_call o1) (cache_key "get_ai_company_news" news_args) (cache w) =
    (Ok JNull, DataCache.empty) /\
  (now_call o2 - now_settle o1 > 60000)%Z /\
  requests (snd (callMCPTool o2 "get_ai_company_news" news_args
                   (snd (callMCPTool o1 "get_ai_company_news" news_args w)))) =
    (requests w ++ [request_of "get_ai_company_news" news_args;
                    request_of "get_ai_company_news" news_args])%list.
Proof.
  intros o1 o2 w. split; [reflexivity|]. split; [simpl; lia|].
  eapply repeat_call_expired with (v := JNull) (c1 := DataCache.empty) (st := "OK")
    (data := JStr "payload"); try reflexivity; try (simpl; lia).
Defined.

Lemma falsy_payload_refetched_witness :
  let o1 := mkOracle 0 100 (HttpResponse true "OK" (Some (JNum (of_Z 0)))) (fun _ : nat => 0%Q) in
  let o2 := mkOracle 200 200 NetworkError (fun _ : nat => 0%Q) in
  let w := mkWorld DataCache.empty [] [] in
  cache_get (now_call o1) (cache_key "get_ai_company_news" news_args) (cache w) =
    (Ok JNull, DataCache.empty) /\
  truthy (JNum (of_Z 0)) = false /\
  requests (snd (callMCPTool o2 "get_ai_company_news" news_args
                   (snd (callMCPTool o1 "get_ai_company_news" news_args w)))) =
    (requests w ++ [request_of "get_ai_company_news" news_args;
                    request_of "get_ai_company_news" news_args])%list.
Proof.
  intros o1 o2 w. split; [reflexivity|]. split; [reflexivity|].
  eapply falsy_payload_refetched with (v := JNull) (c1 := DataCache.empty) (st := "OK");
    try reflexivity; try (simpl; lia).
Defined.

Lemma callMCPTool_hit_witness :
  let key := cache_key "get_ai_company_news" news_args in
  let c := DataCache.set 0 key (JStr "p") (JNum (of_Z 60000)) DataCache.empty in
  let w := mkWorld c [] [] in
  let o := mkOracle 10 10 NetworkError (fun _ : nat => 0%Q) in
  cache_get (now_call o) key (cache w) = (Ok (JStr "p"), c) /\
  truthy (JStr "p") = true /\
  callMCPTool o "get_ai_company_news" news_args w = (Ok (JStr "p"), mkWorld c (notes w) (requests w)).
Proof.
  intros key c w o.
  assert (Hg : cache_get (now_call o) key (cache w) = (Ok (JStr "p"), c)) by reflexivity.
  split; [exact Hg|]. split; [reflexivity|].
  exact (callMCPTool_hit o "get_ai_company_news" news_args w (JStr "p") c Hg eq_refl).
Defined.

Lemma callMCPTool_miss_success_witness :
  let o := mkOracle 0 100 (HttpResponse true "OK" (Some (JStr "p"))) (fun _ : nat => 0%Q) in
  let w := mkWorld DataCache.empty [] [] in
  cache_get (now_call o) (cache_key "get_ai_company_news" news_args) (cache w) =
    (Ok JNull, DataCache.empty) /\
  cache_duration "get_ai_company_news" = Ok (JNum (of_Z 60000)) /\
  callMCPTool o "get_ai_company_news" news_args w =
    (Ok (JStr "p"), mkWorld (cache_set 100 (cache_key "get_ai_company_news" news_args) (JStr "p")
                               (JNum (of_Z 60000)) DataCache.empty)
                            (notes w) (requests w ++ [request_of "get_ai_company_news" news_args])).
Proof.
  intros o w.
  assert (Hg : cache_get (now_call o) (cache_key "get_ai_company_news" news_args) (cache w) =
               (Ok JNull, DataCache.empty)) by reflexivity.
  assert (Hd : cache_duration "get_ai_company_news" = Ok (JNum (of_Z 60000))) by reflexivity.
  split; [exact Hg|]. split; [exact Hd|].
  exact (callMCPTool_miss_success o _ _ w JNull DataCache.empty "OK" (JStr "p") _ Hg eq_refl
           eq_refl Hd).
Defined.

Lemma resume_commute_witness :
  "a" <> "b" /\
  let w := mkWorld DataCache.empty [] [] in
  let '(x1, wa) := resume 0 (fun _ : nat => 0%Q) "get_ai_company_news" news_args "a"
                     (HttpResponse true "OK" (Some (JStr "x"))) w in
  let '(x2, wb) := resume 5 (fun _ : nat => 0%Q) "get_tech_employment_trends" employment_args "b"
                     NetworkError wa in
  let '(y2, wc) := resume 5 (fun _ : nat => 0%Q) "get_tech_employment_trends" employment_args "b"
                     NetworkError w in
  let '(y1, wd) := resume 0 (fun _ : nat => 0%Q) "get_ai_company_news" news_args "a"
                     (HttpResponse true "OK" (Some (JStr "x"))) wc in
  x1 = y1 /\ x2 = y2 /\ cache wb = cache wd /\
  Permutation (notes wb) (notes wd) /\ requests wb = requests wd.
Proof.
  assert (Hne : "a" <> "b") by discriminate.
  split; [exact Hne|]. apply (resume_commute 0 5 _ _ _ _ _ _ "a" "b" _ _ _ Hne).
Defined.

Lemma proto_tool_never_expires_witness :
  mem_string "constructor" object_proto_members = true /\
  res_bind (cache_duration "constructor") (still_fresh 999999999 0) = Ok true.
Proof.
  assert (H : mem_string "constructor" object_proto_members = true) by reflexivity.
  split; [exact H|]. exact (proto_tool_never_expires _ _ _ H).
Defined.

Lemma simulated_stocks_one_per_symbol_witness :
  let args := JObj [("symbols", JArr [JStr "AAA"; JStr "BBB"]); ("days_back", JNum (of_Z 7))] in
  time_clip (js_sub (of_Z 1762646400000) (days_to_ms (of_Z 7))) <> None /\
  time_clip (of_Z 1762646400000) <> None /\
  exists os u i', getSimulatedData (fun _ : nat => 0%Q) 1762646400000 "get_stock_financial_data" args 0 =
      Ok (JObj [("stocks", JArr os); ("last_updated", JStr u)], i') /\
    Forall2 (fun s o => get_prop o "symbol" = Ok s) [JStr "AAA"; JStr "BBB"] os.
Proof.
  intros args.
  assert (H1 : time_clip (js_sub (of_Z 1762646400000) (days_to_ms (of_Z 7))) <> None)
    by (vm_compute; discriminate).
  assert (H2 : time_clip (of_Z 1762646400000) <> None) by (vm_compute; discriminate).
  split; [exact H1|]. split; [exact H2|].
  exact (simulated_stocks_one_per_symbol (fun _ : nat => 0%Q) 1762646400000 args _ JUndef "undefined"
           (JNum (of_Z 7)) (of_Z 7) JUndef NaN 0 eq_refl eq_refl eq_refl eq_refl eq_refl
           H1 H2 eq_refl eq_refl eq_refl).
Defined.

(** The dashboard's news request with its two keys in the other order. *)
Lemma cache_key_order_sensitive_witness :
  "company" <> "days_back" /\ array_index "company" = None /\ array_index "days_back" = None /\
  cache_key "get_ai_company_news" (JObj [("company", JStr "OpenAI"); ("days_back", JNum (of_Z 7))])
  <> cache_key "get_ai_company_news" (JObj [("days_back", JNum (of_Z 7)); ("company", JStr "OpenAI")]).
Proof.
  assert (Hne : "company" <> "days_back") by discriminate.
  assert (H1 : array_index "company" = None) by reflexivity.
  assert (H2 : array_index "days_back" = None) by reflexivity.
  split; [exact Hne|]. split; [exact H1|]. split; [exact H2|].
  exact (cache_key_order_sensitive "get_ai_company_news" "company" "days_back" (JStr "OpenAI")
           (JNum (of_Z 7)) _ _ Hne H1 H2 eq_refl eq_refl).
Defined.
