(* ===== verification/Metrics.v ===== *)
(** * Metrics: the KPI updates of dashboard-script.js (lines 254-388)

    [updateMarketSentiment], [updateDeveloperActivity] and
    [updatePortfolioPerformance] turn the three payloads into the numbers
    of the dashboard's KPI cards.  [updateDashboardSimulated] draws
    random numbers instead.  The page is a record of the KPI elements
    they touch: the [textContent] of a value element, the class and the
    inner HTML of a change element (its SVG arrow and the text of its
    [span]), the text and class of the status element.  Every call of
    [animateValue] is recorded as a request (element, start, end,
    duration, prefix, suffix); the timer that then runs is not part of
    this file.

    Each update reads the payload with JavaScript's semantics: property
    reads on [undefined] throw, array methods exist only on arrays,
    [parseFloat] reads the string form of a value, and division by zero
    gives [NaN] or an infinity. *)

From S2P Require Import Prelude JsNum JsValue CallTool.
From Stdlib Require Import Ascii String Lqa.

Local Open Scope string_scope.

Inductive arrow := ArrowUp | ArrowDown.

(** The inner HTML of a change element: the arrow of its SVG polyline
    and the text of its [span]. *)
Record change_html := mkChange { arrow_of : arrow; span_text : string }.

Record animation := mkAnimation {
  anim_element : string;
  anim_start : num;
  anim_end : num;
  anim_duration : Z;
  anim_prefix : string;
  anim_suffix : string
}.

Record page := mkPage {
  sentimentValue : string;
  sentimentChangeClass : string;
  sentimentChange : change_html;
  sentimentStatus : string * string;
  devActivityValue : string;
  devActivityChange : change_html;
  portfolioValue : string;
  portfolioChange : change_html;
  animations : list animation
}.

(** [animateValue(element, start, end, duration, prefix, suffix)]: the
    request is recorded. *)
Definition animateValue (el : string) (start stop : num) (duration : Z)
    (prefix suffix : string) (p : page) : page :=
  mkPage (sentimentValue p) (sentimentChangeClass p) (sentimentChange p)
    (sentimentStatus p) (devActivityValue p) (devActivityChange p)
    (portfolioValue p) (portfolioChange p)
    (animations p ++ [mkAnimation el start stop duration prefix suffix])%list.

(** ** Array methods and conversions on payload values *)

Definition not_a_function (what : string) : js_error :=
  TypeError (what ++ " is not a function").

(** The elements of [v] for a call [v.method(...)] of an array method,
    on a truthy [v]: JSON values other than arrays have no such method. *)
Definition array_elems (what : string) (v : jsval) : res (list jsval) :=
  match v with
  | JArr l => Ok l
  | _ => Throw (not_a_function what)
  end.

(** [parseFloat(x)]: the string form of [x], parsed. *)
Definition parseFloat_val (x : jsval) : res num :=
  s <- to_string x ;; Ok (parse_float s).

(** [arr.filter(p)] with a predicate that may throw. *)
Fixpoint filter_res (p : jsval -> res bool) (l : list jsval) : res (list jsval) :=
  match l with
  | [] => Ok []
  | x :: l' => b <- p x ;; r <- filter_res p l' ;; Ok (if b then x :: r else r)
  end.

(** [arr.reduce((sum, s) => sum + parseFloat(s.change_percent), 0)]. *)
Fixpoint sum_change_percent (acc : num) (l : list jsval) : res num :=
  match l with
  | [] => Ok acc
  | s :: l' =>
      c <- get_prop s "change_percent" ;; x <- parseFloat_val c ;;
      sum_change_percent (js_add acc x) l'
  end.

(** [arr.find(s => s.symbol === sym)]. *)
Fixpoint find_symbol (sym : string) (l : list jsval) : res jsval :=
  match l with
  | [] => Ok JUndef
  | s :: l' =>
      x <- get_prop s "symbol" ;;
      if strict_eq_str x sym then Ok s else find_symbol sym l'
  end.

Definition nlen (l : list jsval) : num := of_Z (Z.of_nat (List.length l)).

(** ** [updateMarketSentiment] (lines 254-311) *)

(** Lines 263-268. *)
Definition news_sentiment (newsData : jsval) : res num :=
  if truthy newsData then
    articles <- get_prop newsData "articles" ;;
    if truthy articles then
      l <- array_elems "newsData.articles.filter" articles ;;
      pos <- filter_res (fun a => s <- get_prop a "sentiment" ;;
                                  Ok (strict_eq_str s "positive")) l ;;
      Ok (js_mul (js_div (nlen pos) (nlen l)) (of_Z 100))
    else Ok (of_Z 50)
  else Ok (of_Z 50).

(** Lines 270-274. *)
Definition stock_sentiment (stockData : jsval) : res num :=
  if truthy stockData then
    stocks <- get_prop stockData "stocks" ;;
    if truthy stocks then
      l <- array_elems "stockData.stocks.reduce" stocks ;;
      sum <- sum_change_percent (of_Z 0) l ;;
      let avgChange := js_div sum (nlen l) in
      Ok (js_add (of_Z 50) (js_mul avgChange (of_Z 5)))
    else Ok (of_Z 50)
  else Ok (of_Z 50).

(** Lines 301-310. *)
Definition sentiment_status (s : num) : string * string :=
  if js_gt s (of_Z 70) then ("Bullish", "kpi-status bullish")
  else if js_gt s (of_Z 50) then ("Neutral", "kpi-status neutral")
  else ("Bearish", "kpi-status bearish").

(** [Math.round(newsSentiment * 0.4 + stockSentiment * 0.6)] (line 276). *)
Definition sentiment_score (ns ss : num) : num :=
  math_round (js_add (js_mul ns (qnum (2 # 5))) (js_mul ss (qnum (3 # 5)))).

Definition updateMarketSentiment (newsData stockData : jsval) (p : page) : res page :=
  ns <- news_sentiment newsData ;;
  ss <- stock_sentiment stockData ;;
  let newSentiment := sentiment_score ns ss in
  let prev := parse_int (sentimentValue p) in
  let sentimentDelta := to_fixed 1 (js_sub newSentiment prev) in
  let p := animateValue "sentimentValue" prev newSentiment 1000 "" "" p in
  let '(cls, ch) :=
    if js_gt (string_to_number sentimentDelta) (of_Z 0)
    then ("kpi-change positive", mkChange ArrowUp ("+" ++ sentimentDelta ++ "%"))
    else ("kpi-change negative", mkChange ArrowDown (sentimentDelta ++ "%")) in
  Ok (mkPage (sentimentValue p) cls ch (sentiment_status newSentiment)
        (devActivityValue p) (devActivityChange p) (portfolioValue p)
        (portfolioChange p) (animations p)).

(** ** [updateDeveloperActivity] (lines 314-334) *)

Definition set_devActivityChange (ch : change_html) (p : page) : page :=
  mkPage (sentimentValue p) (sentimentChangeClass p) (sentimentChange p)
    (sentimentStatus p) (devActivityValue p) ch (portfolioValue p)
    (portfolioChange p) (animations p).

Definition updateDeveloperActivity (employmentData : jsval) (p : page) : res page :=
  if truthy employmentData then
    ed <- get_prop employmentData "employment_data" ;;
    if truthy ed then
      latestData <- get_prop ed "0" ;;
      second <- get_prop ed "1" ;;
      let previousData := if truthy second then second else latestData in
      l1 <- get_prop latestData "job_postings_index" ;;
      x1 <- to_number l1 ;;
      let newDevActivity := to_fixed 1 (js_div x1 (of_Z 10)) in
      l2 <- get_prop latestData "job_postings_index" ;;
      p2 <- get_prop previousData "job_postings_index" ;;
      x2 <- to_number l2 ;; y2 <- to_number p2 ;;
      p3 <- get_prop previousData "job_postings_index" ;;
      y3 <- to_number p3 ;;
      let changePercent := to_fixed 1 (js_mul (js_div (js_sub x2 y2) y3) (of_Z 100)) in
      let p := animateValue "devActivityValue" (parse_float (devActivityValue p))
                 (parse_float newDevActivity) 1000 "" "" p in
      Ok (set_devActivityChange (mkChange ArrowUp ("+" ++ changePercent ++ "%")) p)
    else Ok p
  else Ok p.

(** ** [updatePortfolioPerformance] (lines 337-373) *)

Definition set_portfolioChange (ch : change_html) (p : page) : page :=
  mkPage (sentimentValue p) (sentimentChangeClass p) (sentimentChange p)
    (sentimentStatus p) (devActivityValue p) (devActivityChange p) (portfolioValue p)
    ch (animations p).

(** [text.replace('+', '')]: the first [+] is removed. *)
Fixpoint remove_first_plus (s : string) : string :=
  match s with
  | EmptyString => s
  | String c s' => if (c =? "+")%char then s' else String c (remove_first_plus s')
  end.

Definition in_portfolio (s : jsval) : res bool :=
  x <- get_prop s "symbol" ;;
  Ok (match x with JStr sym => mem_string sym PORTFOLIO_STOCKS | _ => false end).

(** [portfolioReturn] (lines 343-349). *)
Definition portfolio_return (l : list jsval) : res num :=
  portfolioStocks <- filter_res in_portfolio l ;;
  sum <- sum_change_percent (of_Z 0) portfolioStocks ;;
  Ok (js_div sum (nlen portfolioStocks)).

(** [spyReturn] (lines 352-353). *)
Definition spy_return (l : list jsval) : res num :=
  spyStock <- find_symbol "SPY" l ;;
  if truthy spyStock
  then c <- get_prop spyStock "change_percent" ;; parseFloat_val c
  else Ok (of_Z 0).

Definition updatePortfolioPerformance (stockData : jsval) (p : page) : res page :=
  if truthy stockData then
    stocks <- get_prop stockData "stocks" ;;
    if truthy stocks then
      l <- array_elems "stockData.stocks.filter" stocks ;;
      portfolioReturn <- portfolio_return l ;;
      spyReturn <- spy_return l ;;
      let alpha := js_sub portfolioReturn spyReturn in
      let p := animateValue "portfolioValue" (parse_float (remove_first_plus (portfolioValue p)))
                 (parse_float (to_fixed 1 portfolioReturn)) 1000 "+" "%" p in
      Ok (set_portfolioChange (mkChange ArrowUp ("+" ++ to_fixed 1 alpha ++ "% vs SPY")) p)
    else Ok p
  else Ok p.

(** ** [updateDashboardSimulated] (lines 376-388) *)

Definition updateDashboardSimulated (r1 r2 r3 : Q) (p : page) : page :=
  let newSentiment := js_add (math_floor (js_mul (qnum r1) (of_Z 30))) (of_Z 60) in
  let newDevActivity := to_fixed 1 (js_add (js_mul (qnum r2) (of_Z 5)) (of_Z 6)) in
  let newPortfolio := to_fixed 1 (js_add (js_mul (qnum r3) (of_Z 10)) (of_Z 10)) in
  let p := animateValue "sentimentValue" (parse_int (sentimentValue p)) newSentiment 1000 "" "" p in
  let p := animateValue "devActivityValue" (parse_float (devActivityValue p))
             (parse_float newDevActivity) 1000 "" "" p in
  animateValue "portfolioValue" (parse_float (remove_first_plus (portfolioValue p)))
    (parse_float newPortfolio) 1000 "+" "%" p.

(** A stock record as the payload carries it. *)
Definition stock_record (sym change : string) : jsval :=
  JObj [("symbol", JStr sym); ("change_percent", JStr change)].

(** ** Lemmas *)

Lemma filter_res_all p l :
  (forall x, In x l -> p x = Ok true) -> filter_res p l = Ok l.
Proof.
  induction l as [|x l IH]; simpl; intros H; [done|].
  rewrite (H x (or_introl eq_refl)). simpl.
  rewrite IH; [done|]. intros y Hy. apply H. by right.
Qed.

Lemma filter_res_none p l :
  (forall x, In x l -> p x = Ok false) -> filter_res p l = Ok [].
Proof.
  induction l as [|x l IH]; simpl; intros H; [done|].
  rewrite (H x (or_introl eq_refl)). simpl.
  rewrite IH; [done|]. intros y Hy. apply H. by right.
Qed.

Lemma qnum_Fin q r : q == r -> qnum q = Fin (Qred r).
Proof. intros H. unfold qnum. f_equal. by apply Qred_complete. Qed.

(** The share of a non-empty list in itself, in percent. *)
Lemma share_self_percent l :
  l <> [] -> js_mul (js_div (nlen l) (nlen l)) (of_Z 100) = of_Z 100.
Proof.
  intros Hl. unfold nlen, of_Z, js_div, js_mul.
  assert (Hn : inject_Z (Z.of_nat (List.length l)) == 0 -> False).
  { destruct l; [done|]. simpl. unfold Qeq. simpl. lia. }
  destruct (Qeq_bool _ 0) eqn:E; [apply Qeq_bool_iff in E; tauto|].
  rewrite (qnum_Fin _ 1) by (field; exact Hn).
  reflexivity.
Qed.

(** [toFixed] of a negative number starts with a minus sign. *)
Lemma to_fixed_neg d q :
  Qlt_bool q 0 = true -> exists r, to_fixed d (Fin q) = ("-" ++ r)%string.
Proof.
  intros H. unfold to_fixed. rewrite H.
  destruct (Qle_bool _ _); eexists; reflexivity.
Qed.

Lemma news_sentiment_all_positive l :
  l <> [] -> (forall a, In a l -> get_prop a "sentiment" = Ok (JStr "positive")) ->
  news_sentiment (JObj [("articles", JArr l)]) = Ok (of_Z 100).
Proof.
  intros Hl Hpos. unfold news_sentiment. cbn -[nlen js_div js_mul of_Z filter_res].
  rewrite filter_res_all; [cbn -[nlen js_div js_mul of_Z]; by rewrite share_self_percent|].
  intros a Ha. by rewrite (Hpos a Ha).
Qed.

(** C13. The spec's example (spec 8): all articles positive gives a news
    sentiment of 100, and a flat market a stock sentiment of 50; the score
    is [round(100 * 0.4 + 50 * 0.6) = 70].  The status is "Neutral", since
    the code asks for more than 70 for "Bullish". *)
Theorem all_positive_flat_market l stockData p :
  l <> [] -> (forall a, In a l -> get_prop a "sentiment" = Ok (JStr "positive")) ->
  stock_sentiment stockData = Ok (of_Z 50) ->
  exists p', updateMarketSentiment (JObj [("articles", JArr l)]) stockData p = Ok p' /\
    sentimentStatus p' = ("Neutral", "kpi-status neutral") /\
    last (animations p') =
      Some (mkAnimation "sentimentValue" (parse_int (sentimentValue p)) (of_Z 70) 1000 "" "").
Proof.
  intros Hl Hpos Hs. unfold updateMarketSentiment.
  rewrite (news_sentiment_all_positive l Hl Hpos), Hs. simpl.
  destruct_if; (eexists; split; [reflexivity|]);
    simpl; (split; [reflexivity | by rewrite last_snoc]).
Qed.

(** C14. Spec 4.3 says the news sentiment defaults to 50 when there are
    no articles.  The code divides 0 by 0: an empty article list makes
    the score [NaN], the status "Bearish", and the change "NaN%". *)
Theorem empty_articles_nan stockData ss p :
  stock_sentiment stockData = Ok ss ->
  exists p', updateMarketSentiment (JObj [("articles", JArr [])]) stockData p = Ok p' /\
    sentimentStatus p' = ("Bearish", "kpi-status bearish") /\
    span_text (sentimentChange p') = "NaN%" /\
    last (animations p') =
      Some (mkAnimation "sentimentValue" (parse_int (sentimentValue p)) NaN 1000 "" "").
Proof.
  intros Hs. unfold updateMarketSentiment. simpl. rewrite Hs. simpl.
  eexists. split; [reflexivity|]. simpl. split; [reflexivity|]. split; [reflexivity|].
  by rewrite last_snoc.
Qed.

(** C15. [updateDeveloperActivity] always draws the up arrow and a "+"
    before the change.  When job postings fell from the previous entry to
    the latest one, the change is negative and the page shows "+-x%". *)
Theorem dev_activity_drop_plus_minus l0 l1 rest a b p :
  get_prop l0 "job_postings_index" = Ok (JNum (of_Z a)) ->
  get_prop l1 "job_postings_index" = Ok (JNum (of_Z b)) ->
  truthy l1 = true -> (0 < a < b)%Z ->
  exists p' r,
    updateDeveloperActivity (JObj [("employment_data", JArr (l0 :: l1 :: rest))]) p = Ok p' /\
    devActivityChange p' = mkChange ArrowUp ("+-" ++ r).
Proof.
  intros H0 H1 Ht Hab. unfold updateDeveloperActivity.
  set (ed := JArr (l0 :: l1 :: rest)).
  assert (E : get_prop (JObj [("employment_data", ed)]) "employment_data" = Ok ed)
    by reflexivity.
  assert (E0 : get_prop ed "0" = Ok l0) by reflexivity.
  assert (E1 : get_prop ed "1" = Ok l1) by reflexivity.
  rewrite E. cbn [truthy res_bind]. unfold ed at 1. cbn [truthy]. fold ed.
  rewrite E0, E1.
  cbn [truthy res_bind]. rewrite Ht, H0, H1. cbn [res_bind to_number].
  destruct (relative_drop_negative a b Hab) as (q & -> & Hq).
  destruct (to_fixed_neg 1 q Hq) as [r ->].
  eexists _, (r ++ "%"). split; reflexivity.
Qed.

(** C17. When no stock of the payload is in [PORTFOLIO_STOCKS] (an empty
    list included), the portfolio return is 0/0 = [NaN]: the KPI animates
    to [NaN] and the page shows "+NaN% vs SPY". *)
Theorem no_portfolio_stock_nan l sr p :
  (forall s, In s l -> exists sym, get_prop s "symbol" = Ok (JStr sym) /\
                                   mem_string sym PORTFOLIO_STOCKS = false) ->
  spy_return l = Ok sr ->
  exists p', updatePortfolioPerformance (JObj [("stocks", JArr l)]) p = Ok p' /\
    portfolioChange p' = mkChange ArrowUp "+NaN% vs SPY" /\
    option_map anim_end (last (animations p')) = Some NaN.
Proof.
  intros Hnone Hspy.
  assert (Hret : portfolio_return l = Ok NaN).
  { unfold portfolio_return. rewrite filter_res_none; [reflexivity|].
    intros s Hs. destruct (Hnone s Hs) as (sym & Hsym & Hm).
    unfold in_portfolio. rewrite Hsym. cbn [res_bind]. by rewrite Hm. }
  unfold updatePortfolioPerformance.
  assert (E : get_prop (JObj [("stocks", JArr l)]) "stocks" = Ok (JArr l)) by reflexivity.
  rewrite E. cbn [truthy res_bind array_elems]. rewrite Hret, Hspy. cbn [res_bind].
  eexists. split; [reflexivity|]. split; [reflexivity|]. simpl. by rewrite last_snoc.
Qed.

(** C16. The alpha is always printed after a "+": when the portfolio's
    mean return is below the benchmark's, the change reads "+-x% vs SPY"
    under the up arrow, as with the developer activity. *)
Theorem negative_alpha_plus_minus l r b p :
  portfolio_return l = Ok (Fin r) -> spy_return l = Ok (Fin b) -> r < b ->
  exists p' t, updatePortfolioPerformance (JObj [("stocks", JArr l)]) p = Ok p' /\
    portfolioChange p' = mkChange ArrowUp ("+-" ++ t ++ "% vs SPY").
Proof.
  intros Hr Hb Hlt. unfold updatePortfolioPerformance.
  assert (E : get_prop (JObj [("stocks", JArr l)]) "stocks" = Ok (JArr l)) by reflexivity.
  rewrite E. cbn [truthy res_bind array_elems]. rewrite Hr, Hb. cbn [res_bind js_sub js_neg js_add].
  assert (Hneg : Qlt_bool (Qred (r + Qred (- b))) 0 = true).
  { rewrite Qlt_bool_Qred, Qlt_bool_iff, Qred_correct. lra. }
  unfold qnum. destruct (to_fixed_neg 1 _ Hneg) as [t ->].
  eexists _, t. split; reflexivity.
Qed.

(** ** Witnesses *)

Lemma all_positive_flat_market_witness :
  let l := [JObj [("title", JStr "t"); ("sentiment", JStr "positive")]] in
  let p := mkPage "72" "" (mkChange ArrowUp "") ("", "") "8.4" (mkChange ArrowUp "")
             "+12.5%" (mkChange ArrowUp "") [] in
  l <> [] /\ stock_sentiment JNull = Ok (of_Z 50) /\
  exists p', updateMarketSentiment (JObj [("articles", JArr l)]) JNull p = Ok p' /\
    sentimentStatus p' = ("Neutral", "kpi-status neutral") /\
    last (animations p') =
      Some (mkAnimation "sentimentValue" (parse_int (sentimentValue p)) (of_Z 70) 1000 "" "").
Proof.
  intros l p.
  assert (Hl : l <> []) by discriminate.
  assert (Hs : stock_sentiment JNull = Ok (of_Z 50)) by reflexivity.
  split; [exact Hl|]. split; [exact Hs|].
  apply (all_positive_flat_market l JNull p Hl); [|exact Hs].
  intros a [<-|[]]. reflexivity.
Defined.

Lemma empty_articles_nan_witness :
  let p := mkPage "72" "" (mkChange ArrowUp "") ("", "") "8.4" (mkChange ArrowUp "")
             "+12.5%" (mkChange ArrowUp "") [] in
  stock_sentiment JNull = Ok (of_Z 50) /\
  exists p', updateMarketSentiment (JObj [("articles", JArr [])]) JNull p = Ok p' /\
    sentimentStatus p' = ("Bearish", "kpi-status bearish") /\
    span_text (sentimentChange p') = "NaN%" /\
    last (animations p') =
      Some (mkAnimation "sentimentValue" (parse_int (sentimentValue p)) NaN 1000 "" "").
Proof.
  intros p. assert (Hs : stock_sentiment JNull = Ok (of_Z 50)) by reflexivity.
  split; [exact Hs|]. exact (empty_articles_nan JNull _ p Hs).
Defined.

Lemma dev_activity_drop_plus_minus_witness :
  let l0 := JObj [("date", JStr "2025-11-09"); ("job_postings_index", JNum (of_Z 100))] in
  let l1 := JObj [("date", JStr "2025-10-10"); ("job_postings_index", JNum (of_Z 110))] in
  let p := mkPage "72" "" (mkChange ArrowUp "") ("", "") "8.4" (mkChange ArrowUp "")
             "+12.5%" (mkChange ArrowUp "") [] in
  (0 < 100 < 110)%Z /\
  exists p' r,
    updateDeveloperActivity (JObj [("employment_data", JArr [l0; l1])]) p = Ok p' /\
    devActivityChange p' = mkChange ArrowUp ("+-" ++ r).
Proof.
  intros l0 l1 p. assert (Hab : (0 < 100 < 110)%Z) by lia.
  split; [exact Hab|].
  exact (dev_activity_drop_plus_minus l0 l1 [] 100 110 p eq_refl eq_refl eq_refl Hab).
Defined.

Lemma no_portfolio_stock_nan_witness :
  let l := [stock_record "AMD" "1.5"; stock_record "META" "-0.5"] in
  let p := mkPage "72" "" (mkChange ArrowUp "") ("", "") "8.4" (mkChange ArrowUp "")
             "+12.5%" (mkChange ArrowUp "") [] in
  spy_return l = Ok (of_Z 0) /\
  exists p', updatePortfolioPerformance (JObj [("stocks", JArr l)]) p = Ok p' /\
    portfolioChange p' = mkChange ArrowUp "+NaN% vs SPY" /\
    option_map anim_end (last (animations p')) = Some NaN.
Proof.
  intros l p. assert (Hs : spy_return l = Ok (of_Z 0)) by reflexivity.
  split; [exact Hs|]. apply (no_portfolio_stock_nan l (of_Z 0) p); [|exact Hs].
  intros s [<-|[<-|[]]]; eexists; split; reflexivity.
Defined.

Lemma negative_alpha_plus_minus_witness :
  let l := [stock_record "NVDA" "1.0"; stock_record "SPY" "2.0"] in
  let p := mkPage "72" "" (mkChange ArrowUp "") ("", "") "8.4" (mkChange ArrowUp "")
             "+12.5%" (mkChange ArrowUp "") [] in
  portfolio_return l = Ok (Fin 1) /\ spy_return l = Ok (Fin 2) /\ 1 < 2 /\
  exists p' t, updatePortfolioPerformance (JObj [("stocks", JArr l)]) p = Ok p' /\
    portfolioChange p' = mkChange ArrowUp ("+-" ++ t ++ "% vs SPY").
Proof.
  intros l p. assert (Hr : portfolio_return l = Ok (Fin 1)) by reflexivity.
  assert (Hb : spy_return l = Ok (Fin 2)) by reflexivity.
  assert (Hlt : 1 < 2) by lra.
  split; [exact Hr|]. split; [exact Hb|]. split; [exact Hlt|].
  exact (negative_alpha_plus_minus l 1 2 p Hr Hb Hlt).
Defined.
