(* ===== verification/Animate.v ===== *)
(** * Animate: the timer of [animateValue] (dashboard-script.js 391-408)

    [animateValue(element, start, end, duration, prefix, suffix)] computes
    [increment = (end - start) / (duration / 16)] and starts a
    [setInterval] of 16 ms.  Each tick adds the increment to [current];
    when the increment is positive and [current >= end], or negative and
    [current <= end], it sets [current = end] and clears the interval.
    Each tick then writes [prefix + displayValue] into the element, where
    the display is [current.toFixed(1)] for a "%" suffix or when the
    element's text already holds a dot, and [Math.floor(current)]
    otherwise.

    The timer is a record (current value, whether the interval is still
    set, the element's text) and [tick] one run of the interval callback;
    [animate] is the state after [n] ticks.  [Metrics] records every call
    as an [animation]; [run_animation] runs its timer.

    The theorems show that the timer never stops when [start] equals
    [end] or either is [NaN] (the increment is 0 or [NaN] and neither stop
    test can hold), and that whenever it has stopped, [current] is exactly
    [end], the element shows it, and nothing changes afterwards.

    Numbers are exact rationals here, as in [JsNum]; the running sum
    [current += increment] is not rounded.  Neither theorem depends on
    that sum: the increment of the first is 0 or [NaN] in doubles too, and
    the second only uses the stop branch.  When a finite animation stops
    does depend on rounding (0 to 1 over 160 ms stops at tick 11 in
    doubles, not 10; 1e20 to 1e20 + 16384 never moves), so no termination
    bound is claimed. *)

From S2P Require Import Prelude JsNum Metrics.
From Stdlib Require Import Ascii String Lqa.

Local Open Scope string_scope.

(** [x >= y] and [x <= y] on numbers: false when a [NaN] is involved. *)
Definition js_ge (x y : num) : bool :=
  match x, y with
  | NaN, _ | _, NaN => false
  | _, _ => negb (js_lt x y)
  end.

Definition js_le (x y : num) : bool := js_ge y x.

(** [s.includes('.')]. *)
Fixpoint has_dot (s : string) : bool :=
  match s with
  | EmptyString => false
  | String c s' => (c =? ".")%char || has_dot s'
  end.

Record timer := mkTimer { current : num; running : bool; shown : string }.

(** Line 393. *)
Definition increment_of (start stop : num) (duration : Z) : num :=
  js_div (js_sub stop start) (js_div (of_Z duration) (of_Z 16)).

(** Lines 403-406. *)
Definition display (prefix suffix text : string) (cur : num) : string :=
  prefix ++ (if String.eqb suffix "%" then to_fixed 1 cur
             else if has_dot text then to_fixed 1 cur
             else number_to_string (math_floor cur)).

(** The interval callback (lines 396-407); a cleared interval does
    nothing. *)
Definition tick (inc stop : num) (prefix suffix : string) (t : timer) : timer :=
  if running t then
    let cur := js_add (current t) inc in
    let fin := (js_gt inc (of_Z 0) && js_ge cur stop) || (js_lt inc (of_Z 0) && js_le cur stop) in
    let cur := if fin then stop else cur in
    mkTimer cur (negb fin) (display prefix suffix (shown t) cur)
  else t.

(** [animateValue] (lines 391-408), [n] ticks after the call, on an
    element showing [text0]. *)
Definition animate (text0 : string) (start stop : num) (duration : Z) (prefix suffix : string)
    (n : nat) : timer :=
  Nat.iter n (tick (increment_of start stop duration) stop prefix suffix)
    (mkTimer start true text0).

(** The timer of an [animateValue] call recorded by [Metrics]. *)
Definition run_animation (text0 : string) (a : animation) (n : nat) : timer :=
  animate text0 (anim_start a) (anim_end a) (anim_duration a) (anim_prefix a) (anim_suffix a) n.

(** [increment] is 0 or [NaN]: neither [increment > 0] nor
    [increment < 0] holds. *)
Definition stalled (inc : num) : Prop :=
  js_gt inc (of_Z 0) = false /\ js_lt inc (of_Z 0) = false.

(** ** Lemmas *)

Lemma tick_stalled inc stop p s t :
  stalled inc -> running (tick inc stop p s t) = running t.
Proof.
  intros [H1 H2]. unfold tick. destruct (running t) eqn:E; [|done]. by rewrite H1, H2.
Qed.

Lemma iter_stalled inc stop p s t n :
  stalled inc -> running t = true -> running (Nat.iter n (tick inc stop p s) t) = true.
Proof.
  intros Hs Ht. induction n as [|n IH]; [done|]. by rewrite Nat.iter_succ, tick_stalled.
Qed.

Lemma stalled_zero q : q == 0 -> stalled (Fin q).
Proof.
  intros Hq. split; apply not_true_iff_false; cbn; rewrite Qlt_bool_iff; intros H;
  change (inject_Z 0) with 0 in *; lra.
Qed.

Lemma stalled_nan : stalled NaN.
Proof. by split. Qed.

#[local] Hint Resolve stalled_zero stalled_nan : jsdb.

Lemma js_div_zero q y : q == 0 -> stalled (js_div (Fin q) y).
Proof.
  intros Hq. destruct y as [b| | |]; cbn; auto with jsdb.
  - destruct (Qeq_bool b 0); [by rewrite (proj2 (Qeq_bool_iff q 0) Hq); auto with jsdb|].
    apply stalled_zero. rewrite Qred_correct, Hq. apply Qmult_0_l.
Qed.

Lemma increment_stalled start stop d :
  start = stop \/ start = NaN \/ stop = NaN -> stalled (increment_of start stop d).
Proof.
  unfold increment_of. intros [<-|[->| ->]].
  - destruct start as [q| | |]; cbn; auto with jsdb.
    apply js_div_zero. rewrite !Qred_correct. ring.
  - by destruct stop.
  - by destruct start.
Qed.

Lemma iter_cleared f t n :
  (forall t, running t = false -> f t = t) -> running t = false -> Nat.iter n f t = t.
Proof. intros Hf Ht. induction n as [|n IH]; [done|]. by rewrite Nat.iter_succ, IH, Hf. Qed.

Lemma tick_cleared inc stop p s t : running t = false -> tick inc stop p s t = t.
Proof. unfold tick. by intros ->. Qed.

(** C32. Liveness failure of [animateValue]: when [start] equals [end], or
    either of them is [NaN], the increment is 0 or [NaN], neither stop
    test of line 398 can hold, and the interval is never cleared: after
    any number of ticks the timer still runs. *)
Theorem animate_never_stops text0 start stop d p s n :
  start = stop \/ start = NaN \/ stop = NaN ->
  running (animate text0 start stop d p s n) = true.
Proof. intros H. apply iter_stalled; [apply increment_stalled, H | done]. Qed.

(** Once the interval is cleared, [current] is [end] and the element
    shows it. *)
Definition stopped_at_end (stop : num) (prefix suffix : string) (t : timer) : Prop :=
  running t = false -> current t = stop /\ exists sh, shown t = display prefix suffix sh stop.

Lemma tick_stopped_at_end inc stop p s t :
  stopped_at_end stop p s t -> stopped_at_end stop p s (tick inc stop p s t).
Proof.
  unfold stopped_at_end, tick. intros H. destruct (running t) eqn:Hr; [|by rewrite Hr].
  cbn [running current shown]. destruct (_ || _); cbn [negb]; [|discriminate].
  intros _. split; [reflexivity | eexists; reflexivity].
Qed.

(** C33. Safety of [animateValue]'s stop: whenever the interval has been
    cleared, [current] is exactly [end], the element shows [prefix]
    followed by [end] formatted, and no later tick changes anything.  The
    proof uses only lines 398-401 and the write of line 406, not the
    running sum, so it holds whatever the rounding of [current +=
    increment]. *)
Theorem animate_stops_at_end text0 start stop d p s n :
  running (animate text0 start stop d p s n) = false ->
  current (animate text0 start stop d p s n) = stop /\
  (exists sh, shown (animate text0 start stop d p s n) = display p s sh stop) /\
  forall m, (n <= m)%nat -> animate text0 start stop d p s m = animate text0 start stop d p s n.
Proof.
  intros Hr.
  assert (Hinv : stopped_at_end stop p s (animate text0 start stop d p s n)).
  { unfold animate. apply Nat_iter_inv; [apply tick_stopped_at_end | intros H; discriminate H]. }
  destruct (Hinv Hr) as [Hc Hs]. split; [exact Hc|]. split; [exact Hs|].
  intros m Hm. unfold animate. replace m with ((m - n) + n)%nat by lia.
  rewrite Nat.iter_add. apply iter_cleared; [apply tick_cleared | exact Hr].
Qed.

(** ** Witnesses *)

(** The sentiment KPI animated from 72 to [NaN] (an empty article list,
    [Metrics]) still runs after 1000 ticks. *)
Lemma animate_never_stops_witness :
  let a := mkAnimation "sentimentValue" (of_Z 72) NaN 1000 "" "" in
  (of_Z 72 = NaN \/ of_Z 72 = NaN \/ NaN = NaN) /\ running (run_animation "72" a 1000) = true.
Proof.
  intros a. assert (H : of_Z 72 = NaN \/ of_Z 72 = NaN \/ NaN = NaN) by (right; right; reflexivity).
  split; [exact H|]. exact (animate_never_stops "72" (of_Z 72) NaN 1000 "" "" 1000 H).
Defined.


(** A count from 0 to 100 over 1000 ms: its interval is cleared at tick
    63 = ceil(1000 / 16). *)
Lemma animate_stops_at_end_witness :
  running (animate "0" (of_Z 0) (of_Z 100) 1000 "" "" 63) = false /\
  current (animate "0" (of_Z 0) (of_Z 100) 1000 "" "" 63) = of_Z 100 /\
  (exists sh, shown (animate "0" (of_Z 0) (of_Z 100) 1000 "" "" 63) = display "" "" sh (of_Z 100)) /\
  forall m, (63 <= m)%nat ->
    animate "0" (of_Z 0) (of_Z 100) 1000 "" "" m = animate "0" (of_Z 0) (of_Z 100) 1000 "" "" 63.
Proof.
  assert (Hr : running (animate "0" (of_Z 0) (of_Z 100) 1000 "" "" 63) = false) by (vm_compute; reflexivity).
  split; [exact Hr|].
  exact (animate_stops_at_end "0" (of_Z 0) (of_Z 100) 1000 "" "" 63 Hr).
Defined.
