(* ===== verification/Dashboard.v ===== *)
(** * Dashboard: [updateDashboardData] (dashboard-script.js lines 209-251)

    [updateDashboardData] starts the three tool calls of the dashboard
    together and awaits [Promise.all] of them.  The three [callMCPTool]
    calls run synchronously up to their first [await] in array order
    ([dispatch_calls]); a cache hit or an exception of the cache read
    settles a call at once, a miss leaves it waiting for its [fetch].
    The [fetch]es then settle one at a time, in an order chosen by the
    network ([settle]).  [Promise.all] rejects at the first rejection and
    resolves when all three calls are fulfilled; the code after the
    [await] (the three KPI updates) or the [catch] block (the "info"
    notification and [updateDashboardSimulated]) then runs once
    ([advance]).  Fetches that settle after a rejection still run their
    [resume] step: they write the cache and show their warnings.

    The state is a record of the shared world (cache, notifications,
    requests), the page, the state of each call, and whether the
    continuation has run.  The theorems show that the continuation runs
    exactly once whatever the settle order (termination and the
    at-most-once invariant), that the final state does not depend on the
    settle order (up to the order of the notifications), and what the
    dashboard shows when the network is down or every call hits the
    cache. *)

From S2P Require Import Prelude JsNum JsValue DataCache CallTool Metrics.
From Stdlib Require Import String.
From stdpp Require Import gmap.

Local Open Scope string_scope.

(** ** State *)

(** A call of [Promise.all]'s array: waiting for its [fetch] (with the
    cache key [dispatch] computed) or settled with a value or an
    exception. *)
Inductive call_state :=
| Waiting (key : string)
| Settled (r : res jsval).

Record call := mkCall { tool : string; args : jsval; cstate : call_state }.

Record dash := mkDash {
  dworld : world DataCache.t;
  dpage : page;
  calls : list call;
  finished : bool
}.

(** The environment of one run: an oracle per call (its clock readings,
    its [fetch] outcome and its random stream), and the three
    [Math.random()] values [updateDashboardSimulated] draws. *)
Record env := mkEnv {
  call_oracle : nat -> oracle;
  fallback_rand : Q * Q * Q
}.

Section Run.

Variable ev : env.

(** ** The synchronous part: the three calls up to their first [await] *)

Definition settle_dispatched (r : res dispatched) : call_state :=
  match r with
  | Ok (Served v) => Settled (Ok v)
  | Ok (Pending key) => Waiting key
  | Throw e => Settled (Throw e)
  end.

Fixpoint dispatch_calls (i : nat) (l : list (string * jsval)) (w : world DataCache.t)
    : list call * world DataCache.t :=
  match l with
  | [] => ([], w)
  | (t, a) :: l' =>
      let '(r, w1) := dispatch (now_call (call_oracle ev i)) t a w in
      let '(cs, w2) := dispatch_calls (S i) l' w1 in
      (mkCall t a (settle_dispatched r) :: cs, w2)
  end.

(** ** [Promise.all] and the continuation *)

Definition rejected (c : call) : bool :=
  match cstate c with Settled (Throw _) => true | _ => false end.

(** The values of [Promise.all] once every call is fulfilled. *)
Fixpoint all_values (cs : list call) : option (list jsval) :=
  match cs with
  | [] => Some []
  | mkCall _ _ (Settled (Ok v)) :: cs' => option_map (cons v) (all_values cs')
  | _ :: _ => None
  end.

(** The [catch] block (lines 244-250). *)
Definition catch_block (w : world DataCache.t) (p : page) : world DataCache.t * page :=
  let '(r1, r2, r3) := fallback_rand ev in
  (showNotification "Using simulated data for demo" "info" w,
   updateDashboardSimulated r1 r2 r3 p).

(** Lines 231-237: the three updates in order.  A throwing update leaves
    the writes of the updates before it on the page; the boolean says
    whether all three returned. *)
Definition try_updates (stockData newsData employmentData : jsval) (p : page)
    : bool * page :=
  match updateMarketSentiment newsData stockData p with
  | Throw _ => (false, p)
  | Ok p1 =>
      match updateDeveloperActivity employmentData p1 with
      | Throw _ => (false, p1)
      | Ok p2 =>
          match updatePortfolioPerformance stockData p2 with
          | Throw _ => (false, p2)
          | Ok p3 => (true, p3)
          end
      end
  end.

(** Runs the continuation when [Promise.all] has settled: the [catch]
    block at the first rejection, the updates (and the [catch] block if
    one throws) once all calls are fulfilled.  The destructuring
    [const [stockData, newsData, employmentData]] reads the values by
    index. *)
Definition advance (d : dash) : dash :=
  if finished d then d
  else if existsb rejected (calls d) then
    let '(w', p') := catch_block (dworld d) (dpage d) in mkDash w' p' (calls d) true
  else
    match all_values (calls d) with
    | None => d
    | Some vs =>
        let '(ok, p1) := try_updates (nth 0 vs JUndef) (nth 1 vs JUndef) (nth 2 vs JUndef)
                                     (dpage d) in
        if ok then mkDash (dworld d) p1 (calls d) true
        else let '(w', p') := catch_block (dworld d) p1 in mkDash w' p' (calls d) true
    end.

(** The start of [updateDashboardData]: the dispatches, then the
    continuation if nothing waits. *)
Definition updateDashboardData (w : world DataCache.t) (p : page) : dash :=
  let '(cs, w') := dispatch_calls 0 dashboard_calls w in
  advance (mkDash w' p cs false).

(** ** The asynchronous part: one [fetch] settles *)

(** The fetch of call [i] settles and [callMCPTool] resumes (lines
    84-101).  [None] when call [i] is not waiting. *)
Definition settle_raw (i : nat) (d : dash) : option dash :=
  match calls d !! i with
  | Some (mkCall t a (Waiting key)) =>
      let o := call_oracle ev i in
      let '(r, w') := resume (now_settle o) (rand o) t a key (response o) (dworld d) in
      Some (mkDash w' (dpage d) (<[i := mkCall t a (Settled r)]> (calls d)) (finished d))
  | _ => None
  end.

(** A settle step: the resume, then [Promise.all] may settle. *)
Definition settle (i : nat) (d : dash) : option dash := option_map advance (settle_raw i d).

Fixpoint settle_all (order : list nat) (d : dash) : option dash :=
  match order with
  | [] => Some d
  | i :: order' => match settle i d with Some d' => settle_all order' d' | None => None end
  end.

(** The indices of the waiting calls. *)
Definition waiting_indices (cs : list call) : list nat :=
  List.filter (fun i => match cs !! i with
                        | Some (mkCall _ _ (Waiting _)) => true
                        | _ => false end)
              (seq 0 (List.length cs)).

End Run.

(** ** Equivalence of states *)

(** Two states are equivalent when they agree on everything but the
    order of the notifications shown. *)
Definition dash_equiv (d1 d2 : dash) : Prop :=
  cache (dworld d1) = cache (dworld d2) /\
  Permutation (notes (dworld d1)) (notes (dworld d2)) /\
  requests (dworld d1) = requests (dworld d2) /\
  dpage d1 = dpage d2 /\ calls d1 = calls d2 /\ finished d1 = finished d2.

(** Call [i] waits for its fetch. *)
Definition waiting (cs : list call) (i : nat) : Prop :=
  exists t a k, cs !! i = Some (mkCall t a (Waiting k)).

(** The waiting calls have pairwise different cache keys. *)
Definition keys_distinct (cs : list call) : Prop :=
  forall i j ti ai ki tj aj kj, i <> j ->
    cs !! i = Some (mkCall ti ai (Waiting ki)) ->
    cs !! j = Some (mkCall tj aj (Waiting kj)) -> ki <> kj.

(** The notification of the [catch] block. *)
Definition demo_note : string * string := ("Using simulated data for demo", "info").

Definition count_demo (ns : list (string * string)) : nat :=
  List.length (List.filter (fun n => bool_decide (n = demo_note)) ns).

(** The [catch] block has not run before the continuation, and at most
    once after. *)
Definition demo_inv (d : dash) : Prop :=
  if finished d then (count_demo (notes (dworld d)) <= 1)%nat
  else count_demo (notes (dworld d)) = 0%nat.

(** The warning [callMCPTool] shows when its fetch fails (line 98). *)
Definition fetch_warning (t : string) : string * string :=
  ("Unable to fetch " ++ t ++ " data. Using simulated data.", "warning").

(** ** Concrete runs *)

(** The deployed site: every fetch fails ten milliseconds after the
    call, [Math.random()] returns 0. *)
Definition offline_env : env :=
  mkEnv (fun _ => mkOracle 0 10 NetworkError (fun _ : nat => 0%Q)) (0%Q, 0%Q, 0%Q).

Definition start_page : page :=
  mkPage "72" "" (mkChange ArrowUp "") ("", "") "8.4" (mkChange ArrowUp "")
         "+12.5%" (mkChange ArrowUp "") [].

Definition start_world : world DataCache.t := mkWorld DataCache.empty [] [].

(** ** Lemmas: the equivalence *)

#[export] Instance dash_equiv_equivalence : Equivalence dash_equiv.
Proof.
  split.
  - intros d. repeat split; done.
  - intros d1 d2 (?&?&?&?&?&?). repeat split; by symmetry.
  - intros d1 d2 d3 (?&?&?&?&?&?) (?&?&?&?&?&?). repeat split; by etrans.
Qed.

(** Splits an equivalence of states into its six equations, with the
    states taken apart. *)
Ltac destruct_equiv H :=
  let Hc := fresh "Hc" in let Hn := fresh "Hn" in let Hr := fresh "Hr" in
  let Hp := fresh "Hp" in let Hcs := fresh "Hcs" in let Hf := fresh "Hf" in
  destruct H as (Hc & Hn & Hr & Hp & Hcs & Hf);
  simpl in Hc, Hn, Hr, Hp, Hcs, Hf; subst.

Section RunLaws.

Variable ev : env.

Lemma advance_equiv d1 d2 : dash_equiv d1 d2 -> dash_equiv (advance ev d1) (advance ev d2).
Proof.
  destruct d1 as [[c1 n1 r1] p1 cs1 f1], d2 as [[c2 n2 r2] p2 cs2 f2].
  intros H. destruct_equiv H.
  unfold advance, catch_block, showNotification; simpl.
  destruct f2; [repeat split; done|]. destruct (fallback_rand ev) as [[x y] z].
  destruct (existsb rejected cs2); [repeat split; simpl; try done; by apply Permutation_app_tail|].
  destruct (all_values cs2); [|repeat split; done].
  destruct (try_updates _ _ _ _) as [[] ?];
    repeat split; simpl; try done; by apply Permutation_app_tail.
Qed.

Lemma settle_raw_equiv i d1 d2 :
  dash_equiv d1 d2 -> option_Forall2 dash_equiv (settle_raw ev i d1) (settle_raw ev i d2).
Proof.
  destruct d1 as [w1 p1 cs1 f1], d2 as [w2 p2 cs2 f2]. intros H. destruct_equiv H.
  unfold settle_raw; simpl. destruct (cs2 !! i) as [[t a [k|r]]|]; [|constructor..].
  rewrite (resume_shape _ _ _ _ _ _ w1), (resume_shape _ _ _ _ _ _ w2).
  constructor. repeat split; simpl; try congruence. by apply Permutation_app_tail.
Qed.

Lemma settle_equiv i d1 d2 :
  dash_equiv d1 d2 -> option_Forall2 dash_equiv (settle ev i d1) (settle ev i d2).
Proof.
  intros H. unfold settle. destruct (settle_raw_equiv i d1 d2 H); constructor.
  by apply advance_equiv.
Qed.

Lemma settle_all_equiv order d1 d2 :
  dash_equiv d1 d2 -> option_Forall2 dash_equiv (settle_all ev order d1) (settle_all ev order d2).
Proof.
  revert d1 d2. induction order as [|i order IH]; intros d1 d2 H; simpl; [by constructor|].
  destruct (settle_equiv i d1 d2 H); [by apply IH | constructor].
Qed.

Lemma existsb_rejected_lookup cs :
  existsb rejected cs = true <-> exists m c, cs !! m = Some c /\ rejected c = true.
Proof.
  rewrite existsb_exists. split.
  - intros (c & Hin & Hc). apply list_elem_of_In, list_elem_of_lookup in Hin as [m Hm]. eauto.
  - intros (m & c & Hm & Hc). exists c. split; [|done].
    apply list_elem_of_In, list_elem_of_lookup. eauto.
Qed.

(** Settling a waiting call keeps a rejection already there. *)
Lemma existsb_rejected_insert cs j t a k x :
  cs !! j = Some (mkCall t a (Waiting k)) ->
  existsb rejected cs = true -> existsb rejected (<[j := x]> cs) = true.
Proof.
  intros Hj. rewrite !existsb_rejected_lookup. intros (m & c & Hm & Hc).
  destruct (decide (m = j)) as [->|Hne]; [rewrite Hj in Hm; injection Hm as <-; done|].
  exists m, c. by rewrite list_lookup_insert_ne.
Qed.

Lemma all_values_waiting cs j t a k :
  cs !! j = Some (mkCall t a (Waiting k)) -> all_values cs = None.
Proof.
  revert j. induction cs as [|[t' a' [k'|[v|e]]] cs IH]; intros [|j] Hj; simpl in *;
    try done; try (injection Hj as; congruence).
  by rewrite (IH j Hj).
Qed.

(** One settle step of a waiting call, computed. *)
Lemma settle_raw_waiting i d t a k :
  calls d !! i = Some (mkCall t a (Waiting k)) ->
  let o := call_oracle ev i in
  settle_raw ev i d =
    Some (mkDash (mkWorld (resume_effect (now_settle o) t k (response o) (cache (dworld d)))
                          (notes (dworld d) ++ resume_notes t (response o))
                          (requests (dworld d)))
                 (dpage d)
                 (<[i := mkCall t a (Settled (fst (resume (now_settle o) (rand o) t a k
                            (response o) (mkWorld DataCache.empty [] []))))]> (calls d))
                 (finished d)).
Proof.
  intros Hi o. unfold settle_raw. rewrite Hi. by rewrite (resume_shape _ _ _ _ _ _ (dworld d)).
Qed.

(** The continuation that may run between two settle steps does not
    change what the second step and its continuation produce. *)
Lemma advance_calls d : calls (advance ev d) = calls d.
Proof.
  unfold advance, catch_block. destruct (finished d), (existsb rejected (calls d)),
    (fallback_rand ev) as [[x y] z]; try done.
  destruct (all_values (calls d)); [|done]. by destruct (try_updates _ _ _ _) as [[] ?].
Qed.

Lemma advance_pending d j t a k :
  calls d !! j = Some (mkCall t a (Waiting k)) -> existsb rejected (calls d) = false ->
  advance ev d = d.
Proof.
  intros Hj Hrej. unfold advance. rewrite Hrej, (all_values_waiting _ _ _ _ _ Hj).
  by destruct (finished d).
Qed.

Lemma advance_absorb j d d' :
  settle_raw ev j d = Some d' ->
  exists d'', settle_raw ev j (advance ev d) = Some d'' /\
              dash_equiv (advance ev d'') (advance ev d').
Proof.
  intros Hs. destruct (calls d !! j) as [[t a [k|r]]|] eqn:Hj;
    [|unfold settle_raw in Hs; rewrite Hj in Hs; discriminate..].
  rewrite (settle_raw_waiting j d t a k Hj) in Hs. injection Hs as <-.
  pose proof Hj as Hj'. rewrite <- (advance_calls d) in Hj'.
  rewrite (settle_raw_waiting j _ t a k Hj'). eexists. split; [reflexivity|].
  destruct d as [[c n rq] p cs f]; simpl in *.
  destruct f; [reflexivity|].
  destruct (existsb rejected cs) eqn:Hrej.
  - unfold advance, catch_block. destruct (fallback_rand ev) as [[x y] z]. simpl.
    rewrite Hrej. simpl. rewrite (existsb_rejected_insert cs j t a k _ Hj Hrej).
    repeat split; simpl; try done. rewrite <- !app_assoc.
    apply Permutation_app_head, Permutation_app_comm.
  - by rewrite (advance_pending (mkDash (mkWorld c n rq) p cs false) j t a k Hj Hrej).
Qed.

(** What a settle step does to the calls: the waiting call [j] is
    settled, the others are kept. *)
Lemma settle_calls j d d1 :
  settle ev j d = Some d1 ->
  exists t a k r, calls d !! j = Some (mkCall t a (Waiting k)) /\
                  calls d1 = <[j := mkCall t a (Settled r)]> (calls d).
Proof.
  unfold settle. destruct (calls d !! j) as [[t a [k|r]]|] eqn:Hj;
    [|unfold settle_raw; rewrite Hj; discriminate..].
  rewrite (settle_raw_waiting j d t a k Hj). intros [= <-].
  rewrite advance_calls. eauto 6.
Qed.

Lemma settle_not_waiting i d :
  (forall t a k, calls d !! i <> Some (mkCall t a (Waiting k))) -> settle ev i d = None.
Proof.
  intros H. unfold settle, settle_raw.
  destruct (calls d !! i) as [[t a [k|r]]|]; [|done..]. by destruct (H t a k).
Qed.

Lemma settle_keys_distinct j d d1 :
  settle ev j d = Some d1 -> keys_distinct (calls d) -> keys_distinct (calls d1).
Proof.
  intros Hs Hk. destruct (settle_calls j d d1 Hs) as (t & a & k & r & Hj & ->).
  intros i1 i2 t1 a1 k1 t2 a2 k2 Hne H1 H2.
  apply list_lookup_insert_Some in H1 as [(_ & [=] & _)|(_ & H1)].
  apply list_lookup_insert_Some in H2 as [(_ & [=] & _)|(_ & H2)].
  exact (Hk i1 i2 t1 a1 k1 t2 a2 k2 Hne H1 H2).
Qed.

(** Two waiting calls with different keys settle to equivalent states
    in either order, before the continuation runs. *)
Lemma settle_raw_swap i j d ti ai ki tj aj kj :
  i <> j -> calls d !! i = Some (mkCall ti ai (Waiting ki)) ->
  calls d !! j = Some (mkCall tj aj (Waiting kj)) -> ki <> kj ->
  exists di dij dj dji,
    settle_raw ev i d = Some di /\ settle_raw ev j di = Some dij /\
    settle_raw ev j d = Some dj /\ settle_raw ev i dj = Some dji /\ dash_equiv dij dji.
Proof.
  intros Hne Hi Hj Hk.
  rewrite (settle_raw_waiting i d ti ai ki Hi), (settle_raw_waiting j d tj aj kj Hj).
  do 4 eexists. split; [reflexivity|].
  rewrite (settle_raw_waiting j _ tj aj kj); [|simpl; by rewrite list_lookup_insert_ne].
  split; [reflexivity|]. split; [reflexivity|].
  rewrite (settle_raw_waiting i _ ti ai ki); [|simpl; by rewrite list_lookup_insert_ne].
  split; [reflexivity|]. repeat split; simpl.
  - by apply resume_effect_commute.
  - rewrite <- !app_assoc. apply Permutation_app_head, Permutation_app_comm.
  - by apply list_insert_insert_ne.
Qed.

(** Two settle steps commute, continuations included. *)
Lemma settle_swap i j l d :
  keys_distinct (calls d) ->
  option_Forall2 dash_equiv (settle_all ev (i :: j :: l) d) (settle_all ev (j :: i :: l) d).
Proof.
  intros Hk. destruct (decide (i = j)) as [<-|Hne]; [reflexivity|]. simpl.
  destruct (calls d !! i) as [[ti ai [ki|ri]]|] eqn:Hi;
    [|(rewrite (settle_not_waiting i d) by (intros ???; rewrite Hi; discriminate));
      destruct (settle ev j d) as [d1|] eqn:Hs; [|constructor];
      (rewrite (settle_not_waiting i d1); [constructor|]);
      destruct (settle_calls j d d1 Hs) as (? & ? & ? & ? & _ & ->);
      rewrite list_lookup_insert_ne by done; intros ???; rewrite Hi; discriminate..].
  destruct (calls d !! j) as [[tj aj [kj|rj]]|] eqn:Hj;
    [|(rewrite (settle_not_waiting j d) by (intros ???; rewrite Hj; discriminate));
      destruct (settle ev i d) as [d1|] eqn:Hs; [|constructor];
      (rewrite (settle_not_waiting j d1); [constructor|]);
      destruct (settle_calls i d d1 Hs) as (? & ? & ? & ? & _ & ->);
      rewrite list_lookup_insert_ne by done; intros ???; rewrite Hj; discriminate..].
  destruct (settle_raw_swap i j d ti ai ki tj aj kj Hne Hi Hj (Hk _ _ _ _ _ _ _ _ Hne Hi Hj))
    as (di & dij & dj & dji & Hdi & Hdij & Hdj & Hdji & Heq).
  unfold settle at 1 3. rewrite Hdi, Hdj. simpl.
  destruct (advance_absorb j di dij Hdij) as (e1 & He1 & Hq1).
  destruct (advance_absorb i dj dji Hdji) as (e2 & He2 & Hq2).
  unfold settle. rewrite He1, He2. simpl. apply settle_all_equiv.
  rewrite Hq1, Hq2. by apply advance_equiv.
Qed.

Lemma settle_all_permutation order1 order2 d :
  Permutation order1 order2 -> keys_distinct (calls d) ->
  option_Forall2 dash_equiv (settle_all ev order1 d) (settle_all ev order2 d).
Proof.
  intros Hp. revert d.
  induction Hp as [|x l1 l2 Hp IH|x y l|l1 l2 l3 H12 IH12 H23 IH23]; intros d Hk.
  - reflexivity.
  - simpl. destruct (settle ev x d) as [d1|] eqn:Hs; [|constructor].
    apply IH. exact (settle_keys_distinct x d d1 Hs Hk).
  - apply settle_swap, Hk.
  - etrans; [apply IH12 | apply IH23]; exact Hk.
Qed.

(** ** Lemmas: every waiting call settles, and the continuation runs *)

Lemma advance_cases d : advance ev d = d \/ finished (advance ev d) = true.
Proof.
  unfold advance, catch_block. destruct (finished d); [by left|].
  destruct (fallback_rand ev) as [[x y] z].
  destruct (existsb rejected (calls d)); [by right|].
  destruct (all_values (calls d)); [|by left]. right. by destruct (try_updates _ _ _ _) as [[] ?].
Qed.

Lemma advance_idem d : advance ev (advance ev d) = advance ev d.
Proof.
  destruct (advance_cases d) as [E|E]; [by rewrite !E|]. unfold advance at 1. by rewrite E.
Qed.

Lemma all_values_settled cs :
  (forall i, ~ waiting cs i) -> existsb rejected cs = false -> is_Some (all_values cs).
Proof.
  induction cs as [|[t a [k|[v|e]]] cs IH]; intros Hw Hr; simpl in *; [by eexists|..].
  - destruct (Hw 0). by do 3 eexists.
  - destruct IH as [vs ->]; [|done|by eexists]. intros i Hi. apply (Hw (S i)), Hi.
  - discriminate.
Qed.

(** A state the continuation has looked at, with no waiting call left,
    is finished. *)
Lemma advance_done d :
  (forall i, ~ waiting (calls d) i) -> advance ev d = d -> finished d = true.
Proof.
  intros Hw Hd. rewrite <- Hd. unfold advance, catch_block.
  destruct (finished d) eqn:Hf; [exact Hf|]. destruct (fallback_rand ev) as [[x y] z].
  destruct (existsb rejected (calls d)) eqn:Hr; [reflexivity|].
  destruct (all_values_settled _ Hw Hr) as [vs ->].
  by destruct (try_updates _ _ _ _) as [[] ?].
Qed.

Lemma waiting_insert_settled cs j t a r m :
  waiting (<[j := mkCall t a (Settled r)]> cs) m <-> waiting cs m /\ m <> j.
Proof.
  unfold waiting. split.
  - intros (t' & a' & k & H). apply list_lookup_insert_Some in H as [(_ & [=] & _)|(? & H)].
    eauto.
  - intros ((t' & a' & k & H) & Hne). exists t', a', k. by rewrite list_lookup_insert_ne.
Qed.

Lemma settle_waiting i d :
  waiting (calls d) i ->
  exists d1, settle ev i d = Some d1 /\ advance ev d1 = d1 /\
    (forall m, waiting (calls d1) m <-> waiting (calls d) m /\ m <> i).
Proof.
  intros (t & a & k & Hi). unfold settle. rewrite (settle_raw_waiting i d t a k Hi).
  eexists. split; [reflexivity|]. split; [apply advance_idem|].
  intros m. rewrite advance_calls. apply waiting_insert_settled.
Qed.

Lemma settle_all_waiting l d :
  NoDup l -> (forall i, In i l -> waiting (calls d) i) ->
  exists d', settle_all ev l d = Some d' /\
    (forall m, waiting (calls d') m <-> waiting (calls d) m /\ ~ In m l) /\
    (l <> [] -> advance ev d' = d').
Proof.
  revert d. induction l as [|i l IH]; intros d Hnd Hw.
  - exists d. split; [done|]. split; [|done]. intros m. simpl. tauto.
  - apply NoDup_cons in Hnd as [Hni Hnd]. rewrite list_elem_of_In in Hni.
    destruct (settle_waiting i d (Hw i (or_introl eq_refl))) as (d1 & Hs & Ha & Hw1).
    destruct (IH d1 Hnd) as (d' & Hs' & Hw' & Ha').
    { intros m Hm. apply Hw1. split; [apply Hw; by right|]. intros ->. contradiction. }
    exists d'. simpl. rewrite Hs. split; [exact Hs'|]. split.
    + intros m. rewrite Hw', Hw1. simpl. intuition congruence.
    + intros _. destruct l; [simpl in Hs'; by injection Hs' as <-|]. by apply Ha'.
Qed.

Lemma waiting_indices_spec cs i : In i (waiting_indices cs) <-> waiting cs i.
Proof.
  unfold waiting_indices, waiting. rewrite filter_In, in_seq. split.
  - intros [_ H]. destruct (cs !! i) as [[t a [k|r]]|]; [eauto|done..].
  - intros (t & a & k & H). rewrite H. split; [|done].
    apply lookup_lt_Some in H. lia.
Qed.

Lemma waiting_indices_NoDup cs : NoDup (waiting_indices cs).
Proof. apply NoDup_ListNoDup, List.NoDup_filter, seq_NoDup. Qed.

(** ** Lemmas: the dispatches of [updateDashboardData] *)

Lemma dispatch_pending now t a w k :
  fst (dispatch now t a w) = Ok (Pending k) -> k = cache_key t a.
Proof.
  unfold dispatch. destruct (cache_get _ _ _) as [[v|e] c'];
    [destruct (truthy v)|]; simpl; congruence.
Qed.

Lemma dispatch_calls_waiting n l w i t a k :
  fst (dispatch_calls ev n l w) !! i = Some (mkCall t a (Waiting k)) ->
  l !! i = Some (t, a) /\ k = cache_key t a.
Proof.
  revert n w i. induction l as [|[t' a'] l IH]; intros n w i; simpl; [done|].
  destruct (dispatch _ t' a' w) as [r w1] eqn:Ed.
  destruct (dispatch_calls ev (S n) l w1) as [cs w2] eqn:Ec. destruct i as [|i]; simpl.
  - intros [= -> -> Hst]. split; [done|]. apply (dispatch_pending (now_call (call_oracle ev n)) _ _ w).
    rewrite Ed. simpl. by destruct r as [[v|k']|e]; inversion Hst.
  - intros H. apply (IH (S n) w1 i). by rewrite Ec.
Qed.

Lemma dashboard_cache_keys_distinct i j ti ai tj aj :
  i <> j -> dashboard_calls !! i = Some (ti, ai) -> dashboard_calls !! j = Some (tj, aj) ->
  cache_key ti ai <> cache_key tj aj.
Proof.
  intros Hne Hi Hj.
  destruct i as [|[|[|i]]], j as [|[|[|j]]]; simpl in Hi, Hj; try done;
    injection Hi as <- <-; injection Hj as <- <-; vm_compute; discriminate.
Qed.

Lemma updateDashboardData_keys_distinct w p : keys_distinct (calls (updateDashboardData ev w p)).
Proof.
  unfold updateDashboardData. destruct (dispatch_calls ev 0 dashboard_calls w) as [cs w'] eqn:E.
  rewrite advance_calls. simpl. intros i j ti ai ki tj aj kj Hne Hi Hj.
  assert (Hi' := dispatch_calls_waiting 0 dashboard_calls w i ti ai ki).
  assert (Hj' := dispatch_calls_waiting 0 dashboard_calls w j tj aj kj).
  rewrite E in Hi', Hj'. destruct (Hi' Hi) as [Hli ->], (Hj' Hj) as [Hlj ->].
  exact (dashboard_cache_keys_distinct i j ti ai tj aj Hne Hli Hlj).
Qed.

(** ** Lemmas: the [catch] block runs at most once *)

Lemma count_demo_app l1 l2 : count_demo (l1 ++ l2) = (count_demo l1 + count_demo l2)%nat.
Proof. unfold count_demo. by rewrite List.filter_app, List.length_app. Qed.

Lemma count_demo_resume_notes t o : count_demo (resume_notes t o) = 0%nat.
Proof.
  unfold count_demo, resume_notes. destruct o as [|[] st [data|]]; simpl; try reflexivity;
    rewrite bool_decide_eq_false_2; try reflexivity; intros [= _ Hw]; discriminate Hw.
Qed.

Lemma count_demo_note : count_demo [("Using simulated data for demo", "info")] = 1%nat.
Proof. reflexivity. Qed.

Lemma advance_demo_inv d : demo_inv d -> demo_inv (advance ev d).
Proof.
  unfold demo_inv, advance, catch_block, showNotification.
  destruct (finished d) eqn:Hf; [by rewrite Hf|]. intros H0. destruct (fallback_rand ev) as [[x y] z].
  destruct (existsb rejected (calls d)); [simpl; rewrite count_demo_app, H0, count_demo_note; lia|].
  destruct (all_values (calls d)); [|by rewrite Hf].
  destruct (try_updates _ _ _ _) as [[] ?]; simpl; rewrite ?count_demo_app, H0, ?count_demo_note; lia.
Qed.

Lemma settle_demo_inv i d d1 : settle ev i d = Some d1 -> demo_inv d -> demo_inv d1.
Proof.
  unfold settle. destruct (calls d !! i) as [[t a [k|r]]|] eqn:Hi;
    [|unfold settle_raw; rewrite Hi; discriminate..].
  rewrite (settle_raw_waiting i d t a k Hi). intros [= <-] Hinv. apply advance_demo_inv.
  unfold demo_inv in *. simpl. by rewrite count_demo_app, count_demo_resume_notes, Nat.add_0_r.
Qed.

Lemma settle_all_demo_inv order d d' :
  settle_all ev order d = Some d' -> demo_inv d -> demo_inv d'.
Proof.
  revert d. induction order as [|i order IH]; intros d; simpl; [by intros [= <-]|].
  destruct (settle ev i d) as [d1|] eqn:Hs; [|discriminate].
  intros H Hinv. exact (IH d1 H (settle_demo_inv i d d1 Hs Hinv)).
Qed.

Lemma dispatch_notes now t a (w : world DataCache.t) : notes (snd (dispatch now t a w)) = notes w.
Proof.
  unfold dispatch. destruct (cache_get _ _ _) as [[v|e] c']; [destruct (truthy v)|]; reflexivity.
Qed.

Lemma dispatch_calls_notes n l w : notes (snd (dispatch_calls ev n l w)) = notes w.
Proof.
  revert n w. induction l as [|[t a] l IH]; intros n w; simpl; [done|].
  destruct (dispatch _ t a w) as [r w1] eqn:Ed. destruct (dispatch_calls ev (S n) l w1) as [cs w2] eqn:Ec.
  simpl. rewrite <- (dispatch_notes (now_call (call_oracle ev n)) t a w), Ed. simpl.
  specialize (IH (S n) w1). by rewrite Ec in IH.
Qed.

Lemma updateDashboardData_demo_inv w p :
  count_demo (notes w) = 0%nat -> demo_inv (updateDashboardData ev w p).
Proof.
  intros H0. unfold updateDashboardData.
  destruct (dispatch_calls ev 0 dashboard_calls w) as [cs w'] eqn:E. apply advance_demo_inv.
  unfold demo_inv. simpl. rewrite <- H0. pose proof (dispatch_calls_notes 0 dashboard_calls w) as Hn.
  rewrite E in Hn. simpl in Hn. by rewrite Hn.
Qed.

(** ** Lemmas: the dashboard with the network down *)

Lemma dispatch_empty now t a ns rs :
  dispatch now t a (mkWorld DataCache.empty ns rs) =
    (Ok (Pending (cache_key t a)), mkWorld DataCache.empty ns (rs ++ [request_of t a])).
Proof. reflexivity. Qed.

Lemma dispatch_calls_empty n l ns rs :
  dispatch_calls ev n l (mkWorld DataCache.empty ns rs) =
    (map (fun '(t, a) => mkCall t a (Waiting (cache_key t a))) l,
     mkWorld DataCache.empty ns (rs ++ map (fun '(t, a) => request_of t a) l)).
Proof.
  revert n rs. induction l as [|[t a] l IH]; intros n rs; simpl; [by rewrite app_nil_r|].
  rewrite dispatch_empty, IH. simpl. by rewrite <- app_assoc.
Qed.

(** The warning [callMCPTool] shows when its fetch fails. *)
Lemma settle_raw_network_error i d t a k :
  calls d !! i = Some (mkCall t a (Waiting k)) -> In (t, a) dashboard_calls ->
  response (call_oracle ev i) = NetworkError ->
  exists e, settle_raw ev i d =
    Some (mkDash (mkWorld (cache (dworld d))
                   (notes (dworld d) ++
                      [("Unable to fetch " ++ t ++ " data. Using simulated data.", "warning")])
                   (requests (dworld d)))
                 (dpage d) (<[i := mkCall t a (Settled (Throw e))]> (calls d)) (finished d)).
Proof.
  intros Hi Hin Hr. rewrite (settle_raw_waiting i d t a k Hi), Hr.
  destruct (getSimulatedData_dashboard_args (rand (call_oracle ev i))
              (now_settle (call_oracle ev i)) 0) as (Hs & Hn & He).
  simpl in Hin. destruct Hin as [[= <- <-]|[[= <- <-]|[[= <- <-]|[]]]];
    unfold resume; cbv beta iota zeta;
    [rewrite Hs | rewrite Hn | rewrite He]; eexists; reflexivity.
Qed.

(** With the network down, settling the fetches in index order: the
    first rejection runs the [catch] block, the later ones only add
    their warnings. *)
Lemma network_down_in_order ns rs p :
  (forall i, response (call_oracle ev i) = NetworkError) ->
  exists d', settle_all ev [0; 1; 2]%nat
               (updateDashboardData ev (mkWorld DataCache.empty ns rs) p) = Some d' /\
    dpage d' = (let '(r1, r2, r3) := fallback_rand ev in updateDashboardSimulated r1 r2 r3 p) /\
    cache (dworld d') = DataCache.empty /\
    requests (dworld d') = (rs ++ map (fun '(t, a) => request_of t a) dashboard_calls)%list /\
    notes (dworld d') = (ns ++ [fetch_warning "get_stock_financial_data"; demo_note;
                                fetch_warning "get_ai_company_news";
                                fetch_warning "get_tech_employment_trends"])%list.
Proof.
  intros Hr. unfold updateDashboardData. rewrite dispatch_calls_empty.
  rewrite (advance_pending _ 0 "get_stock_financial_data" stock_args
             (cache_key "get_stock_financial_data" stock_args)) by reflexivity.
  simpl settle_all. unfold settle at 1.
  edestruct (settle_raw_network_error 0) as [e0 ->]; [reflexivity | simpl; auto | apply Hr |].
  unfold option_map. unfold advance at 1, catch_block.
  destruct (fallback_rand ev) as [[r1 r2] r3] eqn:Efr. simpl. unfold settle at 1.
  edestruct (settle_raw_network_error 1) as [e1 ->]; [reflexivity | simpl; auto | apply Hr |].
  unfold option_map, advance at 1. simpl. unfold settle.
  edestruct (settle_raw_network_error 2) as [e2 ->]; [reflexivity | simpl; auto | apply Hr |].
  simpl. eexists. split; [reflexivity|]. simpl. rewrite <- !app_assoc. by repeat split.
Qed.

(** ** Theorems *)

(** C20. Promise.all with three pending fetches: in whatever order the
    fetches settle, [updateDashboardData] ends in the same state (the
    same cache, requests, page and call results, and the same
    notifications up to their order), or fails to settle in both
    orders. *)
Theorem updateDashboardData_order_irrelevant w p order1 order2 :
  Permutation order1 order2 ->
  option_Forall2 dash_equiv (settle_all ev order1 (updateDashboardData ev w p))
                            (settle_all ev order2 (updateDashboardData ev w p)).
Proof.
  intros Hp. apply settle_all_permutation; [exact Hp | apply updateDashboardData_keys_distinct].
Qed.

(** C21. Termination of [updateDashboardData]: once every pending fetch
    has settled, in any order, no call waits any more and the code after
    the [await] or the [catch] block has run. *)
Theorem updateDashboardData_terminates w p order :
  Permutation order (waiting_indices (calls (updateDashboardData ev w p))) ->
  exists d', settle_all ev order (updateDashboardData ev w p) = Some d' /\
    finished d' = true /\ (forall i, ~ waiting (calls d') i).
Proof.
  intros Hp. set (d0 := updateDashboardData ev w p) in *.
  assert (Hnd : NoDup order) by (rewrite Hp; apply waiting_indices_NoDup).
  assert (Hin : forall i, In i order <-> waiting (calls d0) i).
  { intros i. rewrite <- waiting_indices_spec. split; apply Permutation_in; [|symmetry]; exact Hp. }
  destruct (settle_all_waiting order d0 Hnd (fun i H => proj1 (Hin i) H)) as (d' & Hs & Hw & Ha).
  assert (Hnw : forall i, ~ waiting (calls d') i).
  { intros i H. apply Hw in H as [H1 H2]. apply H2, Hin, H1. }
  exists d'. split; [exact Hs|]. split; [|exact Hnw]. apply advance_done; [exact Hnw|].
  destruct order as [|i order']; [|by apply Ha].
  injection Hs as <-. unfold d0, updateDashboardData.
  destruct (dispatch_calls ev 0 dashboard_calls w). apply advance_idem.
Qed.

(** C22. The [catch] block of [updateDashboardData] runs at most once:
    however many calls reject and in whatever order the fetches settle,
    "Using simulated data for demo" is shown at most once. *)
Theorem catch_runs_at_most_once w p order d' :
  count_demo (notes w) = 0%nat ->
  settle_all ev order (updateDashboardData ev w p) = Some d' ->
  (count_demo (notes (dworld d')) <= 1)%nat.
Proof.
  intros H0 Hs. pose proof (settle_all_demo_inv order _ d' Hs (updateDashboardData_demo_inv w p H0)).
  unfold demo_inv in *. destruct (finished d'); lia.
Qed.

(** C23. The deployed site has no backend at [localhost:3000]: when
    the cache is empty and every fetch fails, in whatever order the
    failures arrive, the dashboard ends with the random KPIs of
    [updateDashboardSimulated], the cache stays empty, one request per
    tool has been sent, and the page shows three "Unable to fetch"
    warnings and one "Using simulated data for demo". *)
Theorem dashboard_network_down w p order :
  cache w = DataCache.empty ->
  (forall i, response (call_oracle ev i) = NetworkError) ->
  Permutation order [0; 1; 2]%nat ->
  exists d', settle_all ev order (updateDashboardData ev w p) = Some d' /\
    dpage d' = (let '(r1, r2, r3) := fallback_rand ev in updateDashboardSimulated r1 r2 r3 p) /\
    cache (dworld d') = DataCache.empty /\
    requests (dworld d') = (requests w ++ map (fun '(t, a) => request_of t a) dashboard_calls)%list /\
    Permutation (notes (dworld d'))
      (notes w ++ demo_note :: map (fun '(t, _) => fetch_warning t) dashboard_calls)%list.
Proof.
  intros Hc Hr Hp. destruct w as [c ns rs]. simpl in Hc. subst c.
  destruct (network_down_in_order ns rs p Hr) as (d1 & Hs1 & Hpg & Hca & Hrq & Hn).
  pose proof (settle_all_permutation order [0; 1; 2]%nat
                (updateDashboardData ev (mkWorld DataCache.empty ns rs) p) Hp
                (updateDashboardData_keys_distinct _ p)) as Hperm.
  rewrite Hs1 in Hperm. inversion Hperm as [d' ? Heq Hs|]; subst.
  exists d'. destruct Heq as (Ec & En & Er & Ep & _).
  split; [done|]. split; [congruence|]. split; [congruence|]. split; [by rewrite Er, Hrq|].
  rewrite En, Hn. apply Permutation_app_head. apply perm_swap.
Qed.

End RunLaws.

(** ** Witnesses *)

Lemma updateDashboardData_order_irrelevant_witness :
  Permutation [0; 1; 2]%nat [2; 0; 1]%nat /\
  option_Forall2 dash_equiv
    (settle_all offline_env [0; 1; 2]%nat (updateDashboardData offline_env start_world start_page))
    (settle_all offline_env [2; 0; 1]%nat (updateDashboardData offline_env start_world start_page)).
Proof.
  assert (H : Permutation [0; 1; 2]%nat [2; 0; 1]%nat)
    by (apply (bool_decide_unpack _); vm_compute; exact I).
  split; [exact H|].
  exact (updateDashboardData_order_irrelevant offline_env start_world start_page _ _ H).
Defined.

Lemma updateDashboardData_terminates_witness :
  Permutation [2; 1; 0]%nat
    (waiting_indices (calls (updateDashboardData offline_env start_world start_page))) /\
  exists d', settle_all offline_env [2; 1; 0]%nat
               (updateDashboardData offline_env start_world start_page) = Some d' /\
    finished d' = true /\ (forall i, ~ waiting (calls d') i).
Proof.
  assert (H : Permutation [2; 1; 0]%nat
                (waiting_indices (calls (updateDashboardData offline_env start_world start_page))))
    by (apply (bool_decide_unpack _); vm_compute; exact I).
  split; [exact H|]. exact (updateDashboardData_terminates offline_env start_world start_page _ H).
Defined.

Lemma catch_runs_at_most_once_witness :
  count_demo (notes start_world) = 0%nat /\
  exists d', settle_all offline_env [1; 0; 2]%nat
               (updateDashboardData offline_env start_world start_page) = Some d' /\
    (count_demo (notes (dworld d')) <= 1)%nat.
Proof.
  split; [reflexivity|].
  destruct (settle_all offline_env [1; 0; 2]%nat (updateDashboardData offline_env start_world start_page))
    as [d|] eqn:E; [|vm_compute in E; discriminate E].
  exists d. split; [reflexivity|].
  exact (catch_runs_at_most_once offline_env start_world start_page _ d eq_refl E).
Defined.

Lemma dashboard_network_down_witness :
  cache start_world = DataCache.empty /\
  (forall i, response (call_oracle offline_env i) = NetworkError) /\
  Permutation [2; 0; 1]%nat [0; 1; 2]%nat /\
  exists d', settle_all offline_env [2; 0; 1]%nat
               (updateDashboardData offline_env start_world start_page) = Some d' /\
    dpage d' = updateDashboardSimulated 0 0 0 start_page /\
    cache (dworld d') = DataCache.empty /\
    requests (dworld d') = map (fun '(t, a) => request_of t a) dashboard_calls /\
    Permutation (notes (dworld d'))
      (demo_note :: map (fun '(t, _) => fetch_warning t) dashboard_calls).
Proof.
  assert (H1 : cache start_world = DataCache.empty) by reflexivity.
  assert (H2 : forall i, response (call_oracle offline_env i) = NetworkError) by reflexivity.
  assert (H3 : Permutation [2; 0; 1]%nat [0; 1; 2]%nat)
    by (apply (bool_decide_unpack _); vm_compute; exact I).
  split; [exact H1|]. split; [exact H2|]. split; [exact H3|].
  exact (dashboard_network_down offline_env start_world start_page _ H1 H2 H3).
Defined.
