(* ===== verification/Profile.v ===== *)
(** * Profile: the profile editor of profile.js

    [profile.js] keeps a [profileData] object (name, e-mail, location,
    bio, risk profile and a list of preferred stocks), mirrors it into
    [localStorage] under the key "profileData" as JSON, and renders it
    into the page.  Every operation is an event handler: the edit button
    toggles edit mode and saves the inputs, the risk options select a risk
    profile, the modal adds a stock after validating its fields, and the
    remove buttons delete a stock after a [confirm].

    The state is a record of the script's variables ([isEditMode],
    [profileData]), the [localStorage] map, and the part of the DOM the
    script writes: the [textContent] and [value] of elements by id, the
    active risk options, the rendered stock cards, the edit button, the
    modal, the preference toggles and the alerts shown.  A handler is a
    computation in a small state-and-exception monad [act]: an exception
    stops the handler and leaves the writes made before it.  [handle]
    runs the handler of one DOM event; [run] a sequence of events.

    The theorems show the invariant of the stock list (unique symbols,
    integer allocations between 1 and 100), that [localStorage] always
    holds the JSON of [profileData] once it has been written, the
    round trips add/remove and edit/save, and the validation's behaviour
    on an allocation of 0.

    Not modelled: the browser's HTML parsing of the card markup.  The
    symbol, name and reason are interpolated into [innerHTML] unescaped,
    so what a remove button's [dataset.symbol] holds depends on character
    references and markup in them; a remove click carries an arbitrary
    string as that value. *)

From S2P Require Import Prelude JsNum JsValue.
From Stdlib Require Import Ascii String.
From stdpp Require Import gmap.

Local Open Scope string_scope.

(** ** Data *)

Record stock := mkStock { symbol : string; name : string; reason : string; allocation : num }.

Record profile := mkProfile {
  fullName : string;
  email : string;
  location : string;
  bio : string;
  riskProfile : string;
  stocks : list stock
}.

(** [let profileData = {...}] (lines 5-18). *)
Definition initial_profile : profile :=
  mkProfile "Debbie Meyers" "debbie@meyers.com" "San Jose, California"
    "Learning to invest in tech stocks while balancing my day job. Interested in AI and emerging technologies, and exploring how to grow my savings through smart, long-term investments."
    "moderate"
    [mkStock "NVDA" "NVIDIA Corporation" "Leading AI chip manufacturer with strong growth potential" (of_Z 30);
     mkStock "MSFT" "Microsoft Corporation" "Azure cloud growth and OpenAI integration" (of_Z 25);
     mkStock "PLTR" "Palantir Technologies" "AI platform adoption and government contracts" (of_Z 20);
     mkStock "GOOGL" "Alphabet Inc." "Search dominance and AI innovation" (of_Z 15);
     mkStock "TSLA" "Tesla Inc." "EV market leader with autonomous driving tech" (of_Z 10)].

(** The object [profileData] as a JavaScript value, in its key order. *)
Definition stock_json (s : stock) : jsval :=
  JObj [("symbol", JStr (symbol s)); ("name", JStr (name s)); ("reason", JStr (reason s));
        ("allocation", JNum (allocation s))].

Definition profile_json (p : profile) : jsval :=
  JObj [("fullName", JStr (fullName p)); ("email", JStr (email p));
        ("location", JStr (location p)); ("bio", JStr (bio p));
        ("riskProfile", JStr (riskProfile p));
        ("stocks", JArr (map stock_json (stocks p)))].

(** The part of the page the script writes. *)
Record dom := mkDom {
  text : gmap string string;       (* [textContent] by element id *)
  value : gmap string string;      (* [value] of input elements by id *)
  risk_options : list string;      (* [data-risk] of the [.risk-option] elements *)
  active_risks : list string;      (* those with the class [active] *)
  grid : list string;              (* [data-symbol] of the rendered stock cards *)
  editing : bool;                  (* [editProfileBtn] has the class [editing] *)
  inputs_shown : bool;             (* [.info-input] shown, [.info-value] hidden *)
  modal_active : bool;             (* [addStockModal] has the class [active] *)
  checked : gmap string bool;      (* the preference toggles *)
  alerts : list string
}.

Record state := mkState {
  isEditMode : bool;
  profileData : profile;
  storage : gmap string string;
  page : dom
}.

(** ** The handler monad: state and exceptions *)

Definition act (A : Type) := state -> res A * state.

Definition act_ret {A} (a : A) : act A := fun s => (Ok a, s).

Definition act_bind {A B} (m : act A) (k : A -> act B) : act B :=
  fun s => match m s with
           | (Ok a, s') => k a s'
           | (Throw e, s') => (Throw e, s')
           end.

Definition act_lift {A} (r : res A) : act A := fun s => (r, s).

Definition get_state : act state := fun s => (Ok s, s).

Definition modify (f : state -> state) : act unit := fun s => (Ok tt, f s).

Declare Scope act_scope.
Delimit Scope act_scope with act.
Notation "x <~ m ;; k" := (act_bind m (fun x => k))
  (at level 100, m at next level, right associativity) : act_scope.
Notation "m ;;; k" := (act_bind m (fun _ => k))
  (at level 100, right associativity) : act_scope.
Local Open Scope act_scope.

(** ** Setters *)

Definition set_profile (p : profile) (s : state) : state :=
  mkState (isEditMode s) p (storage s) (page s).

Definition set_dom (d : dom) (s : state) : state :=
  mkState (isEditMode s) (profileData s) (storage s) d.

Definition map_dom (f : dom -> dom) (s : state) : state := set_dom (f (page s)) s.

Definition set_text (id v : string) (d : dom) : dom :=
  mkDom (<[id := v]> (text d)) (value d) (risk_options d) (active_risks d) (grid d)
    (editing d) (inputs_shown d) (modal_active d) (checked d) (alerts d).

Definition set_value (id v : string) (d : dom) : dom :=
  mkDom (text d) (<[id := v]> (value d)) (risk_options d) (active_risks d) (grid d)
    (editing d) (inputs_shown d) (modal_active d) (checked d) (alerts d).

Definition set_active_risks (l : list string) (d : dom) : dom :=
  mkDom (text d) (value d) (risk_options d) l (grid d)
    (editing d) (inputs_shown d) (modal_active d) (checked d) (alerts d).

Definition set_grid (l : list string) (d : dom) : dom :=
  mkDom (text d) (value d) (risk_options d) (active_risks d) l
    (editing d) (inputs_shown d) (modal_active d) (checked d) (alerts d).

Definition set_editing (b : bool) (d : dom) : dom :=
  mkDom (text d) (value d) (risk_options d) (active_risks d) (grid d)
    b (inputs_shown d) (modal_active d) (checked d) (alerts d).

Definition set_inputs_shown (b : bool) (d : dom) : dom :=
  mkDom (text d) (value d) (risk_options d) (active_risks d) (grid d)
    (editing d) b (modal_active d) (checked d) (alerts d).

Definition set_modal_active (b : bool) (d : dom) : dom :=
  mkDom (text d) (value d) (risk_options d) (active_risks d) (grid d)
    (editing d) (inputs_shown d) b (checked d) (alerts d).

Definition set_checked (id : string) (b : bool) (d : dom) : dom :=
  mkDom (text d) (value d) (risk_options d) (active_risks d) (grid d)
    (editing d) (inputs_shown d) (modal_active d) (<[id := b]> (checked d)) (alerts d).

Definition alert (msg : string) : act unit :=
  modify (map_dom (fun d => mkDom (text d) (value d) (risk_options d) (active_risks d) (grid d)
                     (editing d) (inputs_shown d) (modal_active d) (checked d)
                     (alerts d ++ [msg]))).

(** [document.getElementById(id).value].  The page is taken to contain
    every element the script looks up by id (the HTML is not part of the
    sources); the default is never read then. *)
Definition input_value (id : string) (s : state) : string :=
  default "" (value (page s) !! id).

(** ** Strings *)

(** [String.prototype.trim] on the whitespace of [JsNum.is_ws]. *)
Definition trim (s : string) : string := trim_right (trim_left s).

Definition upper_char (c : ascii) : ascii :=
  let n := nat_of_ascii c in
  if ((97 <=? n)%nat && (n <=? 122)%nat) then ascii_of_nat (n - 32) else c.

(** [String.prototype.toUpperCase] on ASCII letters. *)
Fixpoint to_upper (s : string) : string :=
  match s with
  | EmptyString => EmptyString
  | String c s' => String (upper_char c) (to_upper s')
  end.

(** Assigning to [textContent]: [null] and [undefined] give the empty
    string, other values their [ToString]. *)
Definition text_content (v : jsval) : res string :=
  match v with JUndef | JNull => Ok "" | _ => to_string v end.

(** ** The handlers *)

(** [saveProfileData()] (lines 30-32). *)
Definition saveProfileData : act unit :=
  modify (fun s => mkState (isEditMode s) (profileData s)
                     (<["profileData" := stringify_in_template (profile_json (profileData s))]>
                        (storage s)) (page s)).

(** The [details] object literal of [updateRiskDetails] (lines 62-78). *)
Definition risk_details : jsval :=
  JObj [("conservative", JObj [("tolerance", JStr "Conservative"); ("horizon", JStr "10+ years");
                               ("sectors", JStr "Utilities, Bonds, Dividend Stocks")]);
        ("moderate", JObj [("tolerance", JStr "Moderate"); ("horizon", JStr "5-10 years");
                           ("sectors", JStr "Technology, AI, Food Tech")]);
        ("aggressive", JObj [("tolerance", JStr "Aggressive"); ("horizon", JStr "3-5 years");
                             ("sectors", JStr "Crypto, Startups, High-Growth Tech")])].

Definition write_text (id : string) (v : jsval) : act unit :=
  t <~ act_lift (text_content v) ;; modify (map_dom (set_text id t)).

(** [updateRiskDetails(risk)] (lines 61-84). *)
Definition updateRiskDetails (risk : string) : act unit :=
  detail <~ act_lift (get_prop risk_details risk) ;;
  tol <~ act_lift (get_prop detail "tolerance") ;; write_text "riskTolerance" tol ;;;
  hz <~ act_lift (get_prop detail "horizon") ;; write_text "investmentHorizon" hz ;;;
  sec <~ act_lift (get_prop detail "sectors") ;; write_text "preferredSectors" sec.

(** [renderStocks()] (lines 87-111): one card per stock, with the
    symbol interpolated into its markup, and a click listener on every
    [.stock-remove] button.  [grid] records the interpolated symbols. *)
Definition renderStocks : act unit :=
  modify (fun s => map_dom (set_grid (map symbol (stocks (profileData s)))) s).

(** The [.risk-option] loop (lines 49-54 and 234-239). *)
Definition mark_risk (risk : string) : act unit :=
  modify (map_dom (fun d => set_active_risks (List.filter (String.eqb risk) (risk_options d)) d)).

(** [updateProfileDisplay()] (lines 35-58). *)
Definition updateProfileDisplay : act unit :=
  s <~ get_state ;;
  let p := profileData s in
  modify (map_dom (fun d =>
    set_value "bioInput" (bio p) (set_value "locationInput" (location p)
      (set_value "emailInput" (email p) (set_value "fullNameInput" (fullName p)
        (set_text "profileName" (fullName p) (set_text "bio" (bio p)
          (set_text "location" (location p) (set_text "email" (email p)
            (set_text "fullName" (fullName p) d)))))))))) ;;;
  mark_risk (riskProfile p) ;;;
  updateRiskDetails (riskProfile p) ;;;
  renderStocks.

(** [removeStock(symbol)] (lines 114-120), with the answer of [confirm]. *)
Definition removeStock (confirmed : bool) (sym : string) : act unit :=
  if confirmed then
    modify (fun s => let p := profileData s in
      set_profile (mkProfile (fullName p) (email p) (location p) (bio p) (riskProfile p)
                     (List.filter (fun st => negb (String.eqb (symbol st) sym)) (stocks p))) s) ;;;
    saveProfileData ;;;
    renderStocks
  else act_ret tt.

(** [toggleEditMode()] (lines 123-145). *)
Definition toggleEditMode : act unit :=
  s <~ get_state ;;
  let edit := negb (isEditMode s) in
  modify (fun s => mkState edit (profileData s) (storage s) (page s)) ;;;
  if edit then
    modify (map_dom (fun d => set_inputs_shown true (set_editing true
                                (set_text "editProfileBtn" "Save Profile" d))))
  else
    modify (fun s => let p := profileData s in
      set_profile (mkProfile (input_value "fullNameInput" s) (input_value "emailInput" s)
                     (input_value "locationInput" s) (input_value "bioInput" s)
                     (riskProfile p) (stocks p)) s) ;;;
    saveProfileData ;;;
    updateProfileDisplay ;;;
    modify (map_dom (fun d => set_inputs_shown false (set_editing false
                                (set_text "editProfileBtn" "Edit Profile" d)))).

(** [openModal()], [closeModal()] and [clearModalInputs()] (lines
    181-195). *)
Definition openModal : act unit := modify (map_dom (set_modal_active true)).

Definition closeModal : act unit :=
  modify (map_dom (fun d => set_value "newStockAllocation" "" (set_value "newStockReason" ""
           (set_value "newStockName" "" (set_value "newStockSymbol" ""
             (set_modal_active false d)))))).

(** [addStock()] (lines 198-226). *)
Definition addStock : act unit :=
  s <~ get_state ;;
  let sym := to_upper (trim (input_value "newStockSymbol" s)) in
  let nm := trim (input_value "newStockName" s) in
  let rs := trim (input_value "newStockReason" s) in
  let alloc := parse_int (input_value "newStockAllocation" s) in
  if String.eqb sym "" || String.eqb nm "" || String.eqb rs "" || negb (truthy (JNum alloc))
  then alert "Please fill in all fields"
  else if js_lt alloc (of_Z 0) || js_gt alloc (of_Z 100)
  then alert "Allocation must be between 0 and 100"
  else if existsb (fun st => String.eqb (symbol st) sym) (stocks (profileData s))
  then alert "This stock is already in your preferred list"
  else
    modify (fun s => let p := profileData s in
      set_profile (mkProfile (fullName p) (email p) (location p) (bio p) (riskProfile p)
                     (stocks p ++ [mkStock sym nm rs alloc])) s) ;;;
    saveProfileData ;;;
    renderStocks ;;;
    closeModal.

(** [handleRiskSelection(risk)] (lines 229-240). *)
Definition handleRiskSelection (risk : string) : act unit :=
  modify (fun s => let p := profileData s in
    set_profile (mkProfile (fullName p) (email p) (location p) (bio p) risk (stocks p)) s) ;;;
  saveProfileData ;;;
  updateRiskDetails risk ;;;
  mark_risk risk.

(** The names of the preference toggles (line 244). *)
Definition preferences : list string := ["emailNotifications"; "marketAlerts"; "weeklyReports"].


Definition preference_changed (pref : string) (b : bool) : act unit :=
  modify (fun s => mkState (isEditMode s) (profileData s)
                     (<[pref := if b then "true" else "false"]> (storage s))
                     (set_checked pref b (page s))).

(** ** Events (lines 294-337) *)

Inductive event :=
| ClickEdit
| ClickRisk (risk : string)
| ClickAddStockButton
| ClickCloseModal
| ClickCancel
| ClickConfirm
| ClickBackdrop
| EnterKey (in_textarea : bool)
| ClickRemove (sym : string) (confirmed : bool)
| TypeInput (id v : string)
| TogglePreference (pref : string) (b : bool).

(** The listener of an event.  A risk option exists only for a
    [data-risk] of the page.  A remove button with a listener exists only
    once [renderStocks] has drawn at least one card; [ClickRemove sym]
    clicks one whose [dataset.symbol] the browser parsed as [sym], any
    string (the HTML parsing is not modelled). *)
Definition listener (e : event) : act unit :=
  match e with
  | ClickEdit => toggleEditMode
  | ClickRisk r =>
      s <~ get_state ;;
      if existsb (String.eqb r) (risk_options (page s)) then handleRiskSelection r else act_ret tt
  | ClickAddStockButton => openModal
  | ClickCloseModal | ClickCancel | ClickBackdrop => closeModal
  | ClickConfirm => addStock
  | EnterKey in_textarea => if in_textarea then act_ret tt else addStock
  | ClickRemove sym confirmed =>
      s <~ get_state ;;
      if bool_decide (grid (page s) = []) then act_ret tt else removeStock confirmed sym
  | TypeInput id v => modify (map_dom (set_value id v))
  | TogglePreference pref b =>
      if existsb (String.eqb pref) preferences then preference_changed pref b else act_ret tt
  end.

(** An exception in a listener is reported on the console; the writes
    made before it stay. *)
Definition handle (e : event) (s : state) : state := snd (listener e s).

Definition run (es : list event) (s : state) : state := fold_left (fun s e => handle e s) es s.

(** The page once loaded with an empty [localStorage] (lines 294-300):
    [loadProfileData] and [setupPreferences] find nothing, so the
    variables keep their initial values; the stock cards of the static
    page carry no remove listener yet. *)
Definition initial_state (risk_opts : list string) : state :=
  mkState false initial_profile ∅ (mkDom ∅ ∅ risk_opts [] [] false false false ∅ []).

(** ** Concrete pages *)

(** The [data-risk] values of the page's risk options. *)
Definition risk_names : list string := ["conservative"; "moderate"; "aggressive"].

(** The modal filled in for a new stock. *)
Definition modal_filled (sym alloc : string) : state :=
  run [TypeInput "newStockSymbol" sym; TypeInput "newStockName" "Advanced Micro Devices";
       TypeInput "newStockReason" "GPUs for AI"; TypeInput "newStockAllocation" alloc]
      (initial_state risk_names).

(** ** Invariants *)

(** What [addStock]'s validation lets through: an integer from 1 to
    100. *)
Definition valid_allocation (x : num) : Prop := exists a, x = of_Z a /\ (1 <= a <= 100)%Z.

(** The stock list: unique symbols, valid allocations. *)
Definition stocks_ok (l : list stock) : Prop :=
  NoDup (map symbol l) /\ Forall (fun st => valid_allocation (allocation st)) l.

(** The JSON [saveProfileData] writes for a profile. *)
Definition saved_json (p : profile) : string := stringify_in_template (profile_json p).

(** [localStorage] holds the JSON of [profileData], or nothing yet. *)
Definition synced (s : state) : Prop :=
  storage s !! "profileData" = None \/ storage s !! "profileData" = Some (saved_json (profileData s)).

Definition rendered (p : profile) : list string := map symbol (stocks p).

(** Every card whose remove button has a listener shows a stock of the
    list.  (The cards of the static page have no listener until the
    first [renderStocks].) *)
Definition grid_synced (s : state) : Prop := incl (grid (page s)) (rendered (profileData s)).

(** The invariant of the editor. *)
Definition profile_inv (s : state) : Prop :=
  synced s /\ grid_synced s /\ stocks_ok (stocks (profileData s)).

(** A computation that keeps [profileData] and [isEditMode], and at
    most saves the profile and renders it. *)
Definition quiet {A} (m : act A) : Prop :=
  forall s, profileData (snd (m s)) = profileData s /\ isEditMode (snd (m s)) = isEditMode s /\
    (storage (snd (m s)) !! "profileData" = storage s !! "profileData" \/
     storage (snd (m s)) !! "profileData" = Some (saved_json (profileData s))) /\
    (grid (page (snd (m s))) = grid (page s) \/ grid (page (snd (m s))) = rendered (profileData s)).

Create HintDb profiledb.

(** ** Lemmas: quiet computations *)

Lemma quiet_ret {A} (a : A) : quiet (act_ret a).
Proof. intros s. auto. Qed.

Lemma quiet_lift {A} (r : res A) : quiet (act_lift r).
Proof. intros s. auto. Qed.

Lemma quiet_get : quiet get_state.
Proof. intros s. auto. Qed.

Lemma quiet_bind {A B} (m : act A) (k : A -> act B) :
  quiet m -> (forall a, quiet (k a)) -> quiet (act_bind m k).
Proof.
  intros Hm Hk s. unfold act_bind. destruct (Hm s) as (Hp & He & Hst & Hg).
  destruct (m s) as [[a|e] s']; simpl in *; [|auto].
  destruct (Hk a s') as (Hp' & He' & Hst' & Hg'). rewrite Hp in Hp', Hst', Hg'.
  split; [congruence|]. split; [congruence|]. split; intuition congruence.
Qed.

(** A write to the page other than the stock cards. *)
Lemma quiet_map_dom f : (forall d, grid (f d) = grid d) -> quiet (modify (map_dom f)).
Proof. intros Hf s. simpl. rewrite Hf. auto. Qed.

Lemma quiet_save : quiet saveProfileData.
Proof. intros s. simpl. rewrite lookup_insert_eq. auto. Qed.

Lemma quiet_render : quiet renderStocks.
Proof. intros s. simpl. auto. Qed.

#[local] Hint Resolve quiet_ret quiet_lift quiet_get quiet_save quiet_render : profiledb.

(** Splits a computation into quiet steps. *)
Ltac quiet_steps :=
  repeat first
    [ apply quiet_bind; [|intros ?]
    | apply quiet_map_dom; intros ?; reflexivity
    | solve [eauto with profiledb]
    | match goal with |- quiet (if ?c then _ else _) => destruct c end
    | match goal with |- quiet (match ?c with _ => _ end) => destruct c end ].

Lemma quiet_updateRiskDetails r : quiet (updateRiskDetails r).
Proof. unfold updateRiskDetails, write_text. quiet_steps. Qed.

#[local] Hint Resolve quiet_updateRiskDetails : profiledb.

Lemma quiet_updateProfileDisplay : quiet updateProfileDisplay.
Proof. unfold updateProfileDisplay, mark_risk. quiet_steps. Qed.

Lemma quiet_closeModal : quiet closeModal.
Proof. unfold closeModal. quiet_steps. Qed.

#[local] Hint Resolve quiet_updateProfileDisplay quiet_closeModal : profiledb.

Lemma quiet_inv {A} (m : act A) s : quiet m -> profile_inv s -> profile_inv (snd (m s)).
Proof.
  intros Hq (Hs & Hg & Hk). destruct (Hq s) as (Hp & _ & Hst & Hgr).
  unfold profile_inv, synced, grid_synced in *. rewrite Hp.
  split; [intuition congruence|]. split; [|done].
  destruct Hgr as [-> | ->]; [exact Hg | apply incl_refl].
Qed.

Lemma act_bind_modify f {B} (k : unit -> act B) s : act_bind (modify f) k s = k tt (f s).
Proof. reflexivity. Qed.

Lemma act_bind_get {B} (k : state -> act B) s : act_bind get_state k s = k s s.
Proof. reflexivity. Qed.

Lemma act_bind_save {B} (k : unit -> act B) s :
  act_bind saveProfileData k s = k tt (snd (saveProfileData s)).
Proof. reflexivity. Qed.

(** A new profile is set, saved, and then only quiet steps run. *)
Lemma commit_quiet f p' {B} (k : act B) s :
  f s = set_profile p' s -> quiet k ->
  let s' := snd ((modify f ;;; saveProfileData ;;; k) s) in
  profileData s' = p' /\ storage s' !! "profileData" = Some (saved_json p') /\
  isEditMode s' = isEditMode s /\
  (grid (page s') = grid (page s) \/ grid (page s') = rendered p').
Proof.
  intros Hf Hq s'. unfold s'. rewrite act_bind_modify, act_bind_save, Hf.
  set (s1 := snd (saveProfileData (set_profile p' s))).
  assert (E1 : profileData s1 = p') by reflexivity.
  assert (E2 : storage s1 !! "profileData" = Some (saved_json p'))
    by (unfold s1; simpl; apply lookup_insert_eq).
  destruct (Hq s1) as (Hp & He & Hst & Hg). rewrite E1 in Hst, Hg.
  split; [congruence|]. split; [intuition congruence|]. split; [exact He | exact Hg].
Qed.

(** The same, when the stock cards are rendered right after the save. *)
Lemma commit_render f p' {B} (k : act B) s :
  f s = set_profile p' s -> quiet k ->
  let s' := snd ((modify f ;;; saveProfileData ;;; renderStocks ;;; k) s) in
  profileData s' = p' /\ storage s' !! "profileData" = Some (saved_json p') /\
  grid (page s') = rendered p'.
Proof.
  intros Hf Hq s'. destruct (commit_quiet f p' (renderStocks ;;; k) s Hf) as (Hp & Hs & _);
    [quiet_steps|].
  fold s' in Hp, Hs. split; [done|]. split; [done|].
  unfold s'. rewrite act_bind_modify, act_bind_save, Hf.
  set (s2 := snd (renderStocks (snd (saveProfileData (set_profile p' s))))).
  assert (E1 : profileData s2 = p') by reflexivity.
  assert (E2 : grid (page s2) = rendered p') by reflexivity.
  change (grid (page (snd (k s2))) = rendered p'). destruct (Hq s2) as (_ & _ & _ & Hg').
  rewrite E1, E2 in Hg'. by destruct Hg'.
Qed.

(** ** Lemmas: the stock list *)

Lemma stocks_ok_filter f l : stocks_ok l -> stocks_ok (List.filter f l).
Proof.
  intros [Hnd Hall]. split.
  - induction l as [|st l IH]; simpl in *; [constructor|].
    apply NoDup_cons in Hnd as [Hni Hnd]. inversion Hall; subst.
    destruct (f st); simpl; [|by apply IH]. constructor; [|by apply IH].
    intros Hin. apply Hni. apply list_elem_of_In in Hin as (st' & Heq & Hin)%in_map_iff.
    apply list_elem_of_In, in_map_iff. exists st'. split; [done|].
    by apply filter_In in Hin as [? _].
  - rewrite Forall_forall in Hall |- *. intros x Hx.
    rewrite list_elem_of_In, filter_In in Hx. apply Hall, list_elem_of_In, Hx.
Qed.

Lemma stocks_ok_snoc l sym nm rs a :
  stocks_ok l -> existsb (fun st => String.eqb (symbol st) sym) l = false ->
  valid_allocation a -> stocks_ok (l ++ [mkStock sym nm rs a]).
Proof.
  intros [Hnd Hall] Hex Ha. split.
  - rewrite map_app. simpl. apply NoDup_app. split; [done|]. split; [|apply NoDup_singleton].
    intros x Hx Hy. apply list_elem_of_singleton in Hy as ->.
    apply list_elem_of_In, in_map_iff in Hx as (st & Hs & Hin).
    assert (Hf : existsb (fun st => String.eqb (symbol st) sym) l = true).
    { apply existsb_exists. exists st. split; [done|]. by apply String.eqb_eq. }
    congruence.
  - apply Forall_app. split; [done|]. by constructor.
Qed.

Lemma parse_int_cases s : parse_int s = NaN \/ exists z, parse_int s = of_Z z.
Proof.
  unfold parse_int.
  repeat match goal with
  | |- context [let '(_, _) := ?x in _] => destruct x
  | |- context [match ?x with EmptyString => _ | String _ _ => _ end] => destruct x
  end; eauto.
Qed.

(** What passes [addStock]'s two checks is a valid allocation. *)
Lemma validated_allocation s :
  negb (truthy (JNum (parse_int s))) = false ->
  (js_lt (parse_int s) (of_Z 0) || js_gt (parse_int s) (of_Z 100)) = false ->
  valid_allocation (parse_int s).
Proof.
  destruct (parse_int_cases s) as [->|[z ->]]; [done|]. intros Ht Hr.
  apply orb_false_iff in Hr as [H0 H100]. unfold js_gt in H100.
  rewrite js_lt_of_Z in H0, H100. apply Z.ltb_ge in H0, H100.
  exists z. split; [done|]. split; [|lia].
  destruct (Z.eq_dec z 0%Z) as [->|Hz]; [done|lia].
Qed.

(** ** Lemmas: every listener keeps the invariant *)

Lemma quiet_preference_changed pref b :
  pref <> "profileData" -> quiet (preference_changed pref b).
Proof. intros Hne s. simpl. rewrite lookup_insert_ne by congruence. auto. Qed.

(** A commit that keeps the stock list keeps the invariant. *)
Lemma commit_quiet_inv f p' {B} (k : act B) s :
  f s = set_profile p' s -> quiet k -> stocks p' = stocks (profileData s) ->
  profile_inv s -> profile_inv (snd ((modify f ;;; saveProfileData ;;; k) s)).
Proof.
  intros Hf Hq Hst (_ & Hg1 & Hk1). destruct (commit_quiet f p' k s Hf Hq) as (Hp & Hs & _ & Hg).
  split; [right; by rewrite Hp|]. unfold grid_synced, rendered in *. rewrite Hp, Hst.
  split; [|exact Hk1]. rewrite Hst in Hg. destruct Hg as [-> | ->]; [exact Hg1 | apply incl_refl].
Qed.

(** A commit that renders the cards keeps the invariant when the new
    stock list is valid. *)
Lemma commit_render_inv f p' {B} (k : act B) s :
  f s = set_profile p' s -> quiet k -> stocks_ok (stocks p') ->
  profile_inv (snd ((modify f ;;; saveProfileData ;;; renderStocks ;;; k) s)).
Proof.
  intros Hf Hq Hok. destruct (commit_render f p' k s Hf Hq) as (Hp & Hs & Hg).
  split; [right; by rewrite Hp|]. unfold grid_synced. rewrite Hp, Hg.
  split; [apply incl_refl | exact Hok].
Qed.

Lemma toggleEditMode_inv s : profile_inv s -> profile_inv (snd (toggleEditMode s)).
Proof.
  intros Hi. unfold toggleEditMode. rewrite act_bind_get, act_bind_modify.
  assert (Hi1 : profile_inv (mkState (negb (isEditMode s)) (profileData s) (storage s) (page s)))
    by exact Hi.
  destruct (isEditMode s); cbn [negb].
  - eapply commit_quiet_inv; [reflexivity | quiet_steps | reflexivity | exact Hi1].
  - apply quiet_inv; [quiet_steps | exact Hi1].
Qed.

Lemma handleRiskSelection_inv r s :
  profile_inv s -> profile_inv (snd (handleRiskSelection r s)).
Proof.
  intros Hi. unfold handleRiskSelection, mark_risk.
  eapply commit_quiet_inv; [reflexivity | quiet_steps | reflexivity | exact Hi].
Qed.

Lemma removeStock_inv b sym s : profile_inv s -> profile_inv (snd (removeStock b sym s)).
Proof.
  intros Hi. unfold removeStock. destruct b; [|exact Hi].
  eapply commit_render_inv; [reflexivity | quiet_steps |].
  apply stocks_ok_filter, Hi.
Qed.

Lemma addStock_inv s : profile_inv s -> profile_inv (snd (addStock s)).
Proof.
  intros Hi. unfold addStock, alert. rewrite act_bind_get.
  cbv zeta.
  destruct_if; [apply quiet_inv; [quiet_steps | exact Hi]|]. rename Eif into E1.
  destruct_if; [apply quiet_inv; [quiet_steps | exact Hi]|]. rename Eif into E2.
  destruct_if; [apply quiet_inv; [quiet_steps | exact Hi]|]. rename Eif into E3.
  apply orb_false_iff in E1 as [_ E1].
  eapply commit_render_inv; [reflexivity | quiet_steps |]. simpl.
  apply stocks_ok_snoc; [apply Hi | exact E3 | exact (validated_allocation _ E1 E2)].
Qed.

Lemma listener_inv e s : profile_inv s -> profile_inv (handle e s).
Proof.
  intros Hi. unfold handle. destruct e as [| r | | | | | | t | sym b | id v | pref b]; simpl listener.
  - by apply toggleEditMode_inv.
  - rewrite act_bind_get. destruct_if; [by apply handleRiskSelection_inv | exact Hi].
  - apply quiet_inv; [quiet_steps | exact Hi].
  - apply quiet_inv; [quiet_steps | exact Hi].
  - apply quiet_inv; [quiet_steps | exact Hi].
  - by apply addStock_inv.
  - apply quiet_inv; [quiet_steps | exact Hi].
  - destruct t; [exact Hi | by apply addStock_inv].
  - rewrite act_bind_get. destruct_if; [exact Hi | by apply removeStock_inv].
  - apply quiet_inv; [quiet_steps | exact Hi].
  - destruct_if; [|exact Hi]. apply quiet_inv; [|exact Hi].
    apply quiet_preference_changed. intros ->. discriminate Eif.
Qed.

Lemma run_inv es s : profile_inv s -> profile_inv (run es s).
Proof.
  revert s. induction es as [|e es IH]; intros s Hi; simpl; [exact Hi|].
  apply IH, listener_inv, Hi.
Qed.

(** ** Lemmas: how the stock list changes *)

Lemma quiet_profile {A} (m : act A) s : quiet m -> profileData (snd (m s)) = profileData s.
Proof. intros Hq. apply Hq. Qed.

Lemma commit_profile f p' {B} (k : act B) s :
  f s = set_profile p' s -> quiet k ->
  profileData (snd ((modify f ;;; saveProfileData ;;; k) s)) = p'.
Proof. intros Hf Hq. exact (proj1 (commit_quiet f p' k s Hf Hq)). Qed.

(** Rewrites the profile after a commit, the new profile read off the
    commit's setter. *)
Ltac rewrite_commit :=
  erewrite commit_profile; [| reflexivity | quiet_steps].

Lemma addStock_stocks s :
  stocks (profileData (snd (addStock s))) = stocks (profileData s) \/
  (exists st, stocks (profileData (snd (addStock s))) = (stocks (profileData s) ++ [st])%list).
Proof.
  unfold addStock, alert. rewrite act_bind_get. cbv zeta.
  do 3 (destruct_if; [left; rewrite (quiet_profile _ _); [reflexivity | quiet_steps]|]).
  right. eexists. rewrite_commit. reflexivity.
Qed.

(** C27. Every user event leaves the preferred-stock list as it was,
    removes the stocks of one symbol (keeping the others in order), or
    appends one stock at the end: no handler reorders, rewrites or drops
    other stocks, whatever exceptions it throws. *)
Theorem stocks_step e s :
  stocks (profileData (handle e s)) = stocks (profileData s) \/
  (exists sym, stocks (profileData (handle e s)) =
       List.filter (fun st => negb (String.eqb (symbol st) sym)) (stocks (profileData s))) \/
  (exists st, stocks (profileData (handle e s)) = (stocks (profileData s) ++ [st])%list).
Proof.
  unfold handle. destruct e as [| r | | | | | | t | sym b | id v | pref b]; simpl listener.
  - unfold toggleEditMode. rewrite act_bind_get, act_bind_modify. destruct (isEditMode s); cbn [negb].
    + left. rewrite_commit. reflexivity.
    + left. rewrite (quiet_profile _ _); [reflexivity | quiet_steps].
  - rewrite act_bind_get. destruct_if; [|by left]. unfold handleRiskSelection, mark_risk.
    left. rewrite_commit. reflexivity.
  - left. rewrite (quiet_profile _ _); [reflexivity | quiet_steps].
  - left. rewrite (quiet_profile _ _); [reflexivity | quiet_steps].
  - left. rewrite (quiet_profile _ _); [reflexivity | quiet_steps].
  - destruct (addStock_stocks s); [by left | by right; right].
  - left. rewrite (quiet_profile _ _); [reflexivity | quiet_steps].
  - destruct t; [by left|]. destruct (addStock_stocks s); [by left | by right; right].
  - rewrite act_bind_get. destruct_if; [by left|]. unfold removeStock. destruct b; [|by left].
    right; left. exists sym. rewrite_commit. reflexivity.
  - left. rewrite (quiet_profile _ _); [reflexivity | quiet_steps].
  - destruct_if; [|by left]. left. rewrite (quiet_profile _ _); [reflexivity|].
    apply quiet_preference_changed. intros ->. discriminate Eif.
Qed.

(** ** Lemmas: the loaded page and the round trips *)

Lemma initial_stocks_ok : stocks_ok (stocks initial_profile).
Proof.
  split; [apply (bool_decide_unpack _); vm_compute; exact I|].
  repeat constructor; eexists; (split; [reflexivity | lia]).
Qed.

Lemma initial_inv risk_opts : profile_inv (initial_state risk_opts).
Proof.
  split; [left; reflexivity|]. split; [intros x []|]. exact initial_stocks_ok.
Qed.

Lemma filter_symbol_absent l sym :
  existsb (fun st => String.eqb (symbol st) sym) l = false ->
  List.filter (fun st => negb (String.eqb (symbol st) sym)) l = l.
Proof.
  induction l as [|st l IH]; simpl; [done|]. intros H. apply orb_false_iff in H as [H1 H2].
  rewrite H1. simpl. by rewrite IH.
Qed.

Lemma valid_allocation_checks x :
  valid_allocation x ->
  negb (truthy (JNum x)) = false /\ (js_lt x (of_Z 0) || js_gt x (of_Z 100)) = false.
Proof.
  intros (a & -> & Ha). unfold js_gt. rewrite !js_lt_of_Z. split.
  - unfold truthy, of_Z. apply negb_false_iff, negb_true_iff.
    destruct (Qeq_bool (inject_Z a) 0) eqn:E; [|done].
    apply Qeq_bool_iff in E. unfold Qeq in E. simpl in E. lia.
  - apply orb_false_iff. split; apply Z.ltb_ge; lia.
Qed.

(** ** Theorems *)

(** C24. Whatever the user does on a page loaded with an empty
    [localStorage], the preferred stocks have pairwise different symbols
    and every allocation is an integer from 1 to 100: [addStock]'s
    checks reject [NaN], 0, negative numbers and numbers above 100, and
    a symbol already in the list. *)
Theorem stock_list_bounds risk_opts es :
  stocks_ok (stocks (profileData (run es (initial_state risk_opts)))).
Proof. apply run_inv, initial_inv. Qed.

(** C25. [localStorage] mirrors [profileData]: every handler that
    changes the profile saves it before anything else can happen, so the
    entry "profileData" is either absent or the JSON of the current
    profile. *)
Theorem storage_mirrors_profile risk_opts es :
  let s := run es (initial_state risk_opts) in
  storage s !! "profileData" = None \/
  storage s !! "profileData" = Some (saved_json (profileData s)).
Proof. apply run_inv, initial_inv. Qed.

(** C26. Round trip: a stock added through the modal and then removed
    by a click whose [data-symbol] is its symbol leaves the stock list as
    it was, when the symbol is new.  (Which string a remove button passes
    depends on the browser's parsing of the card markup, see the header:
    for a symbol without a double quote, [&] or [<] it is the symbol.) *)
Theorem add_then_remove_roundtrip s S :
  to_upper (trim (input_value "newStockSymbol" s)) = S -> S <> "" ->
  trim (input_value "newStockName" s) <> "" -> trim (input_value "newStockReason" s) <> "" ->
  valid_allocation (parse_int (input_value "newStockAllocation" s)) ->
  existsb (fun st => String.eqb (symbol st) S) (stocks (profileData s)) = false ->
  In S (grid (page (handle ClickConfirm s))) /\
  stocks (profileData (handle (ClickRemove S true) (handle ClickConfirm s))) =
    stocks (profileData s).
Proof.
  intros HS Hne Hn Hr Ha Hnew.
  destruct (valid_allocation_checks _ Ha) as [Ht Hrange].
  assert (Hadd : exists p', handle ClickConfirm s =
            snd ((modify (set_profile p') ;;; saveProfileData ;;; renderStocks ;;; closeModal) s) /\
            stocks p' = (stocks (profileData s) ++
              [mkStock S (trim (input_value "newStockName" s)) (trim (input_value "newStockReason" s))
                 (parse_int (input_value "newStockAllocation" s))])%list).
  { unfold handle. simpl listener. unfold addStock. rewrite act_bind_get. cbv zeta. rewrite HS.
    destruct_if.
    { exfalso. rewrite Ht, orb_false_r in Eif.
      repeat (apply orb_true_iff in Eif as [Eif|Eif]); apply String.eqb_eq in Eif; auto. }
    rewrite Hrange, Hnew. eexists. split; reflexivity. }
  destruct Hadd as (p' & -> & Hp').
  destruct (commit_render (set_profile p') p' closeModal s eq_refl quiet_closeModal)
    as (Hp & _ & Hg).
  set (s1 := snd ((modify (set_profile p') ;;; saveProfileData ;;; renderStocks ;;; closeModal) s))
    in *.
  assert (Hin : In S (grid (page s1))).
  { rewrite Hg. unfold rendered. rewrite Hp', map_app. apply in_or_app. right. by left. }
  split; [exact Hin|].
  unfold handle. simpl listener. rewrite act_bind_get.
  rewrite bool_decide_false by (intros E; rewrite E in Hin; destruct Hin).
  unfold removeStock. rewrite_commit. rewrite Hp, Hp', List.filter_app.
  rewrite filter_symbol_absent by exact Hnew. simpl. rewrite String.eqb_refl. simpl.
  apply app_nil_r.
Qed.

(** C28. An allocation of 0 passes the range check "between 0 and 100"
    but never gets there: [!allocation] is true for 0, so [addStock]
    answers "Please fill in all fields" whatever the other fields hold,
    and the profile is unchanged. *)
Theorem zero_allocation_rejected s :
  input_value "newStockAllocation" s = "0" ->
  profileData (handle ClickConfirm s) = profileData s /\
  alerts (page (handle ClickConfirm s)) = (alerts (page s) ++ ["Please fill in all fields"])%list.
Proof.
  intros H0. unfold handle. simpl listener. unfold addStock. rewrite act_bind_get. cbv zeta.
  rewrite H0. assert (E : negb (truthy (JNum (parse_int "0"))) = true) by reflexivity.
  rewrite E, !orb_true_r. split; reflexivity.
Qed.

(** C29. Round trip: entering edit mode and saving without changing the
    inputs (which [updateProfileDisplay] filled with the profile) leaves
    the profile as it was, leaves edit mode, and stores its JSON. *)
Theorem edit_save_roundtrip s :
  isEditMode s = false ->
  input_value "fullNameInput" s = fullName (profileData s) ->
  input_value "emailInput" s = email (profileData s) ->
  input_value "locationInput" s = location (profileData s) ->
  input_value "bioInput" s = bio (profileData s) ->
  let s2 := run [ClickEdit; ClickEdit] s in
  profileData s2 = profileData s /\ isEditMode s2 = false /\
  storage s2 !! "profileData" = Some (saved_json (profileData s)).
Proof.
  intros He Hf Hm Hl Hb s2. unfold s2, run. simpl fold_left.
  set (s1 := handle ClickEdit s).
  assert (E1 : isEditMode s1 = true /\ profileData s1 = profileData s /\
               forall id, input_value id s1 = input_value id s).
  { unfold s1, handle. simpl listener. unfold toggleEditMode.
    rewrite act_bind_get, act_bind_modify, He. repeat split. }
  destruct E1 as (He1 & Hp1 & Hv1).
  unfold handle. simpl listener. unfold toggleEditMode.
  rewrite act_bind_get, act_bind_modify, He1. cbn [negb].
  destruct (commit_quiet (fun s => let p := profileData s in
      set_profile (mkProfile (input_value "fullNameInput" s) (input_value "emailInput" s)
                     (input_value "locationInput" s) (input_value "bioInput" s)
                     (riskProfile p) (stocks p)) s)
              (profileData s) (updateProfileDisplay ;;; modify (map_dom (fun d =>
              set_inputs_shown false (set_editing false (set_text "editProfileBtn" "Edit Profile" d)))))
              (mkState false (profileData s1) (storage s1) (page s1)))
    as (Hp & Hs & Hed & _); [| quiet_steps |].
  - assert (Hv : forall id, input_value id (mkState false (profileData s1) (storage s1) (page s1)) =
                          input_value id s) by exact Hv1.
    unfold set_profile. simpl. rewrite !Hv, Hf, Hm, Hl, Hb, Hp1. by destruct (profileData s).
  - split; [exact Hp|]. split; [exact Hed | exact Hs].
Qed.



(** C31. A risk name that is not a key of the [details] table (nor an
    [Object.prototype] member) is saved into [localStorage] first, and
    then [updateRiskDetails] throws on [detail.tolerance]: the bad risk
    profile stays in the profile and in storage. *)
Theorem unknown_risk_saved_then_throws r s :
  get_prop risk_details r = Ok JUndef ->
  let res := handleRiskSelection r s in
  fst res = Throw (error_read "undefined" "tolerance") /\
  riskProfile (profileData (snd res)) = r /\
  storage (snd res) !! "profileData" = Some (saved_json (profileData (snd res))).
Proof.
  intros Hr res. unfold res, handleRiskSelection. rewrite act_bind_modify, act_bind_save.
  unfold updateRiskDetails, act_bind at 1 2, act_lift. rewrite Hr. simpl.
  split; [reflexivity|]. split; [reflexivity|]. apply lookup_insert_eq.
Qed.

(** ** Witnesses *)

Lemma add_then_remove_roundtrip_witness :
  let s := modal_filled " amd " "5" in
  to_upper (trim (input_value "newStockSymbol" s)) = "AMD" /\
  In "AMD" (grid (page (handle ClickConfirm s))) /\
  stocks (profileData (handle (ClickRemove "AMD" true) (handle ClickConfirm s))) =
    stocks (profileData s).
Proof.
  intros s.
  assert (H1 : to_upper (trim (input_value "newStockSymbol" s)) = "AMD") by reflexivity.
  assert (H2 : "AMD" <> "") by discriminate.
  assert (H3 : trim (input_value "newStockName" s) <> "") by (vm_compute; discriminate).
  assert (H4 : trim (input_value "newStockReason" s) <> "") by (vm_compute; discriminate).
  assert (H5 : valid_allocation (parse_int (input_value "newStockAllocation" s)))
    by (exists 5%Z; split; [reflexivity | lia]).
  assert (H6 : existsb (fun st => String.eqb (symbol st) "AMD") (stocks (profileData s)) = false)
    by reflexivity.
  split; [exact H1|].
  exact (add_then_remove_roundtrip s "AMD" H1 H2 H3 H4 H5 H6).
Defined.

Lemma zero_allocation_rejected_witness :
  let s := modal_filled "AMD" "0" in
  input_value "newStockAllocation" s = "0" /\
  profileData (handle ClickConfirm s) = profileData s /\
  alerts (page (handle ClickConfirm s)) = (alerts (page s) ++ ["Please fill in all fields"])%list.
Proof.
  intros s. assert (H : input_value "newStockAllocation" s = "0") by reflexivity.
  split; [exact H|]. exact (zero_allocation_rejected s H).
Defined.

Lemma edit_save_roundtrip_witness :
  let s := snd (updateProfileDisplay (initial_state risk_names)) in
  isEditMode s = false /\
  profileData (run [ClickEdit; ClickEdit] s) = profileData s /\
  isEditMode (run [ClickEdit; ClickEdit] s) = false /\
  storage (run [ClickEdit; ClickEdit] s) !! "profileData" = Some (saved_json (profileData s)).
Proof.
  intros s.
  assert (H0 : isEditMode s = false) by reflexivity.
  assert (H1 : input_value "fullNameInput" s = fullName (profileData s)) by reflexivity.
  assert (H2 : input_value "emailInput" s = email (profileData s)) by reflexivity.
  assert (H3 : input_value "locationInput" s = location (profileData s)) by reflexivity.
  assert (H4 : input_value "bioInput" s = bio (profileData s)) by reflexivity.
  split; [exact H0|]. exact (edit_save_roundtrip s H0 H1 H2 H3 H4).
Defined.


Lemma unknown_risk_saved_then_throws_witness :
  get_prop risk_details "" = Ok JUndef /\
  fst (handleRiskSelection "" (initial_state risk_names)) =
    Throw (error_read "undefined" "tolerance").
Proof.
  assert (H : get_prop risk_details "" = Ok JUndef) by reflexivity.
  split; [exact H|]. exact (proj1 (unknown_risk_saved_then_throws "" (initial_state risk_names) H)).
Defined.
